(** * DocumentAtom Python SDK: shallow embedding and verified properties

    The development follows the package layout of [document_atom_sdk]:

    - [Unicode], [Py], [Pathlib], [Urllib]: the fragments of the Python
      runtime the SDK calls (string methods, [pathlib.PurePath],
      [urllib.parse.urlencode]);
    - [Exceptions]: the exception classes and the raise/return outcome;
    - [Runtime]: the process state the SDK reads and writes (the module
      global [_client], the file system, the observable event trace) and the
      state-and-exception monad in which the class methods are written;
    - [Configuration], [UrlHelper], [Mixins], [Models], [Resources]: the
      source modules of the same names;
    - [Base]: the request client, whose source file is not part of the
      tree and which is therefore modelled from the specification.

    Text is modelled by [string], read as the UTF-8 form of the Python
    [str]; byte payloads by [list Byte.byte]. *)

From Stdlib Require Import String Ascii List ZArith NArith Lia Bool DecimalString.
Import ListNotations.
Local Open Scope string_scope.

#[local] Set Warnings "-register-all".


(* ===================================================================== *)
(** ** Unicode lower-casing *)
(* ===================================================================== *)

(** [str.lower()] as CPython implements it ([do_lower] in
    [Objects/unicodeobject.c]): each code point is replaced by its
    lower-case mapping, and capital sigma by the final or the medial small
    sigma according to its neighbours. *)

Module Unicode.

Local Open Scope N_scope.

(** The simple and full lower-case mappings of the Unicode Character
    Database 14.0.0 (the version CPython 3.11 ships): every code point that
    [str.lower()] changes, with the code points it becomes.  Capital sigma
    (931) is absent: its image depends on the context and is computed by
    [final_sigma]. *)
Definition lower_table : list (N * list N) :=
  [
    (65, [97]); (66, [98]); (67, [99]); (68, [100]); (69, [101]); (70, [102]);
    (71, [103]); (72, [104]); (73, [105]); (74, [106]); (75, [107]);
    (76, [108]); (77, [109]); (78, [110]); (79, [111]); (80, [112]);
    (81, [113]); (82, [114]); (83, [115]); (84, [116]); (85, [117]);
    (86, [118]); (87, [119]); (88, [120]); (89, [121]); (90, [122]);
    (192, [224]); (193, [225]); (194, [226]); (195, [227]); (196, [228]);
    (197, [229]); (198, [230]); (199, [231]); (200, [232]); (201, [233]);
    (202, [234]); (203, [235]); (204, [236]); (205, [237]); (206, [238]);
    (207, [239]); (208, [240]); (209, [241]); (210, [242]); (211, [243]);
    (212, [244]); (213, [245]); (214, [246]); (216, [248]); (217, [249]);
    (218, [250]); (219, [251]); (220, [252]); (221, [253]); (222, [254]);
    (256, [257]); (258, [259]); (260, [261]); (262, [263]); (264, [265]);
    (266, [267]); (268, [269]); (270, [271]); (272, [273]); (274, [275]);
    (276, [277]); (278, [279]); (280, [281]); (282, [283]); (284, [285]);
    (286, [287]); (288, [289]); (290, [291]); (292, [293]); (294, [295]);
    (296, [297]); (298, [299]); (300, [301]); (302, [303]); (304, [105; 775]);
    (306, [307]); (308, [309]); (310, [311]); (313, [314]); (315, [316]);
    (317, [318]); (319, [320]); (321, [322]); (323, [324]); (325, [326]);
    (327, [328]); (330, [331]); (332, [333]); (334, [335]); (336, [337]);
    (338, [339]); (340, [341]); (342, [343]); (344, [345]); (346, [347]);
    (348, [349]); (350, [351]); (352, [353]); (354, [355]); (356, [357]);
    (358, [359]); (360, [361]); (362, [363]); (364, [365]); (366, [367]);
    (368, [369]); (370, [371]); (372, [373]); (374, [375]); (376, [255]);
    (377, [378]); (379, [380]); (381, [382]); (385, [595]); (386, [387]);
    (388, [389]); (390, [596]); (391, [392]); (393, [598]); (394, [599]);
    (395, [396]); (398, [477]); (399, [601]); (400, [603]); (401, [402]);
    (403, [608]); (404, [611]); (406, [617]); (407, [616]); (408, [409]);
    (412, [623]); (413, [626]); (415, [629]); (416, [417]); (418, [419]);
    (420, [421]); (422, [640]); (423, [424]); (425, [643]); (428, [429]);
    (430, [648]); (431, [432]); (433, [650]); (434, [651]); (435, [436]);
    (437, [438]); (439, [658]); (440, [441]); (444, [445]); (452, [454]);
    (453, [454]); (455, [457]); (456, [457]); (458, [460]); (459, [460]);
    (461, [462]); (463, [464]); (465, [466]); (467, [468]); (469, [470]);
    (471, [472]); (473, [474]); (475, [476]); (478, [479]); (480, [481]);
    (482, [483]); (484, [485]); (486, [487]); (488, [489]); (490, [491]);
    (492, [493]); (494, [495]); (497, [499]); (498, [499]); (500, [501]);
    (502, [405]); (503, [447]); (504, [505]); (506, [507]); (508, [509]);
    (510, [511]); (512, [513]); (514, [515]); (516, [517]); (518, [519]);
    (520, [521]); (522, [523]); (524, [525]); (526, [527]); (528, [529]);
    (530, [531]); (532, [533]); (534, [535]); (536, [537]); (538, [539]);
    (540, [541]); (542, [543]); (544, [414]); (546, [547]); (548, [549]);
    (550, [551]); (552, [553]); (554, [555]); (556, [557]); (558, [559]);
    (560, [561]); (562, [563]); (570, [11365]); (571, [572]); (573, [410]);
    (574, [11366]); (577, [578]); (579, [384]); (580, [649]); (581, [652]);
    (582, [583]); (584, [585]); (586, [587]); (588, [589]); (590, [591]);
    (880, [881]); (882, [883]); (886, [887]); (895, [1011]); (902, [940]);
    (904, [941]); (905, [942]); (906, [943]); (908, [972]); (910, [973]);
    (911, [974]); (913, [945]); (914, [946]); (915, [947]); (916, [948]);
    (917, [949]); (918, [950]); (919, [951]); (920, [952]); (921, [953]);
    (922, [954]); (923, [955]); (924, [956]); (925, [957]); (926, [958]);
    (927, [959]); (928, [960]); (929, [961]); (932, [964]); (933, [965]);
    (934, [966]); (935, [967]); (936, [968]); (937, [969]); (938, [970]);
    (939, [971]); (975, [983]); (984, [985]); (986, [987]); (988, [989]);
    (990, [991]); (992, [993]); (994, [995]); (996, [997]); (998, [999]);
    (1000, [1001]); (1002, [1003]); (1004, [1005]); (1006, [1007]);
    (1012, [952]); (1015, [1016]); (1017, [1010]); (1018, [1019]);
    (1021, [891]); (1022, [892]); (1023, [893]); (1024, [1104]);
    (1025, [1105]); (1026, [1106]); (1027, [1107]); (1028, [1108]);
    (1029, [1109]); (1030, [1110]); (1031, [1111]); (1032, [1112]);
    (1033, [1113]); (1034, [1114]); (1035, [1115]); (1036, [1116]);
    (1037, [1117]); (1038, [1118]); (1039, [1119]); (1040, [1072]);
    (1041, [1073]); (1042, [1074]); (1043, [1075]); (1044, [1076]);
    (1045, [1077]); (1046, [1078]); (1047, [1079]); (1048, [1080]);
    (1049, [1081]); (1050, [1082]); (1051, [1083]); (1052, [1084]);
    (1053, [1085]); (1054, [1086]); (1055, [1087]); (1056, [1088]);
    (1057, [1089]); (1058, [1090]); (1059, [1091]); (1060, [1092]);
    (1061, [1093]); (1062, [1094]); (1063, [1095]); (1064, [1096]);
    (1065, [1097]); (1066, [1098]); (1067, [1099]); (1068, [1100]);
    (1069, [1101]); (1070, [1102]); (1071, [1103]); (1120, [1121]);
    (1122, [1123]); (1124, [1125]); (1126, [1127]); (1128, [1129]);
    (1130, [1131]); (1132, [1133]); (1134, [1135]); (1136, [1137]);
    (1138, [1139]); (1140, [1141]); (1142, [1143]); (1144, [1145]);
    (1146, [1147]); (1148, [1149]); (1150, [1151]); (1152, [1153]);
    (1162, [1163]); (1164, [1165]); (1166, [1167]); (1168, [1169]);
    (1170, [1171]); (1172, [1173]); (1174, [1175]); (1176, [1177]);
    (1178, [1179]); (1180, [1181]); (1182, [1183]); (1184, [1185]);
    (1186, [1187]); (1188, [1189]); (1190, [1191]); (1192, [1193]);
    (1194, [1195]); (1196, [1197]); (1198, [1199]); (1200, [1201]);
    (1202, [1203]); (1204, [1205]); (1206, [1207]); (1208, [1209]);
    (1210, [1211]); (1212, [1213]); (1214, [1215]); (1216, [1231]);
    (1217, [1218]); (1219, [1220]); (1221, [1222]); (1223, [1224]);
    (1225, [1226]); (1227, [1228]); (1229, [1230]); (1232, [1233]);
    (1234, [1235]); (1236, [1237]); (1238, [1239]); (1240, [1241]);
    (1242, [1243]); (1244, [1245]); (1246, [1247]); (1248, [1249]);
    (1250, [1251]); (1252, [1253]); (1254, [1255]); (1256, [1257]);
    (1258, [1259]); (1260, [1261]); (1262, [1263]); (1264, [1265]);
    (1266, [1267]); (1268, [1269]); (1270, [1271]); (1272, [1273]);
    (1274, [1275]); (1276, [1277]); (1278, [1279]); (1280, [1281]);
    (1282, [1283]); (1284, [1285]); (1286, [1287]); (1288, [1289]);
    (1290, [1291]); (1292, [1293]); (1294, [1295]); (1296, [1297]);
    (1298, [1299]); (1300, [1301]); (1302, [1303]); (1304, [1305]);
    (1306, [1307]); (1308, [1309]); (1310, [1311]); (1312, [1313]);
    (1314, [1315]); (1316, [1317]); (1318, [1319]); (1320, [1321]);
    (1322, [1323]); (1324, [1325]); (1326, [1327]); (1329, [1377]);
    (1330, [1378]); (1331, [1379]); (1332, [1380]); (1333, [1381]);
    (1334, [1382]); (1335, [1383]); (1336, [1384]); (1337, [1385]);
    (1338, [1386]); (1339, [1387]); (1340, [1388]); (1341, [1389]);
    (1342, [1390]); (1343, [1391]); (1344, [1392]); (1345, [1393]);
    (1346, [1394]); (1347, [1395]); (1348, [1396]); (1349, [1397]);
    (1350, [1398]); (1351, [1399]); (1352, [1400]); (1353, [1401]);
    (1354, [1402]); (1355, [1403]); (1356, [1404]); (1357, [1405]);
    (1358, [1406]); (1359, [1407]); (1360, [1408]); (1361, [1409]);
    (1362, [1410]); (1363, [1411]); (1364, [1412]); (1365, [1413]);
    (1366, [1414]); (4256, [11520]); (4257, [11521]); (4258, [11522]);
    (4259, [11523]); (4260, [11524]); (4261, [11525]); (4262, [11526]);
    (4263, [11527]); (4264, [11528]); (4265, [11529]); (4266, [11530]);
    (4267, [11531]); (4268, [11532]); (4269, [11533]); (4270, [11534]);
    (4271, [11535]); (4272, [11536]); (4273, [11537]); (4274, [11538]);
    (4275, [11539]); (4276, [11540]); (4277, [11541]); (4278, [11542]);
    (4279, [11543]); (4280, [11544]); (4281, [11545]); (4282, [11546]);
    (4283, [11547]); (4284, [11548]); (4285, [11549]); (4286, [11550]);
    (4287, [11551]); (4288, [11552]); (4289, [11553]); (4290, [11554]);
    (4291, [11555]); (4292, [11556]); (4293, [11557]); (4295, [11559]);
    (4301, [11565]); (5024, [43888]); (5025, [43889]); (5026, [43890]);
    (5027, [43891]); (5028, [43892]); (5029, [43893]); (5030, [43894]);
    (5031, [43895]); (5032, [43896]); (5033, [43897]); (5034, [43898]);
    (5035, [43899]); (5036, [43900]); (5037, [43901]); (5038, [43902]);
    (5039, [43903]); (5040, [43904]); (5041, [43905]); (5042, [43906]);
    (5043, [43907]); (5044, [43908]); (5045, [43909]); (5046, [43910]);
    (5047, [43911]); (5048, [43912]); (5049, [43913]); (5050, [43914]);
    (5051, [43915]); (5052, [43916]); (5053, [43917]); (5054, [43918]);
    (5055, [43919]); (5056, [43920]); (5057, [43921]); (5058, [43922]);
    (5059, [43923]); (5060, [43924]); (5061, [43925]); (5062, [43926]);
    (5063, [43927]); (5064, [43928]); (5065, [43929]); (5066, [43930]);
    (5067, [43931]); (5068, [43932]); (5069, [43933]); (5070, [43934]);
    (5071, [43935]); (5072, [43936]); (5073, [43937]); (5074, [43938]);
    (5075, [43939]); (5076, [43940]); (5077, [43941]); (5078, [43942]);
    (5079, [43943]); (5080, [43944]); (5081, [43945]); (5082, [43946]);
    (5083, [43947]); (5084, [43948]); (5085, [43949]); (5086, [43950]);
    (5087, [43951]); (5088, [43952]); (5089, [43953]); (5090, [43954]);
    (5091, [43955]); (5092, [43956]); (5093, [43957]); (5094, [43958]);
    (5095, [43959]); (5096, [43960]); (5097, [43961]); (5098, [43962]);
    (5099, [43963]); (5100, [43964]); (5101, [43965]); (5102, [43966]);
    (5103, [43967]); (5104, [5112]); (5105, [5113]); (5106, [5114]);
    (5107, [5115]); (5108, [5116]); (5109, [5117]); (7312, [4304]);
    (7313, [4305]); (7314, [4306]); (7315, [4307]); (7316, [4308]);
    (7317, [4309]); (7318, [4310]); (7319, [4311]); (7320, [4312]);
    (7321, [4313]); (7322, [4314]); (7323, [4315]); (7324, [4316]);
    (7325, [4317]); (7326, [4318]); (7327, [4319]); (7328, [4320]);
    (7329, [4321]); (7330, [4322]); (7331, [4323]); (7332, [4324]);
    (7333, [4325]); (7334, [4326]); (7335, [4327]); (7336, [4328]);
    (7337, [4329]); (7338, [4330]); (7339, [4331]); (7340, [4332]);
    (7341, [4333]); (7342, [4334]); (7343, [4335]); (7344, [4336]);
    (7345, [4337]); (7346, [4338]); (7347, [4339]); (7348, [4340]);
    (7349, [4341]); (7350, [4342]); (7351, [4343]); (7352, [4344]);
    (7353, [4345]); (7354, [4346]); (7357, [4349]); (7358, [4350]);
    (7359, [4351]); (7680, [7681]); (7682, [7683]); (7684, [7685]);
    (7686, [7687]); (7688, [7689]); (7690, [7691]); (7692, [7693]);
    (7694, [7695]); (7696, [7697]); (7698, [7699]); (7700, [7701]);
    (7702, [7703]); (7704, [7705]); (7706, [7707]); (7708, [7709]);
    (7710, [7711]); (7712, [7713]); (7714, [7715]); (7716, [7717]);
    (7718, [7719]); (7720, [7721]); (7722, [7723]); (7724, [7725]);
    (7726, [7727]); (7728, [7729]); (7730, [7731]); (7732, [7733]);
    (7734, [7735]); (7736, [7737]); (7738, [7739]); (7740, [7741]);
    (7742, [7743]); (7744, [7745]); (7746, [7747]); (7748, [7749]);
    (7750, [7751]); (7752, [7753]); (7754, [7755]); (7756, [7757]);
    (7758, [7759]); (7760, [7761]); (7762, [7763]); (7764, [7765]);
    (7766, [7767]); (7768, [7769]); (7770, [7771]); (7772, [7773]);
    (7774, [7775]); (7776, [7777]); (7778, [7779]); (7780, [7781]);
    (7782, [7783]); (7784, [7785]); (7786, [7787]); (7788, [7789]);
    (7790, [7791]); (7792, [7793]); (7794, [7795]); (7796, [7797]);
    (7798, [7799]); (7800, [7801]); (7802, [7803]); (7804, [7805]);
    (7806, [7807]); (7808, [7809]); (7810, [7811]); (7812, [7813]);
    (7814, [7815]); (7816, [7817]); (7818, [7819]); (7820, [7821]);
    (7822, [7823]); (7824, [7825]); (7826, [7827]); (7828, [7829]);
    (7838, [223]); (7840, [7841]); (7842, [7843]); (7844, [7845]);
    (7846, [7847]); (7848, [7849]); (7850, [7851]); (7852, [7853]);
    (7854, [7855]); (7856, [7857]); (7858, [7859]); (7860, [7861]);
    (7862, [7863]); (7864, [7865]); (7866, [7867]); (7868, [7869]);
    (7870, [7871]); (7872, [7873]); (7874, [7875]); (7876, [7877]);
    (7878, [7879]); (7880, [7881]); (7882, [7883]); (7884, [7885]);
    (7886, [7887]); (7888, [7889]); (7890, [7891]); (7892, [7893]);
    (7894, [7895]); (7896, [7897]); (7898, [7899]); (7900, [7901]);
    (7902, [7903]); (7904, [7905]); (7906, [7907]); (7908, [7909]);
    (7910, [7911]); (7912, [7913]); (7914, [7915]); (7916, [7917]);
    (7918, [7919]); (7920, [7921]); (7922, [7923]); (7924, [7925]);
    (7926, [7927]); (7928, [7929]); (7930, [7931]); (7932, [7933]);
    (7934, [7935]); (7944, [7936]); (7945, [7937]); (7946, [7938]);
    (7947, [7939]); (7948, [7940]); (7949, [7941]); (7950, [7942]);
    (7951, [7943]); (7960, [7952]); (7961, [7953]); (7962, [7954]);
    (7963, [7955]); (7964, [7956]); (7965, [7957]); (7976, [7968]);
    (7977, [7969]); (7978, [7970]); (7979, [7971]); (7980, [7972]);
    (7981, [7973]); (7982, [7974]); (7983, [7975]); (7992, [7984]);
    (7993, [7985]); (7994, [7986]); (7995, [7987]); (7996, [7988]);
    (7997, [7989]); (7998, [7990]); (7999, [7991]); (8008, [8000]);
    (8009, [8001]); (8010, [8002]); (8011, [8003]); (8012, [8004]);
    (8013, [8005]); (8025, [8017]); (8027, [8019]); (8029, [8021]);
    (8031, [8023]); (8040, [8032]); (8041, [8033]); (8042, [8034]);
    (8043, [8035]); (8044, [8036]); (8045, [8037]); (8046, [8038]);
    (8047, [8039]); (8072, [8064]); (8073, [8065]); (8074, [8066]);
    (8075, [8067]); (8076, [8068]); (8077, [8069]); (8078, [8070]);
    (8079, [8071]); (8088, [8080]); (8089, [8081]); (8090, [8082]);
    (8091, [8083]); (8092, [8084]); (8093, [8085]); (8094, [8086]);
    (8095, [8087]); (8104, [8096]); (8105, [8097]); (8106, [8098]);
    (8107, [8099]); (8108, [8100]); (8109, [8101]); (8110, [8102]);
    (8111, [8103]); (8120, [8112]); (8121, [8113]); (8122, [8048]);
    (8123, [8049]); (8124, [8115]); (8136, [8050]); (8137, [8051]);
    (8138, [8052]); (8139, [8053]); (8140, [8131]); (8152, [8144]);
    (8153, [8145]); (8154, [8054]); (8155, [8055]); (8168, [8160]);
    (8169, [8161]); (8170, [8058]); (8171, [8059]); (8172, [8165]);
    (8184, [8056]); (8185, [8057]); (8186, [8060]); (8187, [8061]);
    (8188, [8179]); (8486, [969]); (8490, [107]); (8491, [229]);
    (8498, [8526]); (8544, [8560]); (8545, [8561]); (8546, [8562]);
    (8547, [8563]); (8548, [8564]); (8549, [8565]); (8550, [8566]);
    (8551, [8567]); (8552, [8568]); (8553, [8569]); (8554, [8570]);
    (8555, [8571]); (8556, [8572]); (8557, [8573]); (8558, [8574]);
    (8559, [8575]); (8579, [8580]); (9398, [9424]); (9399, [9425]);
    (9400, [9426]); (9401, [9427]); (9402, [9428]); (9403, [9429]);
    (9404, [9430]); (9405, [9431]); (9406, [9432]); (9407, [9433]);
    (9408, [9434]); (9409, [9435]); (9410, [9436]); (9411, [9437]);
    (9412, [9438]); (9413, [9439]); (9414, [9440]); (9415, [9441]);
    (9416, [9442]); (9417, [9443]); (9418, [9444]); (9419, [9445]);
    (9420, [9446]); (9421, [9447]); (9422, [9448]); (9423, [9449]);
    (11264, [11312]); (11265, [11313]); (11266, [11314]); (11267, [11315]);
    (11268, [11316]); (11269, [11317]); (11270, [11318]); (11271, [11319]);
    (11272, [11320]); (11273, [11321]); (11274, [11322]); (11275, [11323]);
    (11276, [11324]); (11277, [11325]); (11278, [11326]); (11279, [11327]);
    (11280, [11328]); (11281, [11329]); (11282, [11330]); (11283, [11331]);
    (11284, [11332]); (11285, [11333]); (11286, [11334]); (11287, [11335]);
    (11288, [11336]); (11289, [11337]); (11290, [11338]); (11291, [11339]);
    (11292, [11340]); (11293, [11341]); (11294, [11342]); (11295, [11343]);
    (11296, [11344]); (11297, [11345]); (11298, [11346]); (11299, [11347]);
    (11300, [11348]); (11301, [11349]); (11302, [11350]); (11303, [11351]);
    (11304, [11352]); (11305, [11353]); (11306, [11354]); (11307, [11355]);
    (11308, [11356]); (11309, [11357]); (11310, [11358]); (11311, [11359]);
    (11360, [11361]); (11362, [619]); (11363, [7549]); (11364, [637]);
    (11367, [11368]); (11369, [11370]); (11371, [11372]); (11373, [593]);
    (11374, [625]); (11375, [592]); (11376, [594]); (11378, [11379]);
    (11381, [11382]); (11390, [575]); (11391, [576]); (11392, [11393]);
    (11394, [11395]); (11396, [11397]); (11398, [11399]); (11400, [11401]);
    (11402, [11403]); (11404, [11405]); (11406, [11407]); (11408, [11409]);
    (11410, [11411]); (11412, [11413]); (11414, [11415]); (11416, [11417]);
    (11418, [11419]); (11420, [11421]); (11422, [11423]); (11424, [11425]);
    (11426, [11427]); (11428, [11429]); (11430, [11431]); (11432, [11433]);
    (11434, [11435]); (11436, [11437]); (11438, [11439]); (11440, [11441]);
    (11442, [11443]); (11444, [11445]); (11446, [11447]); (11448, [11449]);
    (11450, [11451]); (11452, [11453]); (11454, [11455]); (11456, [11457]);
    (11458, [11459]); (11460, [11461]); (11462, [11463]); (11464, [11465]);
    (11466, [11467]); (11468, [11469]); (11470, [11471]); (11472, [11473]);
    (11474, [11475]); (11476, [11477]); (11478, [11479]); (11480, [11481]);
    (11482, [11483]); (11484, [11485]); (11486, [11487]); (11488, [11489]);
    (11490, [11491]); (11499, [11500]); (11501, [11502]); (11506, [11507]);
    (42560, [42561]); (42562, [42563]); (42564, [42565]); (42566, [42567]);
    (42568, [42569]); (42570, [42571]); (42572, [42573]); (42574, [42575]);
    (42576, [42577]); (42578, [42579]); (42580, [42581]); (42582, [42583]);
    (42584, [42585]); (42586, [42587]); (42588, [42589]); (42590, [42591]);
    (42592, [42593]); (42594, [42595]); (42596, [42597]); (42598, [42599]);
    (42600, [42601]); (42602, [42603]); (42604, [42605]); (42624, [42625]);
    (42626, [42627]); (42628, [42629]); (42630, [42631]); (42632, [42633]);
    (42634, [42635]); (42636, [42637]); (42638, [42639]); (42640, [42641]);
    (42642, [42643]); (42644, [42645]); (42646, [42647]); (42648, [42649]);
    (42650, [42651]); (42786, [42787]); (42788, [42789]); (42790, [42791]);
    (42792, [42793]); (42794, [42795]); (42796, [42797]); (42798, [42799]);
    (42802, [42803]); (42804, [42805]); (42806, [42807]); (42808, [42809]);
    (42810, [42811]); (42812, [42813]); (42814, [42815]); (42816, [42817]);
    (42818, [42819]); (42820, [42821]); (42822, [42823]); (42824, [42825]);
    (42826, [42827]); (42828, [42829]); (42830, [42831]); (42832, [42833]);
    (42834, [42835]); (42836, [42837]); (42838, [42839]); (42840, [42841]);
    (42842, [42843]); (42844, [42845]); (42846, [42847]); (42848, [42849]);
    (42850, [42851]); (42852, [42853]); (42854, [42855]); (42856, [42857]);
    (42858, [42859]); (42860, [42861]); (42862, [42863]); (42873, [42874]);
    (42875, [42876]); (42877, [7545]); (42878, [42879]); (42880, [42881]);
    (42882, [42883]); (42884, [42885]); (42886, [42887]); (42891, [42892]);
    (42893, [613]); (42896, [42897]); (42898, [42899]); (42902, [42903]);
    (42904, [42905]); (42906, [42907]); (42908, [42909]); (42910, [42911]);
    (42912, [42913]); (42914, [42915]); (42916, [42917]); (42918, [42919]);
    (42920, [42921]); (42922, [614]); (42923, [604]); (42924, [609]);
    (42925, [620]); (42926, [618]); (42928, [670]); (42929, [647]);
    (42930, [669]); (42931, [43859]); (42932, [42933]); (42934, [42935]);
    (42936, [42937]); (42938, [42939]); (42940, [42941]); (42942, [42943]);
    (42944, [42945]); (42946, [42947]); (42948, [42900]); (42949, [642]);
    (42950, [7566]); (42951, [42952]); (42953, [42954]); (42960, [42961]);
    (42966, [42967]); (42968, [42969]); (42997, [42998]); (65313, [65345]);
    (65314, [65346]); (65315, [65347]); (65316, [65348]); (65317, [65349]);
    (65318, [65350]); (65319, [65351]); (65320, [65352]); (65321, [65353]);
    (65322, [65354]); (65323, [65355]); (65324, [65356]); (65325, [65357]);
    (65326, [65358]); (65327, [65359]); (65328, [65360]); (65329, [65361]);
    (65330, [65362]); (65331, [65363]); (65332, [65364]); (65333, [65365]);
    (65334, [65366]); (65335, [65367]); (65336, [65368]); (65337, [65369]);
    (65338, [65370]); (66560, [66600]); (66561, [66601]); (66562, [66602]);
    (66563, [66603]); (66564, [66604]); (66565, [66605]); (66566, [66606]);
    (66567, [66607]); (66568, [66608]); (66569, [66609]); (66570, [66610]);
    (66571, [66611]); (66572, [66612]); (66573, [66613]); (66574, [66614]);
    (66575, [66615]); (66576, [66616]); (66577, [66617]); (66578, [66618]);
    (66579, [66619]); (66580, [66620]); (66581, [66621]); (66582, [66622]);
    (66583, [66623]); (66584, [66624]); (66585, [66625]); (66586, [66626]);
    (66587, [66627]); (66588, [66628]); (66589, [66629]); (66590, [66630]);
    (66591, [66631]); (66592, [66632]); (66593, [66633]); (66594, [66634]);
    (66595, [66635]); (66596, [66636]); (66597, [66637]); (66598, [66638]);
    (66599, [66639]); (66736, [66776]); (66737, [66777]); (66738, [66778]);
    (66739, [66779]); (66740, [66780]); (66741, [66781]); (66742, [66782]);
    (66743, [66783]); (66744, [66784]); (66745, [66785]); (66746, [66786]);
    (66747, [66787]); (66748, [66788]); (66749, [66789]); (66750, [66790]);
    (66751, [66791]); (66752, [66792]); (66753, [66793]); (66754, [66794]);
    (66755, [66795]); (66756, [66796]); (66757, [66797]); (66758, [66798]);
    (66759, [66799]); (66760, [66800]); (66761, [66801]); (66762, [66802]);
    (66763, [66803]); (66764, [66804]); (66765, [66805]); (66766, [66806]);
    (66767, [66807]); (66768, [66808]); (66769, [66809]); (66770, [66810]);
    (66771, [66811]); (66928, [66967]); (66929, [66968]); (66930, [66969]);
    (66931, [66970]); (66932, [66971]); (66933, [66972]); (66934, [66973]);
    (66935, [66974]); (66936, [66975]); (66937, [66976]); (66938, [66977]);
    (66940, [66979]); (66941, [66980]); (66942, [66981]); (66943, [66982]);
    (66944, [66983]); (66945, [66984]); (66946, [66985]); (66947, [66986]);
    (66948, [66987]); (66949, [66988]); (66950, [66989]); (66951, [66990]);
    (66952, [66991]); (66953, [66992]); (66954, [66993]); (66956, [66995]);
    (66957, [66996]); (66958, [66997]); (66959, [66998]); (66960, [66999]);
    (66961, [67000]); (66962, [67001]); (66964, [67003]); (66965, [67004]);
    (68736, [68800]); (68737, [68801]); (68738, [68802]); (68739, [68803]);
    (68740, [68804]); (68741, [68805]); (68742, [68806]); (68743, [68807]);
    (68744, [68808]); (68745, [68809]); (68746, [68810]); (68747, [68811]);
    (68748, [68812]); (68749, [68813]); (68750, [68814]); (68751, [68815]);
    (68752, [68816]); (68753, [68817]); (68754, [68818]); (68755, [68819]);
    (68756, [68820]); (68757, [68821]); (68758, [68822]); (68759, [68823]);
    (68760, [68824]); (68761, [68825]); (68762, [68826]); (68763, [68827]);
    (68764, [68828]); (68765, [68829]); (68766, [68830]); (68767, [68831]);
    (68768, [68832]); (68769, [68833]); (68770, [68834]); (68771, [68835]);
    (68772, [68836]); (68773, [68837]); (68774, [68838]); (68775, [68839]);
    (68776, [68840]); (68777, [68841]); (68778, [68842]); (68779, [68843]);
    (68780, [68844]); (68781, [68845]); (68782, [68846]); (68783, [68847]);
    (68784, [68848]); (68785, [68849]); (68786, [68850]); (71840, [71872]);
    (71841, [71873]); (71842, [71874]); (71843, [71875]); (71844, [71876]);
    (71845, [71877]); (71846, [71878]); (71847, [71879]); (71848, [71880]);
    (71849, [71881]); (71850, [71882]); (71851, [71883]); (71852, [71884]);
    (71853, [71885]); (71854, [71886]); (71855, [71887]); (71856, [71888]);
    (71857, [71889]); (71858, [71890]); (71859, [71891]); (71860, [71892]);
    (71861, [71893]); (71862, [71894]); (71863, [71895]); (71864, [71896]);
    (71865, [71897]); (71866, [71898]); (71867, [71899]); (71868, [71900]);
    (71869, [71901]); (71870, [71902]); (71871, [71903]); (93760, [93792]);
    (93761, [93793]); (93762, [93794]); (93763, [93795]); (93764, [93796]);
    (93765, [93797]); (93766, [93798]); (93767, [93799]); (93768, [93800]);
    (93769, [93801]); (93770, [93802]); (93771, [93803]); (93772, [93804]);
    (93773, [93805]); (93774, [93806]); (93775, [93807]); (93776, [93808]);
    (93777, [93809]); (93778, [93810]); (93779, [93811]); (93780, [93812]);
    (93781, [93813]); (93782, [93814]); (93783, [93815]); (93784, [93816]);
    (93785, [93817]); (93786, [93818]); (93787, [93819]); (93788, [93820]);
    (93789, [93821]); (93790, [93822]); (93791, [93823]); (125184, [125218]);
    (125185, [125219]); (125186, [125220]); (125187, [125221]);
    (125188, [125222]); (125189, [125223]); (125190, [125224]);
    (125191, [125225]); (125192, [125226]); (125193, [125227]);
    (125194, [125228]); (125195, [125229]); (125196, [125230]);
    (125197, [125231]); (125198, [125232]); (125199, [125233]);
    (125200, [125234]); (125201, [125235]); (125202, [125236]);
    (125203, [125237]); (125204, [125238]); (125205, [125239]);
    (125206, [125240]); (125207, [125241]); (125208, [125242]);
    (125209, [125243]); (125210, [125244]); (125211, [125245]);
    (125212, [125246]); (125213, [125247]); (125214, [125248]);
    (125215, [125249]); (125216, [125250]); (125217, [125251]) ]%N.

(** The code points with the property Case_Ignorable, as inclusive
    ranges. *)
Definition case_ignorable_ranges : list (N * N) :=
  [
    (39, 39); (46, 46); (58, 58); (94, 94); (96, 96); (168, 168); (173, 173);
    (175, 175); (180, 180); (183, 184); (688, 879); (884, 885); (890, 890);
    (900, 901); (903, 903); (1155, 1161); (1369, 1369); (1375, 1375);
    (1425, 1469); (1471, 1471); (1473, 1474); (1476, 1477); (1479, 1479);
    (1524, 1524); (1536, 1541); (1552, 1562); (1564, 1564); (1600, 1600);
    (1611, 1631); (1648, 1648); (1750, 1757); (1759, 1768); (1770, 1773);
    (1807, 1807); (1809, 1809); (1840, 1866); (1958, 1968); (2027, 2037);
    (2042, 2042); (2045, 2045); (2070, 2093); (2137, 2139); (2184, 2184);
    (2192, 2193); (2200, 2207); (2249, 2306); (2362, 2362); (2364, 2364);
    (2369, 2376); (2381, 2381); (2385, 2391); (2402, 2403); (2417, 2417);
    (2433, 2433); (2492, 2492); (2497, 2500); (2509, 2509); (2530, 2531);
    (2558, 2558); (2561, 2562); (2620, 2620); (2625, 2626); (2631, 2632);
    (2635, 2637); (2641, 2641); (2672, 2673); (2677, 2677); (2689, 2690);
    (2748, 2748); (2753, 2757); (2759, 2760); (2765, 2765); (2786, 2787);
    (2810, 2815); (2817, 2817); (2876, 2876); (2879, 2879); (2881, 2884);
    (2893, 2893); (2901, 2902); (2914, 2915); (2946, 2946); (3008, 3008);
    (3021, 3021); (3072, 3072); (3076, 3076); (3132, 3132); (3134, 3136);
    (3142, 3144); (3146, 3149); (3157, 3158); (3170, 3171); (3201, 3201);
    (3260, 3260); (3263, 3263); (3270, 3270); (3276, 3277); (3298, 3299);
    (3328, 3329); (3387, 3388); (3393, 3396); (3405, 3405); (3426, 3427);
    (3457, 3457); (3530, 3530); (3538, 3540); (3542, 3542); (3633, 3633);
    (3636, 3642); (3654, 3662); (3761, 3761); (3764, 3772); (3782, 3782);
    (3784, 3789); (3864, 3865); (3893, 3893); (3895, 3895); (3897, 3897);
    (3953, 3966); (3968, 3972); (3974, 3975); (3981, 3991); (3993, 4028);
    (4038, 4038); (4141, 4144); (4146, 4151); (4153, 4154); (4157, 4158);
    (4184, 4185); (4190, 4192); (4209, 4212); (4226, 4226); (4229, 4230);
    (4237, 4237); (4253, 4253); (4348, 4348); (4957, 4959); (5906, 5908);
    (5938, 5939); (5970, 5971); (6002, 6003); (6068, 6069); (6071, 6077);
    (6086, 6086); (6089, 6099); (6103, 6103); (6109, 6109); (6155, 6159);
    (6211, 6211); (6277, 6278); (6313, 6313); (6432, 6434); (6439, 6440);
    (6450, 6450); (6457, 6459); (6679, 6680); (6683, 6683); (6742, 6742);
    (6744, 6750); (6752, 6752); (6754, 6754); (6757, 6764); (6771, 6780);
    (6783, 6783); (6823, 6823); (6832, 6862); (6912, 6915); (6964, 6964);
    (6966, 6970); (6972, 6972); (6978, 6978); (7019, 7027); (7040, 7041);
    (7074, 7077); (7080, 7081); (7083, 7085); (7142, 7142); (7144, 7145);
    (7149, 7149); (7151, 7153); (7212, 7219); (7222, 7223); (7288, 7293);
    (7376, 7378); (7380, 7392); (7394, 7400); (7405, 7405); (7412, 7412);
    (7416, 7417); (7468, 7530); (7544, 7544); (7579, 7679); (8125, 8125);
    (8127, 8129); (8141, 8143); (8157, 8159); (8173, 8175); (8189, 8190);
    (8203, 8207); (8216, 8217); (8228, 8228); (8231, 8231); (8234, 8238);
    (8288, 8292); (8294, 8303); (8305, 8305); (8319, 8319); (8336, 8348);
    (8400, 8432); (11388, 11389); (11503, 11505); (11631, 11631);
    (11647, 11647); (11744, 11775); (11823, 11823); (12293, 12293);
    (12330, 12333); (12337, 12341); (12347, 12347); (12441, 12446);
    (12540, 12542); (40981, 40981); (42232, 42237); (42508, 42508);
    (42607, 42610); (42612, 42621); (42623, 42623); (42652, 42655);
    (42736, 42737); (42752, 42785); (42864, 42864); (42888, 42890);
    (42994, 42996); (43000, 43001); (43010, 43010); (43014, 43014);
    (43019, 43019); (43045, 43046); (43052, 43052); (43204, 43205);
    (43232, 43249); (43263, 43263); (43302, 43309); (43335, 43345);
    (43392, 43394); (43443, 43443); (43446, 43449); (43452, 43453);
    (43471, 43471); (43493, 43494); (43561, 43566); (43569, 43570);
    (43573, 43574); (43587, 43587); (43596, 43596); (43632, 43632);
    (43644, 43644); (43696, 43696); (43698, 43700); (43703, 43704);
    (43710, 43711); (43713, 43713); (43741, 43741); (43756, 43757);
    (43763, 43764); (43766, 43766); (43867, 43871); (43881, 43883);
    (44005, 44005); (44008, 44008); (44013, 44013); (64286, 64286);
    (64434, 64450); (65024, 65039); (65043, 65043); (65056, 65071);
    (65106, 65106); (65109, 65109); (65279, 65279); (65287, 65287);
    (65294, 65294); (65306, 65306); (65342, 65342); (65344, 65344);
    (65392, 65392); (65438, 65439); (65507, 65507); (65529, 65531);
    (66045, 66045); (66272, 66272); (66422, 66426); (67456, 67461);
    (67463, 67504); (67506, 67514); (68097, 68099); (68101, 68102);
    (68108, 68111); (68152, 68154); (68159, 68159); (68325, 68326);
    (68900, 68903); (69291, 69292); (69446, 69456); (69506, 69509);
    (69633, 69633); (69688, 69702); (69744, 69744); (69747, 69748);
    (69759, 69761); (69811, 69814); (69817, 69818); (69821, 69821);
    (69826, 69826); (69837, 69837); (69888, 69890); (69927, 69931);
    (69933, 69940); (70003, 70003); (70016, 70017); (70070, 70078);
    (70089, 70092); (70095, 70095); (70191, 70193); (70196, 70196);
    (70198, 70199); (70206, 70206); (70367, 70367); (70371, 70378);
    (70400, 70401); (70459, 70460); (70464, 70464); (70502, 70508);
    (70512, 70516); (70712, 70719); (70722, 70724); (70726, 70726);
    (70750, 70750); (70835, 70840); (70842, 70842); (70847, 70848);
    (70850, 70851); (71090, 71093); (71100, 71101); (71103, 71104);
    (71132, 71133); (71219, 71226); (71229, 71229); (71231, 71232);
    (71339, 71339); (71341, 71341); (71344, 71349); (71351, 71351);
    (71453, 71455); (71458, 71461); (71463, 71467); (71727, 71735);
    (71737, 71738); (71995, 71996); (71998, 71998); (72003, 72003);
    (72148, 72151); (72154, 72155); (72160, 72160); (72193, 72202);
    (72243, 72248); (72251, 72254); (72263, 72263); (72273, 72278);
    (72281, 72283); (72330, 72342); (72344, 72345); (72752, 72758);
    (72760, 72765); (72767, 72767); (72850, 72871); (72874, 72880);
    (72882, 72883); (72885, 72886); (73009, 73014); (73018, 73018);
    (73020, 73021); (73023, 73029); (73031, 73031); (73104, 73105);
    (73109, 73109); (73111, 73111); (73459, 73460); (78896, 78904);
    (92912, 92916); (92976, 92982); (92992, 92995); (94031, 94031);
    (94095, 94111); (94176, 94177); (94179, 94180); (110576, 110579);
    (110581, 110587); (110589, 110590); (113821, 113822); (113824, 113827);
    (118528, 118573); (118576, 118598); (119143, 119145); (119155, 119170);
    (119173, 119179); (119210, 119213); (119362, 119364); (121344, 121398);
    (121403, 121452); (121461, 121461); (121476, 121476); (121499, 121503);
    (121505, 121519); (122880, 122886); (122888, 122904); (122907, 122913);
    (122915, 122916); (122918, 122922); (123184, 123197); (123566, 123566);
    (123628, 123631); (125136, 125142); (125252, 125259); (127995, 127999);
    (917505, 917505); (917536, 917631); (917760, 917999) ]%N.

(** The code points with the property Cased that are not Case_Ignorable,
    as inclusive ranges; the test is only ever made on a code point that is
    not Case_Ignorable. *)
Definition cased_ranges : list (N * N) :=
  [
    (65, 90); (97, 122); (170, 170); (181, 181); (186, 186); (192, 214);
    (216, 246); (248, 442); (444, 447); (452, 659); (661, 687); (880, 883);
    (886, 887); (891, 893); (895, 895); (902, 902); (904, 906); (908, 908);
    (910, 929); (931, 1013); (1015, 1153); (1162, 1327); (1329, 1366);
    (1376, 1416); (4256, 4293); (4295, 4295); (4301, 4301); (4304, 4346);
    (4349, 4351); (5024, 5109); (5112, 5117); (7296, 7304); (7312, 7354);
    (7357, 7359); (7424, 7467); (7531, 7543); (7545, 7578); (7680, 7957);
    (7960, 7965); (7968, 8005); (8008, 8013); (8016, 8023); (8025, 8025);
    (8027, 8027); (8029, 8029); (8031, 8061); (8064, 8116); (8118, 8124);
    (8126, 8126); (8130, 8132); (8134, 8140); (8144, 8147); (8150, 8155);
    (8160, 8172); (8178, 8180); (8182, 8188); (8450, 8450); (8455, 8455);
    (8458, 8467); (8469, 8469); (8473, 8477); (8484, 8484); (8486, 8486);
    (8488, 8488); (8490, 8493); (8495, 8500); (8505, 8505); (8508, 8511);
    (8517, 8521); (8526, 8526); (8544, 8575); (8579, 8580); (9398, 9449);
    (11264, 11387); (11390, 11492); (11499, 11502); (11506, 11507);
    (11520, 11557); (11559, 11559); (11565, 11565); (42560, 42605);
    (42624, 42651); (42786, 42863); (42865, 42887); (42891, 42894);
    (42896, 42954); (42960, 42961); (42963, 42963); (42965, 42969);
    (42997, 42998); (43002, 43002); (43824, 43866); (43872, 43880);
    (43888, 43967); (64256, 64262); (64275, 64279); (65313, 65338);
    (65345, 65370); (66560, 66639); (66736, 66771); (66776, 66811);
    (66928, 66938); (66940, 66954); (66956, 66962); (66964, 66965);
    (66967, 66977); (66979, 66993); (66995, 67001); (67003, 67004);
    (68736, 68786); (68800, 68850); (71840, 71903); (93760, 93823);
    (119808, 119892); (119894, 119964); (119966, 119967); (119970, 119970);
    (119973, 119974); (119977, 119980); (119982, 119993); (119995, 119995);
    (119997, 120003); (120005, 120069); (120071, 120074); (120077, 120084);
    (120086, 120092); (120094, 120121); (120123, 120126); (120128, 120132);
    (120134, 120134); (120138, 120144); (120146, 120485); (120488, 120512);
    (120514, 120538); (120540, 120570); (120572, 120596); (120598, 120628);
    (120630, 120654); (120656, 120686); (120688, 120712); (120714, 120744);
    (120746, 120770); (120772, 120779); (122624, 122633); (122635, 122654);
    (125184, 125251); (127280, 127305); (127312, 127337); (127344, 127369) ]%N.

(** What [decode] gives for a byte sequence that is not the UTF-8 form of
    a code point: a number past the last code point, which no table holds. *)
Definition invalid : N := 1114112.

Definition is_continuation (b : ascii) : bool :=
  (128 <=? N_of_ascii b) && (N_of_ascii b <? 192).

Definition starts_with_continuation (c : string) : bool :=
  match c with
  | String b _ => is_continuation b
  | EmptyString => false
  end.

(** The code unit sequences of a text: a byte together with the
    continuation bytes that follow it.  For the UTF-8 form of a Python
    [str] these are its code points, in order. *)
Fixpoint chunks (s : string) : list string :=
  match s with
  | EmptyString => []
  | String b s' =>
      match chunks s' with
      | c :: r =>
          if starts_with_continuation c then String b c :: r
          else String b EmptyString :: c :: r
      | [] => [String b EmptyString]
      end
  end.

Definition join (l : list string) : string := fold_right append EmptyString l.

Definition payload (b : ascii) : N := N_of_ascii b - 128.

Definition in_range (lo hi n : N) : N :=
  if (lo <=? n) && (n <? hi) then n else invalid.

(** The code point of a code unit sequence; overlong forms, surrogates
    and stray bytes are [invalid]. *)
Definition decode (c : string) : N :=
  match c with
  | String b0 EmptyString =>
      if N_of_ascii b0 <? 128 then N_of_ascii b0 else invalid
  | String b0 (String b1 EmptyString) =>
      if (192 <=? N_of_ascii b0) && (N_of_ascii b0 <? 224) && is_continuation b1
      then in_range 128 2048 ((N_of_ascii b0 - 192) * 64 + payload b1)
      else invalid
  | String b0 (String b1 (String b2 EmptyString)) =>
      if (224 <=? N_of_ascii b0) && (N_of_ascii b0 <? 240)
         && is_continuation b1 && is_continuation b2
      then
        let n := (N_of_ascii b0 - 224) * 4096 + payload b1 * 64 + payload b2 in
        if (55296 <=? n) && (n <? 57344) then invalid else in_range 2048 65536 n
      else invalid
  | String b0 (String b1 (String b2 (String b3 EmptyString))) =>
      if (240 <=? N_of_ascii b0) && (N_of_ascii b0 <? 248)
         && is_continuation b1 && is_continuation b2 && is_continuation b3
      then in_range 65536 1114112
             ((N_of_ascii b0 - 240) * 262144 + payload b1 * 4096
              + payload b2 * 64 + payload b3)
      else invalid
  | _ => invalid
  end.

(** The UTF-8 form of a code point. *)
Definition encode (n : N) : string :=
  if n <? 128 then String (ascii_of_N n) EmptyString
  else if n <? 2048 then
    String (ascii_of_N (192 + n / 64))
      (String (ascii_of_N (128 + n mod 64)) EmptyString)
  else if n <? 65536 then
    String (ascii_of_N (224 + n / 4096))
      (String (ascii_of_N (128 + (n / 64) mod 64))
         (String (ascii_of_N (128 + n mod 64)) EmptyString))
  else
    String (ascii_of_N (240 + n / 262144))
      (String (ascii_of_N (128 + (n / 4096) mod 64))
         (String (ascii_of_N (128 + (n / 64) mod 64))
            (String (ascii_of_N (128 + n mod 64)) EmptyString))).

Fixpoint lookup (n : N) (table : list (N * list N)) : option (list N) :=
  match table with
  | [] => None
  | (k, v) :: table' => if n =? k then Some v else lookup n table'
  end.

Definition in_ranges (n : N) (ranges : list (N * N)) : bool :=
  existsb (fun r => (fst r <=? n) && (n <=? snd r)) ranges.

Definition is_case_ignorable (n : N) : bool := in_ranges n case_ignorable_ranges.

Definition is_cased (n : N) : bool := in_ranges n cased_ranges.

(** The nearest code point that is not Case_Ignorable. *)
Fixpoint first_significant (l : list N) : option N :=
  match l with
  | [] => None
  | n :: l' => if is_case_ignorable n then first_significant l' else Some n
  end.

(** [handle_capital_sigma]: a capital sigma is final when, case-ignorable
    code points apart, a cased one comes before it and none comes after.
    [before_rev] lists what precedes, nearest first. *)
Definition final_sigma (before_rev after : list N) : bool :=
  match first_significant before_rev with
  | Some n =>
      is_cased n
      && match first_significant after with
         | Some m => negb (is_cased m)
         | None => true
         end
  | None => false
  end.

(** The code points a code point becomes, [None] when it stays. *)
Definition lower_code (before_rev after : list N) (n : N) : option (list N) :=
  if n =? 931 then Some [if final_sigma before_rev after then 962 else 963]
  else lookup n lower_table.

Definition lower_one (before_rev after : list N) (c : string) : list string :=
  match lower_code before_rev after (decode c) with
  | Some out => map encode out
  | None => [c]
  end.

Fixpoint lower_chunks (before_rev : list N) (l : list string) : list string :=
  match l with
  | [] => []
  | c :: after =>
      (lower_one before_rev (map decode after) c
       ++ lower_chunks (decode c :: before_rev) after)%list
  end.

(** [str.lower()] on UTF-8 text. *)
Definition lower (s : string) : string := join (lower_chunks [] (chunks s)).

Definition is_ascii (b : ascii) : bool := N_of_ascii b <? 128.

(** The shortcut CPython takes when the whole text is ASCII
    ([ascii_upper_or_lower]): the bytes of [A]-[Z] move up by 32. *)
Definition ascii_lower_char (b : ascii) : ascii :=
  if (65 <=? N_of_ascii b) && (N_of_ascii b <=? 90)
  then ascii_of_N (N_of_ascii b + 32)
  else b.

Fixpoint ascii_lower (s : string) : string :=
  match s with
  | EmptyString => EmptyString
  | String b s' => String (ascii_lower_char b) (ascii_lower s')
  end.

Fixpoint all_ascii (s : string) : bool :=
  match s with
  | EmptyString => true
  | String b s' => is_ascii b && all_ascii s'
  end.

(** A code unit sequence is well formed when only its first byte may be
    other than a continuation byte. *)
Fixpoint all_continuation (s : string) : bool :=
  match s with
  | EmptyString => true
  | String b s' => is_continuation b && all_continuation s'
  end.

Definition well_formed (c : string) : bool :=
  match c with
  | EmptyString => false
  | String _ t => all_continuation t
  end.

(** ... and separate when, besides, its first byte is not one. *)
Definition separate (c : string) : bool :=
  well_formed c && negb (starts_with_continuation c).

(** The code points [str.lower()] leaves alone wherever they stand. *)
Definition stays (n : N) : bool :=
  negb (n =? 931)
  && match lookup n lower_table with Some _ => false | None => true end.

Definition settled (c : string) : bool := separate c && stays (decode c).

End Unicode.

(* ===================================================================== *)
(** ** Python built-ins *)
(* ===================================================================== *)

Module Py.

(** [s.lower()]. *)
Definition lower (s : string) : string := Unicode.lower s.

(** [x in collection] for strings. *)
Definition mem (x : string) (l : list string) : bool :=
  existsb (String.eqb x) l.

(** Truthiness of an [Optional[str]]: [None] and [""] are falsy. *)
Definition truthy (s : option string) : bool :=
  match s with
  | None => false
  | Some EmptyString => false
  | Some _ => true
  end.

(** [str(n)] for an integer. *)
Definition str_of_int (z : Z) : string :=
  NilZero.string_of_int (Z.to_int z).

(** [s.rfind(c)]: index of the last occurrence, [None] for Python's -1. *)
Fixpoint rfind (c : ascii) (s : string) : option nat :=
  match s with
  | EmptyString => None
  | String a s' =>
      match rfind c s' with
      | Some i => Some (S i)
      | None => if Ascii.eqb a c then Some 0 else None
      end
  end.

(** [s.split(sep)] for a one-character separator. *)
Fixpoint split (sep : ascii) (s : string) : list string :=
  match s with
  | EmptyString => [EmptyString]
  | String c s' =>
      if Ascii.eqb c sep then EmptyString :: split sep s'
      else match split sep s' with
           | [] => [String c EmptyString]
           | h :: t => String c h :: t
           end
  end.

(** [s.lstrip(c)] and [s.rstrip(c)] for one character. *)
Fixpoint lstrip (c : ascii) (s : string) : string :=
  match s with
  | EmptyString => EmptyString
  | String a s' => if Ascii.eqb a c then lstrip c s' else s
  end.

Fixpoint rstrip (c : ascii) (s : string) : string :=
  match s with
  | EmptyString => EmptyString
  | String a s' =>
      match rstrip c s' with
      | EmptyString => if Ascii.eqb a c then EmptyString else String a EmptyString
      | rest => String a rest
      end
  end.

(** [sorted(collection)] on strings: insertion sort by code point order. *)
Fixpoint insert_sorted (x : string) (l : list string) : list string :=
  match l with
  | [] => [x]
  | y :: l' => if String.leb x y then x :: l else y :: insert_sorted x l'
  end.

Definition sorted (l : list string) : list string :=
  fold_right insert_sorted [] l.

(** [dict.get(key)] on an insertion-ordered dictionary with string keys. *)
Fixpoint dict_get {V : Type} (key : string) (d : list (string * V)) : option V :=
  match d with
  | [] => None
  | (k, v) :: d' => if String.eqb key k then Some v else dict_get key d'
  end.

End Py.

(* ===================================================================== *)
(** ** [pathlib]: the pure-path operations the SDK uses *)
(* ===================================================================== *)

Module Pathlib.

(** Components of a POSIX path: empty components and ["."] are dropped
    when a [Path] is parsed. *)
Definition parts (p : string) : list string :=
  filter (fun c => negb (c =? "") && negb (c =? "."))%bool (Py.split "/" p).

(** [Path(p).name]: the final component, [""] when there is none. *)
Definition name (p : string) : string := last (parts p) "".

(** [Path(p).suffix]: from the last dot of the name, provided that dot is
    neither the first nor the last character of the name. *)
Definition suffix (p : string) : string :=
  let n := name p in
  match Py.rfind "." n with
  | Some i =>
      if ((0 <? i) && (i <? String.length n - 1))%nat%bool
      then String.substring i (String.length n - i) n
      else ""
  | None => ""
  end.

End Pathlib.

(* ===================================================================== *)
(** ** [urllib.parse.urlencode] *)
(* ===================================================================== *)

Module Urllib.

Definition hex_digit (n : nat) : ascii :=
  if (n <? 10)%nat then ascii_of_nat (48 + n) else ascii_of_nat (55 + n).

Definition is_unreserved (c : ascii) : bool :=
  ((("a" <=? c) && (c <=? "z")) || (("A" <=? c) && (c <=? "Z"))
   || (("0" <=? c) && (c <=? "9"))
   || (c =? "_") || (c =? ".") || (c =? "-") || (c =? "~"))%char%bool.

(** [quote_plus]: unreserved characters stay, a space becomes [+], every
    other byte becomes [%XX]. *)
Fixpoint quote_plus (s : string) : string :=
  match s with
  | EmptyString => EmptyString
  | String c s' =>
      if is_unreserved c then String c (quote_plus s')
      else if (c =? " ")%char then String "+" (quote_plus s')
      else String "%" (String (hex_digit (nat_of_ascii c / 16))
                     (String (hex_digit (nat_of_ascii c mod 16)) (quote_plus s')))
  end.

Definition urlencode (query : list (string * string)) : string :=
  String.concat "&"
    (map (fun kv => quote_plus (fst kv) ++ "=" ++ quote_plus (snd kv)) query).

End Urllib.

(* ===================================================================== *)
(** ** Exceptions *)
(* ===================================================================== *)

Module Exceptions.

(** The classes that can be raised.  [ValueError] and [OSError] are Python
    built-ins; [PydanticValidationError] is [pydantic.ValidationError]; every other
    constructor is a class of [document_atom_sdk.exceptions], all of which
    derive from [SdkException]. *)
Inductive ExcClass : Type :=
| ValueError
| OSError
| PydanticValidationError
| SdkException
| ValidationError
| FileNotFoundError
| AuthenticationError
| AuthorizationError
| BadRequestError
| ConflictError
| DeserializationError
| InactiveError
| InUseError
| InvalidRangeError
| NotEmptyError
| ResourceNotFoundError
| ServerError
| TimeoutError.

(** An exception: its class and its text, [str(e)].  For
    [pydantic.ValidationError] the text kept is the title of the report
    only (see [Models.invalid]). *)
Record Exc : Type := mkExc { exc_class : ExcClass; exc_msg : string }.

(** [isinstance(e, SdkException)]. *)
Definition is_SdkException (c : ExcClass) : bool :=
  match c with
  | ValueError | OSError | PydanticValidationError => false
  | _ => true
  end.

(** Outcome of a call: a returned value or a raised exception. *)
Inductive Result (A : Type) : Type :=
| Return (a : A)
| Raise (e : Exc).

Arguments Return {A} a.
Arguments Raise {A} e.

Definition and_then {A B} (r : Result A) (k : A -> Result B) : Result B :=
  match r with
  | Return a => k a
  | Raise e => Raise e
  end.

End Exceptions.

Export Exceptions.

(* ===================================================================== *)
(** ** JSON values *)
(* ===================================================================== *)

Module Json.

(** What [json.loads] produces.  JSON [null] is Python's [None]; an object
    is an insertion-ordered dictionary with string keys. *)
Inductive t : Type :=
| JNull
| JBool (b : bool)
| JNum (n : Z)
| JStr (s : string)
| JArr (items : list t)
| JObj (fields : list (string * t)).

Definition has_key (k : string) (j : t) : bool :=
  match j with
  | JObj fields => match Py.dict_get k fields with Some _ => true | None => false end
  | _ => false
  end.

End Json.

(* ===================================================================== *)
(** ** [base]: the resilient request client *)
(* ===================================================================== *)

Module Base.

(** Modelled from the spec: [base.py] is not part of the tree.  A
    [BaseClient] is the Client Configuration of section 3: a base address,
    a timeout and a retry count, read back as attributes by
    [tests/test_base.py::test_client_initialization]. *)
Record BaseClient : Type := mkBaseClient {
  base_url : string;
  timeout : Z;
  retries : Z
}.

(** Modelled from the spec: [BaseClient(base_url, timeout, retries)].
    Section 3 requires the base address to be a non-empty string, so the
    constructor refuses the empty one; otherwise it keeps its three
    arguments.  The spec names neither the class nor the text of the
    refusal: both are this model's, and no property below depends on
    them.  No refusal is described for a timeout or a retry count, and none
    is modelled. *)
Definition BaseClient_init (base_url : string) (timeout retries : Z)
  : Result BaseClient :=
  if base_url =? "" then Raise (mkExc ValueError "base_url must not be empty")
  else Return (mkBaseClient base_url timeout retries).

(** Headers: an insertion-ordered dictionary of strings. *)
Definition Headers : Type := list (string * string).

(** Modelled from the spec: the body of a request, JSON or raw bytes,
    never both. *)
Inductive Body : Type :=
| NoBody
| JsonBody (j : Json.t)
| RawContent (bytes : list Byte.byte).

(** One call of [BaseClient.request(method, url, **kwargs)], as the
    resources issue it. *)
Record ClientCall : Type := mkCall {
  call_method : string;
  call_url : string;
  call_headers : Headers;
  call_params : list (string * option string);
  call_body : Body
}.

(** Modelled from the spec: the Request Descriptor that reaches the HTTP
    transport on each attempt. *)
Record HttpRequest : Type := mkRequest {
  req_method : string;
  req_url : string;
  req_headers : Headers;
  req_params : list (string * option string);
  req_body : Body
}.

(** Modelled from the spec: the server error codes of
    [enums/api_error_enum.py], one per row of the error table. *)
Inductive ApiError_Enum : Type :=
| authentication_failed
| authorization_failed
| bad_request
| conflict
| deserialization_error
| inactive
| in_use
| invalid_range
| not_empty
| not_found
| internal_error
| timeout_error.

(** Modelled from the spec: [models/api_error.py], the Error Record
    [{Error: code, Description: text}]. *)
Record ApiErrorResponseModel : Type := mkApiError {
  error : ApiError_Enum;
  description : string
}.

(** Modelled from the spec: an HTTP response.  The JSON codec is an
    external collaborator, so the response carries its decoded views: [resp_json] is [response.json()]
    ([None] when the text is not JSON) and [resp_error] is the body read as
    an Error Record ([None] when the body is absent, lacks the
    [{Error, Description}] shape, or its code is not recognised). *)
Record HttpResponse : Type := mkResponse {
  status_code : Z;
  resp_text : string;
  resp_json : option Json.t;
  resp_error : option ApiErrorResponseModel
}.

(** Modelled from the spec: what one transport invocation yields, a
    transport-level failure (connection failure, timeout, any network error
    that is not an HTTP status) or a response. *)
Inductive TransportOutcome : Type :=
| TransportFailure (reason : string)
| Responded (r : HttpResponse).

(** Modelled from the spec: the transport, as the outcome of the [k]-th
    invocation (from 0) for a given request. *)
Definition Transport : Type := HttpRequest -> nat -> TransportOutcome.

(** Modelled from the spec: [exceptions.get_exception_for_error_code], the
    fixed table of section 4.3. *)
Definition get_exception_for_error_code (code : ApiError_Enum) : ExcClass :=
  match code with
  | authentication_failed => AuthenticationError
  | authorization_failed => AuthorizationError
  | bad_request => BadRequestError
  | conflict => ConflictError
  | deserialization_error => DeserializationError
  | inactive => InactiveError
  | in_use => InUseError
  | invalid_range => InvalidRangeError
  | not_empty => NotEmptyError
  | not_found => ResourceNotFoundError
  | internal_error => ServerError
  | timeout_error => TimeoutError
  end.

(** Modelled from the spec: a 2xx status. *)
Definition is_success (status : Z) : bool :=
  ((200 <=? status) && (status <? 300))%Z.

(** Modelled from the spec: [BaseClient._handle_response].  A recognised
    Error Record raises its class with the description as the message.
    Without one, the status is the fallback classifier (5xx is a
    [ServerError]) and the message is ["Unexpected error: ..."] followed by
    the response text. *)
Definition _handle_response (r : HttpResponse) : Exc :=
  match resp_error r with
  | Some rec => mkExc (get_exception_for_error_code (error rec)) (description rec)
  | None =>
      mkExc (if (500 <=? status_code r)%Z then ServerError else SdkException)
            ("Unexpected error: " ++ resp_text r)
  end.

(** [dict.update]: later entries win, first positions are kept. *)
Fixpoint dict_set (k v : string) (d : Headers) : Headers :=
  match d with
  | [] => [(k, v)]
  | (k', v') :: d' =>
      if String.eqb k k' then (k, v) :: d' else (k', v') :: dict_set k v d'
  end.

Definition dict_update (d extra : Headers) : Headers :=
  fold_left (fun acc kv => dict_set (fst kv) (snd kv) acc) extra d.

(** Modelled from the spec: the default JSON content type is imposed unless
    raw byte content is supplied. *)
Definition default_headers (b : Body) : Headers :=
  match b with
  | RawContent _ => []
  | _ => [("Content-Type", "application/json")]
  end.

(** Modelled from the spec: the base address joined with the path by a
    single slash, so that the paths of the resources ([""], ["typedetect"],
    ["atom/pdf?ocr"]) give the URLs of the wire protocol ([<base>/],
    [<base>/typedetect], [<base>/atom/pdf?ocr]) and ["/test"] gives
    [<base>/test] as [tests/test_base.py] expects. *)
Definition join_url (base path : string) : string :=
  Py.rstrip "/" base ++ "/" ++ Py.lstrip "/" path.

(** Modelled from the spec: the request handed to the transport, with the
    default headers merged with the call's (the call's win). *)
Definition build_request (c : BaseClient) (call : ClientCall) : HttpRequest :=
  mkRequest (call_method call)
            (join_url (base_url c) (call_url call))
            (dict_update (default_headers (call_body call)) (call_headers call))
            (call_params call)
            (call_body call).

(** Modelled from the spec: a 2xx response with an empty body is an absent
    result; otherwise the body is parsed as JSON. *)
Definition decode (r : HttpResponse) : Result Json.t :=
  if resp_text r =? "" then Return Json.JNull
  else match resp_json r with
       | Some j => Return j
       | None => Raise (mkExc DeserializationError "Failed to parse response body as JSON")
       end.

(** Modelled from the spec: retry exhaustion raises the generic SDK error,
    whose message states the number of attempts made (section 4.2). *)
Definition exhausted (attempts : nat) : Exc :=
  mkExc SdkException
        ("Request failed after " ++ Py.str_of_int (Z.of_nat attempts) ++ " attempts").

(** Modelled from the spec: the attempt loop of [BaseClient.request].
    [remaining] attempts are left and [k] transport invocations have been
    made.  A transport failure moves to the next attempt; a response ends
    the loop, by a decoded body (2xx) or by the mapped exception.  The
    result pairs the requests handed to the transport, in order, with the
    outcome. *)
Fixpoint attempt (c : BaseClient) (transport : Transport) (req : HttpRequest)
         (remaining k : nat) : list HttpRequest * Result Json.t :=
  match remaining with
  | O => ([], Raise (exhausted k))
  | S remaining' =>
      match transport req k with
      | TransportFailure _ =>
          let '(sent, outcome) := attempt c transport req remaining' (S k) in
          (req :: sent, outcome)
      | Responded r =>
          ([req],
           if is_success (status_code r) then decode r
           else Raise (_handle_response r))
      end
  end.

(** Modelled from the spec: [BaseClient.request], with
    [retries + 1] attempts in total (one initial attempt and the
    configured number of retries). *)
Definition request (c : BaseClient) (transport : Transport) (call : ClientCall)
  : list HttpRequest * Result Json.t :=
  attempt c transport (build_request c call) (Z.to_nat (retries c + 1)) 0.

End Base.

(* ===================================================================== *)
(** ** Process state and the monad of the class methods *)
(* ===================================================================== *)

Module Runtime.

Import Base.

(** A node of the file system, as [Path.exists] and [Path.is_file] see it. *)
Inductive FsNode : Type :=
| RegularFile (data : list Byte.byte)
| Directory
| Special.

(** An open binary file object: its bytes, the read position and the
    [name] attribute when it has one. *)
Record FileObj : Type := mkFile {
  file_data : list Byte.byte;
  file_pos : nat;
  file_name : option string
}.

(** What the SDK does to its environment, in order. *)
Inductive Event : Type :=
| EvExists (path : string)
| EvIsFile (path : string)
| EvOpen (path : string)
| EvSeek (offset : nat)
| EvRead
| EvClose
| EvLogError (msg : string)
| EvRequest (client : BaseClient) (call : ClientCall).

(** The state: the module global [configuration._client], the file
    system, what [client.request] answers to a call, and the trace. *)
Record World : Type := mkWorld {
  _client : option BaseClient;
  fs : string -> option FsNode;
  network : BaseClient -> ClientCall -> Result Json.t;
  events : list Event
}.

Definition set_client (c : option BaseClient) (w : World) : World :=
  mkWorld c (fs w) (network w) (events w).

Definition log_event (e : Event) (w : World) : World :=
  mkWorld (_client w) (fs w) (network w) (events w ++ [e]).

(** Calls made to [client.request], read off a trace. *)
Fixpoint requests (evs : list Event) : list ClientCall :=
  match evs with
  | [] => []
  | EvRequest _ call :: evs' => call :: requests evs'
  | _ :: evs' => requests evs'
  end.

(** State that survives a raised exception. *)
Definition M (A : Type) : Type := World -> Result A * World.

Definition ret {A} (a : A) : M A := fun w => (Return a, w).

Definition raise {A} (e : Exc) : M A := fun w => (Raise e, w).

Definition bind {A B} (m : M A) (k : A -> M B) : M B :=
  fun w =>
    match m w with
    | (Return a, w') => k a w'
    | (Raise e, w') => (Raise e, w')
    end.

Definition lift {A} (r : Result A) : M A := fun w => (r, w).

Definition emit (e : Event) : M unit := fun w => (Return tt, log_event e w).

(** [try: body finally: cleanup]; the clean-ups of the SDK do not raise. *)
Definition try_finally {A} (body : M A) (cleanup : M unit) : M A :=
  fun w =>
    let '(r, w1) := body w in
    let '(_, w2) := cleanup w1 in
    (r, w2).

(** [try: body except Exception as e: handler(e)]. *)
Definition try_except {A} (body : M A) (handler : Exc -> M A) : M A :=
  fun w =>
    match body w with
    | (Return a, w') => (Return a, w')
    | (Raise e, w') => handler e w'
    end.

Declare Scope py_scope.
Delimit Scope py_scope with py.
Notation "x <- c ;; k" := (bind c (fun x => k))
  (at level 61, c at next level, right associativity) : py_scope.
Notation "' pat <- c ;; k" := (bind c (fun x => match x with pat => k end))
  (at level 61, pat pattern, c at next level, right associativity) : py_scope.
Notation "c ;;; k" := (bind c (fun _ => k))
  (at level 61, right associativity) : py_scope.

Local Open Scope py_scope.

(** [Path(p).exists()] and [Path(p).is_file()]. *)
Definition path_exists (p : string) : M bool :=
  emit (EvExists p) ;;;
  fun w => (Return (match fs w p with Some _ => true | None => false end), w).

Definition path_is_file (p : string) : M bool :=
  emit (EvIsFile p) ;;;
  fun w => (Return (match fs w p with Some (RegularFile _) => true | _ => false end), w).

(** [open(p, "rb")]. *)
Definition open_rb (p : string) : M FileObj :=
  emit (EvOpen p) ;;;
  fun w =>
    match fs w p with
    | Some (RegularFile data) => (Return (mkFile data 0 (Some p)), w)
    | _ => (Raise (mkExc OSError ("cannot open: " ++ p)), w)
    end.

(** [f.seek(offset)], [f.read()], [f.close()]. *)
Definition seek (f : FileObj) (offset : nat) : M FileObj :=
  emit (EvSeek offset) ;;; ret (mkFile (file_data f) offset (file_name f)).

Definition read (f : FileObj) : M (list Byte.byte) :=
  emit EvRead ;;; ret (skipn (file_pos f) (file_data f)).

Definition close (f : FileObj) : M unit := emit EvClose.

(** [client.request(...)]: the call is recorded and answered by the
    network. *)
Definition client_request (c : BaseClient) (call : ClientCall) : M Json.t :=
  fun w => (network w c call, log_event (EvRequest c call) w).

(** [sdk_logging.log_error]. *)
Definition log_error (msg : string) : M unit := emit (EvLogError msg).

End Runtime.

(* ===================================================================== *)
(** ** [configuration] *)
(* ===================================================================== *)

Module Configuration.

Import Base Runtime.

(** [configure(endpoint, timeout=10, retries=3)].  An omitted keyword
    argument is [None] here and takes its default.  The global is assigned
    only once the constructor has returned. *)
Definition configure (endpoint : option string) (timeout retries : option Z)
  : M unit :=
  fun w =>
    match endpoint with
    | None => (Raise (mkExc ValueError "Endpoint is required"), w)
    | Some e =>
        match BaseClient_init e
                (match timeout with Some t => t | None => 10%Z end)
                (match retries with Some r => r | None => 3%Z end) with
        | Return c => (Return tt, set_client (Some c) w)
        | Raise err => (Raise err, w)
        end
    end.

(** [get_client()]. *)
Definition get_client : M BaseClient :=
  fun w =>
    match _client w with
    | None =>
        (Raise (mkExc ValueError "SDK is not configured. Call 'configure' first."), w)
    | Some c => (Return c, w)
    end.

End Configuration.

(* ===================================================================== *)
(** ** [utils.url_helper] *)
(* ===================================================================== *)

Module UrlHelper.

(** The class object passed as [cls]: its [RESOURCE_NAME] and its [MODEL]
    attribute, a pydantic model class (seen through its [model_validate])
    or [None]. *)
Record Cls (T : Type) : Type := mkCls {
  RESOURCE_NAME : string;
  MODEL : option (Json.t -> Result T)
}.

Arguments mkCls {T} _ _.
Arguments RESOURCE_NAME {T} _.
Arguments MODEL {T} _.

(** [_get_url_base(cls, *args, **query_params)]. *)
Definition _get_url_base {T} (cls : Cls T) (args : list (option string))
           (query_params : list (string * option string)) : string :=
  let remaining_args :=
    flat_map (fun a => match a with Some x => [x] | None => [] end) args in
  let parts := RESOURCE_NAME cls :: remaining_args in
  let path := String.concat "/" (filter (fun p => negb (p =? "")) parts) in
  let formatted_params :=
    flat_map (fun kv => match snd kv with Some v => [(fst kv, v)] | None => [] end)
             query_params in
  let flags :=
    flat_map (fun kv => match snd kv with Some _ => [] | None => [fst kv] end)
             query_params in
  let query_string := Urllib.urlencode formatted_params in
  let query_string :=
    match flags with
    | [] => query_string
    | _ => query_string ++ (if query_string =? "" then "" else "&")
                        ++ String.concat "&" flags
    end in
  if query_string =? "" then path else path ++ "?" ++ query_string.

End UrlHelper.

(* ===================================================================== *)
(** ** [mixins] *)
(* ===================================================================== *)

Module Mixins.

Import Base Runtime Configuration UrlHelper.
Local Open Scope py_scope.

(** The runtime class of a stream object handed in by the caller. *)
Inductive StreamClass : Type :=
| io_BytesIO
| typing_BinaryIO_subclass
| io_BufferedReader
| io_BufferedRandom
| io_FileIO.

(** [isinstance(obj, (io.BytesIO, BinaryIO))].  [typing.BinaryIO] is an
    ordinary class: the file objects that [open] returns are not instances
    of it, only objects of classes that inherit from it are. *)
Definition isinstance_BytesIO_BinaryIO (k : StreamClass) : bool :=
  match k with
  | io_BytesIO | typing_BinaryIO_subclass => true
  | io_BufferedReader | io_BufferedRandom | io_FileIO => false
  end.

(** [str(type(obj))]. *)
Definition type_repr (k : StreamClass) : string :=
  match k with
  | io_BytesIO => "<class '_io.BytesIO'>"
  | typing_BinaryIO_subclass => "<class 'BinaryIO'>"
  | io_BufferedReader => "<class '_io.BufferedReader'>"
  | io_BufferedRandom => "<class '_io.BufferedRandom'>"
  | io_FileIO => "<class '_io.FileIO'>"
  end.

(** The value passed as [file_input]. *)
Inductive FileInput : Type :=
| PyStr (path : string)
| PyBytes (data : list Byte.byte)
| PyStream (k : StreamClass) (f : FileObj)
| PyOther (type_name : string).

Definition is_str (x : FileInput) : bool :=
  match x with PyStr _ => true | _ => false end.

(** [_prepare_file_input(file_input, filename)].  The two mixin classes
    carry the same text of this method. *)
Definition _prepare_file_input (file_input : FileInput) (filename : option string)
  : M (FileObj * string) :=
  match file_input with
  | PyStr path =>
      ex <- path_exists path ;;
      if negb ex then raise (mkExc FileNotFoundError ("File does not exist: " ++ path))
      else
        isf <- path_is_file path ;;
        if negb isf then raise (mkExc ValidationError ("Path is not a file: " ++ path))
        else
          f <- open_rb path ;;
          ret (f, Pathlib.name path)
  | PyBytes data =>
      if negb (Py.truthy filename) then
        raise (mkExc ValidationError "filename is required when file_input is bytes")
      else ret (mkFile data 0 None, match filename with Some n => n | None => "" end)
  | PyStream k f =>
      if isinstance_BytesIO_BinaryIO k then
        if negb (Py.truthy filename) then
          let filename := match file_name f with Some n => n | None => "file" end in
          if filename =? "file" then
            raise (mkExc ValidationError
                     "filename is required when file_input is a file-like object without a name")
          else ret (f, filename)
        else ret (f, match filename with Some n => n | None => "" end)
      else
        raise (mkExc ValidationError
                 ("file_input must be str (file path), bytes, or file-like object, got "
                  ++ type_repr k))
  | PyOther type_name =>
      raise (mkExc ValidationError
               ("file_input must be str (file path), bytes, or file-like object, got "
                ++ type_name))
  end.

(** ** [ConnectivityCheckableAPIResource] *)

Definition validate_connectivity : M bool :=
  client <- get_client ;;
  try_except
    (let url := "" in
     _ <- client_request client (mkCall "HEAD" url [] [] NoBody) ;;
     ret true)
    (fun e =>
       log_error ("Failed to validate connectivity: " ++ exc_msg e) ;;;
       raise (mkExc SdkException ("Failed to validate connectivity: " ++ exc_msg e))).

(** ** [TypeDetectableAPIResource] *)

Definition mime_map : list (string * string) :=
  [ (".pdf", "application/pdf");
    (".png", "image/png");
    (".jpg", "image/jpeg");
    (".jpeg", "image/jpeg");
    (".docx", "application/vnd.openxmlformats-officedocument.wordprocessingml.document");
    (".doc", "application/msword");
    (".xlsx", "application/vnd.openxmlformats-officedocument.spreadsheetml.sheet");
    (".xls", "application/vnd.ms-excel");
    (".pptx", "application/vnd.openxmlformats-officedocument.presentationml.presentation");
    (".ppt", "application/vnd.ms-powerpoint");
    (".txt", "text/plain");
    (".html", "text/html");
    (".htm", "text/html");
    (".csv", "text/csv");
    (".json", "application/json");
    (".xml", "application/xml");
    (".md", "text/markdown");
    (".rtf", "application/rtf") ].

(** The content type [detect_type] computes from the resolved file name:
    [mime_map.get(Path(file_name).suffix.lower(), "application/octet-stream")]. *)
Definition infer_content_type (file_name : string) : string :=
  let ext := Py.lower (Pathlib.suffix file_name) in
  match Py.dict_get ext mime_map with
  | Some m => m
  | None => "application/octet-stream"
  end.

(** The upload both operations end with: rewind (every file object has
    [seek]), read everything, send the bytes with the content type, and
    close the file when it was opened from a path. *)
Definition upload (client : BaseClient) (file_input : FileInput) (file_obj : FileObj)
           (url content_type : string) : M Json.t :=
  try_finally
    (file_obj <- seek file_obj 0 ;;
     file_content <- read file_obj ;;
     client_request client
       (mkCall "POST" url [("Content-Type", content_type)] [] (RawContent file_content)))
    (if is_str file_input then close file_obj else ret tt).

Definition detect_type {T} (cls : Cls T) (file_input : FileInput)
           (filename : option string) : M Json.t :=
  client <- get_client ;;
  ' (file_obj, file_name) <- _prepare_file_input file_input filename ;;
  let url := _get_url_base cls [] [] in
  let content_type := infer_content_type file_name in
  upload client file_input file_obj url content_type.

(** ** [AtomExtractableAPIResource] *)

Definition SUPPORTED_FORMATS : list string :=
  [ "csv"; "excel"; "html"; "json"; "markdown"; "ocr"; "pdf"; "png";
    "powerpoint"; "rtf"; "text"; "word"; "xml" ].

Definition FORMATS_WITH_OCR : list string := [ "pdf"; "powerpoint"; "rtf" ].

Definition MIME_TYPES : list (string * string) :=
  [ ("csv", "text/csv");
    ("excel", "application/vnd.openxmlformats-officedocument.spreadsheetml.sheet");
    ("html", "text/html");
    ("json", "application/json");
    ("markdown", "text/markdown");
    ("ocr", "application/octet-stream");
    ("pdf", "application/pdf");
    ("png", "image/png");
    ("powerpoint", "application/vnd.openxmlformats-officedocument.presentationml.presentation");
    ("rtf", "application/rtf");
    ("text", "text/plain");
    ("word", "application/vnd.openxmlformats-officedocument.wordprocessingml.document");
    ("xml", "application/xml") ].

(** The format check at the head of [extract_atoms]: lower-case, then
    membership in [SUPPORTED_FORMATS]. *)
Definition validate_format (format_type : string) : Result string :=
  let format_type := Py.lower format_type in
  if negb (Py.mem format_type SUPPORTED_FORMATS) then
    Raise (mkExc ValidationError
             ("Unsupported format: " ++ format_type ++ ". "
              ++ "Supported formats: "
              ++ String.concat ", " (Py.sorted SUPPORTED_FORMATS)))
  else Return format_type.

(** The query parameters [extract_atoms] builds: the value-less [ocr] flag
    for an OCR-capable format when [ocr] is given and true. *)
Definition ocr_params (format_type : string) (ocr : option bool)
  : list (string * option string) :=
  if (Py.mem format_type FORMATS_WITH_OCR
      && match ocr with Some _ => true | None => false end)%bool
  then (if match ocr with Some b => b | None => false end
        then [("ocr", None)] else [])
  else [].

Definition extract_atoms {T} (cls : Cls T) (file_input : FileInput)
           (format_type : string) (ocr : option bool) (filename : option string)
  : M Json.t :=
  client <- get_client ;;
  format_type <- lift (validate_format format_type) ;;
  ' (file_obj, file_name) <- _prepare_file_input file_input filename ;;
  let params := ocr_params format_type ocr in
  let url := _get_url_base cls [Some format_type] params in
  let content_type :=
    match Py.dict_get format_type MIME_TYPES with
    | Some m => m
    | None => "application/octet-stream"
    end in
  upload client file_input file_obj url content_type.

(** The per-format methods.  Each calls [cls.extract_atoms], which is
    looked up on the class the method was invoked on. *)
Section PerFormat.

Context {R : Type}.
Variable cls_extract_atoms :
  FileInput -> string -> option bool -> option string -> M R.

Definition extract_atoms_csv (file_input : FileInput) (filename : option string) : M R :=
  cls_extract_atoms file_input "csv" None filename.

Definition extract_atoms_excel (file_input : FileInput) (filename : option string) : M R :=
  cls_extract_atoms file_input "excel" None filename.

Definition extract_atoms_html (file_input : FileInput) (filename : option string) : M R :=
  cls_extract_atoms file_input "html" None filename.

Definition extract_atoms_json (file_input : FileInput) (filename : option string) : M R :=
  cls_extract_atoms file_input "json" None filename.

Definition extract_atoms_markdown (file_input : FileInput) (filename : option string) : M R :=
  cls_extract_atoms file_input "markdown" None filename.

Definition extract_atoms_ocr (file_input : FileInput) (filename : option string) : M R :=
  cls_extract_atoms file_input "ocr" None filename.

Definition extract_atoms_pdf (file_input : FileInput) (ocr : option bool)
           (filename : option string) : M R :=
  cls_extract_atoms file_input "pdf" ocr filename.

Definition extract_atoms_png (file_input : FileInput) (filename : option string) : M R :=
  cls_extract_atoms file_input "png" None filename.

Definition extract_atoms_powerpoint (file_input : FileInput) (ocr : option bool)
           (filename : option string) : M R :=
  cls_extract_atoms file_input "powerpoint" ocr filename.

Definition extract_atoms_rtf (file_input : FileInput) (ocr : option bool)
           (filename : option string) : M R :=
  cls_extract_atoms file_input "rtf" ocr filename.

Definition extract_atoms_text (file_input : FileInput) (filename : option string) : M R :=
  cls_extract_atoms file_input "text" None filename.

Definition extract_atoms_word (file_input : FileInput) (filename : option string) : M R :=
  cls_extract_atoms file_input "word" None filename.

Definition extract_atoms_xml (file_input : FileInput) (filename : option string) : M R :=
  cls_extract_atoms file_input "xml" None filename.

End PerFormat.

End Mixins.

(* ===================================================================== *)
(** ** [models]: the pydantic response models *)
(* ===================================================================== *)

Module Models.

(** [Model.model_validate(value)] applied to a decoded JSON value, in
    pydantic's default mode: unknown keys are ignored, a field is read by
    its alias and, because every model sets [populate_by_name=True], by its
    attribute name when the alias is absent. *)

(** A failed validation raises [pydantic.ValidationError].  The text of
    pydantic's report (the number of errors, then the location, the reason
    and the input of each) is not modelled: the exception carries the
    report's [title], which is the name of the model [model_validate] was
    called on, also when the failure lies in a nested model. *)
Definition invalid {A} (title : string) : Result A :=
  Raise (mkExc PydanticValidationError title).

Definition field (alias name : string) (d : list (string * Json.t)) : option Json.t :=
  match Py.dict_get alias d with
  | Some v => Some v
  | None => Py.dict_get name d
  end.

(** [Optional[str] = None]. *)
Definition optional_str (title : string) (v : option Json.t) : Result (option string) :=
  match v with
  | None | Some Json.JNull => Return None
  | Some (Json.JStr s) => Return (Some s)
  | Some _ => invalid title
  end.

(** [Optional[Dict[str, Any]] = None]. *)
Definition optional_dict (title : string) (v : option Json.t)
  : Result (option (list (string * Json.t))) :=
  match v with
  | None | Some Json.JNull => Return None
  | Some (Json.JObj d) => Return (Some d)
  | Some _ => invalid title
  end.

Fixpoint validate_each {A} (validate : Json.t -> Result A) (items : list Json.t)
  : Result (list A) :=
  match items with
  | [] => Return []
  | j :: items' =>
      and_then (validate j) (fun a =>
      and_then (validate_each validate items') (fun rest =>
      Return (a :: rest)))
  end.

Module AtomModel.

Record t : Type := mk {
  content : string;
  atom_type : option string;
  position : option (list (string * Json.t));
  metadata : option (list (string * Json.t))
}.

Definition model_validate (j : Json.t) : Result t :=
  match j with
  | Json.JObj d =>
      match field "Content" "content" d with
      | Some (Json.JStr c) =>
          and_then (optional_str "AtomModel" (field "AtomType" "atom_type" d)) (fun ty =>
          and_then (optional_dict "AtomModel" (field "Position" "position" d)) (fun pos =>
          and_then (optional_dict "AtomModel" (field "Metadata" "metadata" d)) (fun md =>
          Return (mk c ty pos md))))
      | _ => invalid "AtomModel"
      end
  | _ => invalid "AtomModel"
  end.

End AtomModel.

Module AtomExtractionResultModel.

Record t : Type := mk {
  atoms : list AtomModel.t;
  metadata : option (list (string * Json.t));
  file_type : option string
}.

(** [atoms] has [default_factory=list]: absent means [[]].  An item that
    is not a valid atom fails the validation of the result. *)
Definition validate_atoms (v : option Json.t) : Result (list AtomModel.t) :=
  match v with
  | None => Return []
  | Some (Json.JArr items) =>
      match validate_each AtomModel.model_validate items with
      | Return ats => Return ats
      | Raise _ => invalid "AtomExtractionResultModel"
      end
  | Some _ => invalid "AtomExtractionResultModel"
  end.

Definition model_validate (j : Json.t) : Result t :=
  match j with
  | Json.JObj d =>
      and_then (validate_atoms (field "Atoms" "atoms" d)) (fun ats =>
      and_then (optional_dict "AtomExtractionResultModel"
                  (field "Metadata" "metadata" d)) (fun md =>
      and_then (optional_str "AtomExtractionResultModel"
                  (field "FileType" "file_type" d)) (fun ft =>
      Return (mk ats md ft))))
  | _ => invalid "AtomExtractionResultModel"
  end.

End AtomExtractionResultModel.

Module TypeDetectionResultModel.

Section Float.

(** Floating point stays abstract: [float] is the type of Python
    floats and [to_float] pydantic's conversion of a decoded JSON value
    to one ([None] when the value is not acceptable). *)
Variable float : Type.
Variable to_float : Json.t -> option float.

Record t : Type := mk {
  file_type : string;
  confidence : option float;
  metadata : option (list (string * Json.t))
}.

Definition optional_float (v : option Json.t) : Result (option float) :=
  match v with
  | None | Some Json.JNull => Return None
  | Some x =>
      match to_float x with
      | Some f => Return (Some f)
      | None => invalid "TypeDetectionResultModel"
      end
  end.

Definition model_validate (j : Json.t) : Result t :=
  match j with
  | Json.JObj d =>
      match field "FileType" "file_type" d with
      | Some (Json.JStr ft) =>
          and_then (optional_float (field "Confidence" "confidence" d)) (fun c =>
          and_then (optional_dict "TypeDetectionResultModel"
                      (field "Metadata" "metadata" d)) (fun md =>
          Return (mk ft c md)))
      | _ => invalid "TypeDetectionResultModel"
      end
  | _ => invalid "TypeDetectionResultModel"
  end.

End Float.

Arguments mk {float} _ _ _.
Arguments file_type {float} _.
Arguments confidence {float} _.
Arguments metadata {float} _.
Arguments model_validate {float} _ _.

End TypeDetectionResultModel.

End Models.

(* ===================================================================== *)
(** ** [resources] *)
(* ===================================================================== *)

Module Resources.

Import Base Runtime UrlHelper.
Local Open Scope py_scope.

(** What a resource method holds in [result]: the decoded body, or an
    instance of the class's model. *)
Inductive PyVal (T : Type) : Type :=
| Raw (j : Json.t)
| Instance (m : T).

Arguments Raw {T} j.
Arguments Instance {T} m.

(** [if cls.MODEL: return cls.MODEL.model_validate(result)] / [return
    result].  Validating an instance of the model returns that instance. *)
Definition apply_model {T} (cls : Cls T) (result : PyVal T) : Result (PyVal T) :=
  match MODEL cls with
  | Some model_validate =>
      match result with
      | Raw j => and_then (model_validate j) (fun m => Return (Instance m))
      | Instance m => Return (Instance m)
      end
  | None => Return result
  end.

Module Connectivity.

(** Modelled from the spec: [resources/connectivity.py] is not part of
    the tree; the class adds nothing to the mixin method it inherits. *)
Definition validate_connectivity : M bool := Mixins.validate_connectivity.

End Connectivity.

Module TypeDetection.

(** The class object [TypeDetection]. *)
Definition this {float} (to_float : Json.t -> option float)
  : Cls (Models.TypeDetectionResultModel.t float) :=
  mkCls "typedetect" (Some (Models.TypeDetectionResultModel.model_validate to_float)).

Definition detect_type {T} (cls : Cls T) (file_input : Mixins.FileInput)
           (filename : option string) : M (PyVal T) :=
  result <- Mixins.detect_type cls file_input filename ;;
  lift (apply_model cls (Raw result)).

End TypeDetection.

Module AtomExtraction.

Import Mixins.

(** The class object [AtomExtraction]. *)
Definition this : Cls Models.AtomExtractionResultModel.t :=
  mkCls "atom" (Some Models.AtomExtractionResultModel.model_validate).

Section Methods.

Context {T : Type}.
Variable cls : Cls T.

Definition extract_atoms (file_input : FileInput) (format_type : string)
           (ocr : option bool) (filename : option string) : M (PyVal T) :=
  result <- Mixins.extract_atoms cls file_input format_type ocr filename ;;
  lift (apply_model cls (Raw result)).

(** The per-format overrides call the inherited method, whose
    [cls.extract_atoms] is the override above, and validate again. *)
Definition extract_atoms_csv (file_input : FileInput) (filename : option string)
  : M (PyVal T) :=
  result <- Mixins.extract_atoms_csv extract_atoms file_input filename ;;
  lift (apply_model cls result).

Definition extract_atoms_excel (file_input : FileInput) (filename : option string)
  : M (PyVal T) :=
  result <- Mixins.extract_atoms_excel extract_atoms file_input filename ;;
  lift (apply_model cls result).

Definition extract_atoms_html (file_input : FileInput) (filename : option string)
  : M (PyVal T) :=
  result <- Mixins.extract_atoms_html extract_atoms file_input filename ;;
  lift (apply_model cls result).

Definition extract_atoms_json (file_input : FileInput) (filename : option string)
  : M (PyVal T) :=
  result <- Mixins.extract_atoms_json extract_atoms file_input filename ;;
  lift (apply_model cls result).

Definition extract_atoms_markdown (file_input : FileInput) (filename : option string)
  : M (PyVal T) :=
  result <- Mixins.extract_atoms_markdown extract_atoms file_input filename ;;
  lift (apply_model cls result).

Definition extract_atoms_ocr (file_input : FileInput) (filename : option string)
  : M (PyVal T) :=
  result <- Mixins.extract_atoms_ocr extract_atoms file_input filename ;;
  lift (apply_model cls result).

Definition extract_atoms_pdf (file_input : FileInput) (ocr : option bool)
           (filename : option string) : M (PyVal T) :=
  result <- Mixins.extract_atoms_pdf extract_atoms file_input ocr filename ;;
  lift (apply_model cls result).

Definition extract_atoms_png (file_input : FileInput) (filename : option string)
  : M (PyVal T) :=
  result <- Mixins.extract_atoms_png extract_atoms file_input filename ;;
  lift (apply_model cls result).

Definition extract_atoms_powerpoint (file_input : FileInput) (ocr : option bool)
           (filename : option string) : M (PyVal T) :=
  result <- Mixins.extract_atoms_powerpoint extract_atoms file_input ocr filename ;;
  lift (apply_model cls result).

Definition extract_atoms_rtf (file_input : FileInput) (ocr : option bool)
           (filename : option string) : M (PyVal T) :=
  result <- Mixins.extract_atoms_rtf extract_atoms file_input ocr filename ;;
  lift (apply_model cls result).

Definition extract_atoms_text (file_input : FileInput) (filename : option string)
  : M (PyVal T) :=
  result <- Mixins.extract_atoms_text extract_atoms file_input filename ;;
  lift (apply_model cls result).

Definition extract_atoms_word (file_input : FileInput) (filename : option string)
  : M (PyVal T) :=
  result <- Mixins.extract_atoms_word extract_atoms file_input filename ;;
  lift (apply_model cls result).

Definition extract_atoms_xml (file_input : FileInput) (filename : option string)
  : M (PyVal T) :=
  result <- Mixins.extract_atoms_xml extract_atoms file_input filename ;;
  lift (apply_model cls result).

End Methods.

End AtomExtraction.

End Resources.

(* ===================================================================== *)
(** ** Concrete scenarios and statement vocabulary *)
(* ===================================================================== *)

Module Scenarios.

Import Base Runtime Configuration UrlHelper Mixins Resources.

(** The bytes [b"abc"]. *)
Definition sample_bytes : list Byte.byte := [Byte.x61; Byte.x62; Byte.x63].

(** A file system with one regular file inside one directory. *)

Definition sample_fs (p : string) : option FsNode :=
  if p =? "docs/sample.pdf" then Some (RegularFile sample_bytes)
  else if p =? "docs" then Some Directory
  else None.

(** A body with one atom whose content is [hello]. *)
Definition one_atom_body : Json.t :=
  Json.JObj [("Atoms", Json.JArr [Json.JObj [("Content", Json.JStr "hello")]])].

(** A process in which [configure] has not been called; the service
    answers every call with [answer]. *)
Definition fresh_process (answer : Json.t) : World :=
  mkWorld None sample_fs (fun _ _ => Return answer) [].

(** The same process after [configure("http://test-api.com")]. *)
Definition configured (answer : Json.t) : World :=
  snd (configure (Some "http://test-api.com") None None (fresh_process answer)).

(** The body [{}]. *)
Definition empty_object_body : Json.t := Json.JObj [].

(** A body whose atom list sits under the attribute name. *)

Definition lowercase_atoms_body : Json.t :=
  Json.JObj [("atoms", Json.JArr [Json.JObj [("Content", Json.JStr "x")]])].

(** [c] is the letter [r] of a lower-case ASCII word, in either case. *)
Definition same_letter (r c : ascii) : bool :=
  ((c =? r)%char
   || ((97 <=? N_of_ascii r)%N && (N_of_ascii r <=? 122)%N
       && (N_of_ascii c + 32 =? N_of_ascii r)%N))%bool.

(** [s] spells the lower-case ASCII word [row] up to the case of its
    letters: [.pdf], [.PDF], [.Pdf], ... *)
Fixpoint spelled (row s : string) : bool :=
  match row, s with
  | EmptyString, EmptyString => true
  | String r row', String c s' => (same_letter r c && spelled row' s')%bool
  | _, _ => false
  end.

(** ["mar\u212adown"]: markdown spelled with the Kelvin sign, a capital
    letter whose lower case is the ASCII [k]. *)
Definition markdown_with_kelvin_sign : string :=
  "mar" ++ Unicode.encode 8490 ++ "down".

(** [BaseClient(base_url="http://test-api.com")], as in [tests/test_base.py]. *)
Definition default_client : BaseClient := mkBaseClient "http://test-api.com" 10 3.

(** [request("GET", "/test")]. *)
Definition get_test : ClientCall := mkCall "GET" "/test" [] [] NoBody.

(** The 409 response of [test_conflict_error]. *)
Definition conflict_response : HttpResponse :=
  mkResponse 409 "Conflict" None
    (Some (mkApiError conflict
             "Operation failed as it would create a conflict with an existing resource.")).

Definition always_conflict : Transport := fun _ _ => Responded conflict_response.

(** A server that answers every request with [200] and one atom. *)
Definition hello_response : HttpResponse :=
  mkResponse 200 "{'Atoms': [{'Content': 'hello'}]}" (Some one_atom_body) None.

(** A transport that fails once and then answers. *)
Definition flaky_then_hello : Transport :=
  fun _ k => match k with
             | O => TransportFailure "Connection failed"
             | S _ => Responded hello_response
             end.

(** A configured process whose [client.request] is the request client of
    [Base] over [transport]. *)
Definition served (transport : Transport) : World :=
  mkWorld (Some default_client) sample_fs
          (fun c call => snd (request c transport call)) [].

(** The message every operation gives before [configure] was called. *)
Definition not_configured : Exc :=
  mkExc ValueError "SDK is not configured. Call 'configure' first.".

(** The call [upload] hands to [client.request]. *)
Definition upload_call (url content_type : string) (f : FileObj) : ClientCall :=
  mkCall "POST" url [("Content-Type", content_type)] [] (RawContent (file_data f)).

(** Normalization leaves the configuration, the file system and the
    network alone and sends nothing. *)
Definition same_env (w w' : World) : Prop :=
  _client w' = _client w /\ fs w' = fs w /\ network w' = network w
  /\ requests (events w') = requests (events w).

End Scenarios.

(* ===================================================================== *)
(** ** Reading a trace *)
(* ===================================================================== *)

Module Traces.

Import Base Runtime Configuration.

(** Files opened and files closed along a trace. *)
Fixpoint opens (evs : list Event) : nat :=
  match evs with
  | [] => 0
  | EvOpen _ :: evs' => S (opens evs')
  | _ :: evs' => opens evs'
  end.

Fixpoint closes (evs : list Event) : nat :=
  match evs with
  | [] => 0
  | EvClose :: evs' => S (closes evs')
  | _ :: evs' => closes evs'
  end.

(** A world extended by a suffix of events and otherwise unchanged. *)
Definition extended (w : World) (suffix : list Event) : World :=
  mkWorld (_client w) (fs w) (network w) (events w ++ suffix).

(** A configured process whose service answers every call by raising [e]. *)
Definition failing_service (e : Exc) : World :=
  mkWorld (Some (mkBaseClient "http://test-api.com" 10 3))
          Scenarios.sample_fs (fun _ _ => Raise e) [].

(** The query parameters that carry a value, and those that are flags. *)
Definition valued (params : list (string * option string))
  : list (string * option string) :=
  filter (fun kv => match snd kv with Some _ => true | None => false end) params.

Definition flags (params : list (string * option string))
  : list (string * option string) :=
  filter (fun kv => match snd kv with Some _ => false | None => true end) params.

End Traces.

(* ===================================================================== *)
(** * Properties *)
(* ===================================================================== *)

Import Base Runtime Configuration UrlHelper Mixins Resources Scenarios.
Local Open Scope py_scope.

(** Unfolds the monad and the primitive effects, then computes. *)
Ltac run_m :=
  unfold bind, ret, raise, lift, emit, path_exists, path_is_file, open_rb,
    seek, read, close, client_request, log_error, try_finally, try_except,
    log_event, set_client in *;
  cbn in *.

(** ** [str.lower()] *)

Section Lowering.

Import Unicode.
Local Open Scope N_scope.

Lemma join_chunks (s : string) : join (chunks s) = s.
Proof.
  induction s as [|b s IH]; [reflexivity|].
  cbn [chunks]. destruct (chunks s) as [|c r]; cbn in IH |- *.
  - now rewrite <- IH.
  - destruct (starts_with_continuation c); cbn; now rewrite <- IH.
Qed.

Lemma chunks_shape (s : string) :
  match chunks s with
  | [] => True
  | c :: r => well_formed c = true /\ forallb separate r = true
  end.
Proof.
  induction s as [|b s IH]; [exact I|].
  cbn [chunks]. destruct (chunks s) as [|c r]; [now split|].
  destruct IH as [Hc Hr].
  destruct (starts_with_continuation c) eqn:E.
  - split; [|exact Hr]. destruct c as [|b' t]; [discriminate|].
    cbn in E, Hc |- *. now rewrite E, Hc.
  - split; [reflexivity|]. cbn [forallb]. unfold separate at 1.
    now rewrite Hc, E, Hr.
Qed.

Lemma chunks_glue (t : string) :
  all_continuation t = true ->
  forall (b : ascii) (s : string),
    match chunks s with
    | [] => True
    | d :: _ => starts_with_continuation d = false
    end ->
    chunks (String b (t ++ s)) = String b t :: chunks s.
Proof.
  induction t as [|b1 t IH]; intros Ht b s Hs.
  - cbn [append chunks]. destruct (chunks s) as [|d r]; [reflexivity|].
    now rewrite Hs.
  - cbn in Ht. apply andb_prop in Ht. destruct Ht as [Hb1 Ht].
    change (String b (String b1 t ++ s)) with (String b (String b1 (t ++ s))).
    cbn [chunks]. change (match chunks (t ++ s) with
                          | [] => [String b1 EmptyString]
                          | c :: r => if starts_with_continuation c
                                      then String b1 c :: r
                                      else String b1 EmptyString :: c :: r
                          end) with (chunks (String b1 (t ++ s))).
    rewrite (IH Ht b1 s Hs). cbn [starts_with_continuation]. now rewrite Hb1.
Qed.

Lemma chunks_join_separate (l : list string) :
  forallb separate l = true -> chunks (join l) = l.
Proof.
  induction l as [|c r IH]; intros H; [reflexivity|].
  cbn in H. apply andb_prop in H. destruct H as [Hc Hr].
  specialize (IH Hr). unfold separate in Hc. apply andb_prop in Hc.
  destruct Hc as [Hc _]. destruct c as [|b t]; [discriminate|].
  cbn [join fold_right]. change (fold_right append EmptyString r) with (join r).
  change (String b t ++ join r)%string with (String b (t ++ join r)).
  rewrite (chunks_glue t Hc b (join r)); [now rewrite IH|].
  rewrite IH. destruct r as [|d r']; [exact I|].
  cbn in Hr. apply andb_prop in Hr. destruct Hr as [Hd _].
  unfold separate in Hd. apply andb_prop in Hd. destruct Hd as [_ Hd].
  now apply negb_true_iff in Hd.
Qed.

Lemma chunks_join (c : string) (r : list string) :
  well_formed c = true -> forallb separate r = true ->
  chunks (join (c :: r)) = c :: r.
Proof.
  intros Hc Hr. destruct c as [|b t]; [discriminate|].
  cbn [join fold_right]. change (fold_right append EmptyString r) with (join r).
  change (String b t ++ join r)%string with (String b (t ++ join r)).
  rewrite (chunks_glue t Hc b (join r)); rewrite (chunks_join_separate r Hr);
    [reflexivity|].
  destruct r as [|d r']; [exact I|].
  cbn in Hr. apply andb_prop in Hr. destruct Hr as [Hd _].
  unfold separate in Hd. apply andb_prop in Hd. destruct Hd as [_ Hd].
  now apply negb_true_iff in Hd.
Qed.

Lemma lookup_In n table out : lookup n table = Some out -> In (n, out) table.
Proof.
  induction table as [|[k v] table IH]; cbn; [discriminate|].
  destruct (N.eqb_spec n k) as [->|_]; intros H.
  - left. now inversion H.
  - right. now apply IH.
Qed.

(** Whatever the table puts in the place of a code point is itself left
    alone by the table, and its UTF-8 form is well formed. *)
Lemma lower_table_settled :
  forallb (fun e => forallb (fun m => settled (encode m)) (snd e)) lower_table = true.
Proof. vm_compute. reflexivity. Qed.

Lemma lower_one_cases before_rev after c :
  (lower_one before_rev after c = [c] /\ stays (decode c) = true)
  \/ forallb settled (lower_one before_rev after c) = true.
Proof.
  unfold lower_one, lower_code, stays.
  destruct (decode c =? 931) eqn:E.
  - right. destruct (final_sigma before_rev after); vm_compute; reflexivity.
  - destruct (lookup (decode c) lower_table) as [out|] eqn:L.
    + right. apply lookup_In in L.
      pose proof lower_table_settled as H. rewrite forallb_forall in H.
      specialize (H _ L). cbn [snd] in H. rewrite forallb_forall in H |- *.
      intros x Hx. apply in_map_iff in Hx. destruct Hx as [m [<- Hm]]. now apply H.
    + left. split; reflexivity.
Qed.

Lemma stays_lower_one before_rev after c :
  stays (decode c) = true -> lower_one before_rev after c = [c].
Proof.
  unfold stays, lower_one, lower_code. intros H. apply andb_prop in H.
  destruct H as [H1 H2]. apply negb_true_iff in H1. rewrite H1.
  destruct (lookup (decode c) lower_table); [discriminate | reflexivity].
Qed.

Lemma stays_lower_chunks (l : list string) :
  forallb (fun c => stays (decode c)) l = true ->
  forall before_rev, lower_chunks before_rev l = l.
Proof.
  induction l as [|c r IH]; intros H before_rev; [reflexivity|].
  cbn in H. apply andb_prop in H. destruct H as [Hc Hr].
  cbn [lower_chunks]. now rewrite (stays_lower_one _ _ c Hc), (IH Hr).
Qed.

Lemma lower_chunks_stays (l : list string) :
  forall before_rev,
    forallb (fun c => stays (decode c)) (lower_chunks before_rev l) = true.
Proof.
  induction l as [|c r IH]; intros before_rev; [reflexivity|].
  cbn [lower_chunks]. rewrite forallb_app, IH, andb_true_r.
  destruct (lower_one_cases before_rev (map decode r) c) as [[-> H]|H].
  - cbn. now rewrite H.
  - rewrite forallb_forall in H |- *. intros x Hx. specialize (H x Hx).
    unfold settled in H. apply andb_prop in H. tauto.
Qed.

Lemma settled_separate (l : list string) :
  forallb settled l = true -> forallb separate l = true.
Proof.
  rewrite !forallb_forall. intros H x Hx. specialize (H x Hx).
  unfold settled in H. apply andb_prop in H. tauto.
Qed.

Lemma lower_chunks_separate (l : list string) :
  forallb separate l = true ->
  forall before_rev, forallb separate (lower_chunks before_rev l) = true.
Proof.
  induction l as [|c r IH]; intros H before_rev; [reflexivity|].
  cbn in H. apply andb_prop in H. destruct H as [Hc Hr].
  cbn [lower_chunks]. rewrite forallb_app, (IH Hr), andb_true_r.
  destruct (lower_one_cases before_rev (map decode r) c) as [[-> _]|H].
  - cbn. now rewrite Hc.
  - now apply settled_separate.
Qed.

Lemma chunks_join_lower (s : string) :
  chunks (join (lower_chunks [] (chunks s))) = lower_chunks [] (chunks s).
Proof.
  pose proof (chunks_shape s) as H.
  destruct (chunks s) as [|c r]; [reflexivity|].
  destruct H as [Hc Hr]. cbn [lower_chunks].
  pose proof (lower_chunks_separate r Hr [decode c]) as Hrest.
  destruct (lower_one_cases [] (map decode r) c) as [[-> _]|H].
  - exact (chunks_join c _ Hc Hrest).
  - apply chunks_join_separate. rewrite forallb_app, Hrest, andb_true_r.
    now apply settled_separate.
Qed.

Lemma lower_idempotent (s : string) : Py.lower (Py.lower s) = Py.lower s.
Proof.
  unfold Py.lower.
  change (lower (lower s))
    with (join (lower_chunks [] (chunks (join (lower_chunks [] (chunks s)))))).
  rewrite chunks_join_lower. unfold lower.
  now rewrite (stays_lower_chunks _ (lower_chunks_stays (chunks s) [])).
Qed.

Lemma first_significant_app (l : list N) (n : N) :
  is_case_ignorable n = true ->
  first_significant (l ++ [n]) = first_significant l.
Proof.
  intros H. induction l as [|m l IH]; cbn [app first_significant];
    [now rewrite H | now rewrite IH].
Qed.

Lemma lower_chunks_after_ignorable (n : N) (l : list string) :
  is_case_ignorable n = true ->
  forall before_rev,
    lower_chunks (before_rev ++ [n]) l = lower_chunks before_rev l.
Proof.
  intros H. induction l as [|c r IH]; intros before_rev; [reflexivity|].
  cbn [lower_chunks]. rewrite (app_comm_cons before_rev [n] (decode c)), IH.
  unfold lower_one, lower_code, final_sigma.
  now rewrite (first_significant_app before_rev n H).
Qed.

Lemma decode_stray (b : ascii) (t : string) :
  is_continuation b = true -> decode (String b t) = invalid.
Proof.
  unfold is_continuation. intros H. apply andb_prop in H. destruct H as [H1 H2].
  apply N.leb_le in H1. apply N.ltb_lt in H2.
  assert (E1 : (N_of_ascii b <? 128) = false) by (apply N.ltb_ge; lia).
  assert (E2 : (192 <=? N_of_ascii b) = false) by (apply N.leb_gt; lia).
  assert (E3 : (224 <=? N_of_ascii b) = false) by (apply N.leb_gt; lia).
  assert (E4 : (240 <=? N_of_ascii b) = false) by (apply N.leb_gt; lia).
  destruct t as [|b1 [|b2 [|b3 [|b4 t]]]]; cbn [decode];
    rewrite ?E1, ?E2, ?E3, ?E4; reflexivity.
Qed.

Lemma decode_dot_glued (t : string) : t <> EmptyString -> decode (String "." t) = invalid.
Proof.
  intros H. destruct t as [|b1 [|b2 [|b3 [|b4 t]]]]; [contradiction | reflexivity ..].
Qed.

(** A leading dot stays, and has no bearing on how the rest is lowered. *)
Lemma lower_dot (s : string) : Py.lower ("." ++ s) = "." ++ Py.lower s.
Proof.
  unfold Py.lower, lower. change ("." ++ s)%string with (String "." s).
  cbn [chunks]. pose proof (chunks_shape s) as Hs.
  destruct (chunks s) as [|c r]; [reflexivity|].
  destruct Hs as [Hc _].
  assert (Hinv : forall before_rev after, lower_code before_rev after invalid = None)
    by (intros; vm_compute; reflexivity).
  assert (Hdot : forall before_rev after, lower_code before_rev after 46 = None)
    by (intros; vm_compute; reflexivity).
  destruct (starts_with_continuation c) eqn:E.
  - destruct c as [|b t]; [discriminate|]. cbn in E.
    cbn [lower_chunks]. unfold lower_one.
    rewrite (decode_stray b t E), (decode_dot_glued (String b t)) by discriminate.
    rewrite !Hinv. reflexivity.
  - change (lower_chunks [] ("." :: c :: r))
      with (lower_one [] (map decode (c :: r)) "." ++ lower_chunks ([] ++ [46]) (c :: r))%list.
    rewrite (lower_chunks_after_ignorable 46 (c :: r) eq_refl).
    unfold lower_one at 1. change (decode ".") with 46. rewrite Hdot. reflexivity.
Qed.

End Lowering.

(** ** Frame and unfolding lemmas *)

Lemma requests_app (l1 l2 : list Event) :
  requests (l1 ++ l2) = (requests l1 ++ requests l2)%list.
Proof.
  induction l1 as [|e l1 IH]; simpl; [reflexivity|].
  destruct e; simpl; rewrite ?IH; reflexivity.
Qed.

(** Whatever its outcome, normalization sends nothing and changes neither
    the configuration nor the environment. *)
Lemma prepare_frame fi fn w r w' :
  _prepare_file_input fi fn w = (r, w') -> same_env w w'.
Proof.
  unfold same_env.
  destruct fi as [path|data|k f|ty]; unfold _prepare_file_input; run_m.
  - destruct (fs w path) as [[d| |]|] eqn:E; cbn; rewrite ?E; cbn; rewrite ?E; cbn;
    intros H; inversion H; subst; cbn; rewrite ?requests_app; cbn; rewrite ?app_nil_r; auto.
  - destruct (Py.truthy fn); cbn; intros H; inversion H; subst; auto.
  - destruct (isinstance_BytesIO_BinaryIO k); cbn.
    + destruct (Py.truthy fn); cbn.
      * intros H; inversion H; subst; auto.
      * destruct (_ =? "file"); cbn; intros H; inversion H; subst; auto.
    + intros H; inversion H; subst; auto.
  - intros H; inversion H; subst; auto.
Qed.

Lemma append_empty_r (s : string) : s ++ "" = s.
Proof.
  induction s as [|a s IH]; cbn; [reflexivity | now rewrite IH].
Qed.

Lemma mem_In (x : string) (l : list string) : Py.mem x l = true <-> In x l.
Proof.
  unfold Py.mem. rewrite existsb_exists. split.
  - intros [y [Hy E]]. apply String.eqb_eq in E. now subst.
  - intros H. exists x. split; [assumption | apply String.eqb_refl].
Qed.

Lemma mem_not_In (x : string) (l : list string) : Py.mem x l = false <-> ~ In x l.
Proof.
  rewrite <- mem_In. destruct (Py.mem x l); split; congruence.
Qed.

Lemma upload_run c fi f url ct w :
  upload c fi f url ct w =
  (network w c (upload_call url ct f),
   mkWorld (_client w) (fs w) (network w)
     (events w ++ [EvSeek 0; EvRead; EvRequest c (upload_call url ct f)]
               ++ (if is_str fi then [EvClose] else []))).
Proof.
  unfold upload, upload_call. run_m.
  destruct (is_str fi); run_m; rewrite <- ?app_assoc; cbn; rewrite ?app_nil_r; reflexivity.
Qed.

Lemma supported_lower_fixed fmt : In fmt SUPPORTED_FORMATS -> Py.lower fmt = fmt.
Proof.
  cbn. intros H.
  repeat (destruct H as [<- | H]; [reflexivity|]). contradiction.
Qed.

Lemma extract_atoms_run {T} (cls : Cls T) w c fi fmt ocr fn :
  _client w = Some c ->
  In (Py.lower fmt) SUPPORTED_FORMATS ->
  Mixins.extract_atoms cls fi fmt ocr fn w =
  match _prepare_file_input fi fn w with
  | (Return (f, _), w') =>
      upload c fi f
        (_get_url_base cls [Some (Py.lower fmt)] (ocr_params (Py.lower fmt) ocr))
        (match Py.dict_get (Py.lower fmt) MIME_TYPES with
         | Some m => m
         | None => "application/octet-stream"
         end) w'
  | (Raise e, w') => (Raise e, w')
  end.
Proof.
  intros Hc Hin. apply mem_In in Hin.
  unfold Mixins.extract_atoms, get_client, validate_format, bind, lift.
  rewrite Hc, Hin. cbn [negb].
  destruct (_prepare_file_input fi fn w) as [[[f name]|e] w']; reflexivity.
Qed.

Lemma url_of_format {T} (cls : Cls T) fmt ocr :
  RESOURCE_NAME cls = "atom" ->
  In fmt SUPPORTED_FORMATS ->
  _get_url_base cls [Some fmt] (ocr_params fmt ocr) =
  "atom/" ++ fmt ++
    (if (match ocr with Some true => true | _ => false end
         && Py.mem fmt ["pdf"; "powerpoint"; "rtf"])%bool then "?ocr" else "").
Proof.
  intros Hn Hin. unfold _get_url_base. rewrite Hn.
  cbn in Hin.
  repeat (destruct Hin as [<- | Hin]; [destruct ocr as [[|]|]; reflexivity|]).
  contradiction.
Qed.

(** ** The request client *)

(** The scenario of the specification, end to end: a configured client,
    [extract_atoms_pdf("docs/sample.pdf", ocr=True)], a transport that
    fails once before the server answers with one atom. *)
Example pdf_scenario_end_to_end :
  AtomExtraction.extract_atoms_pdf AtomExtraction.this (PyStr "docs/sample.pdf")
    (Some true) None (served flaky_then_hello)
  = (Return (Instance (Models.AtomExtractionResultModel.mk
                         [Models.AtomModel.mk "hello" None None None] None None)),
     mkWorld (Some default_client) sample_fs
       (fun c call => snd (request c flaky_then_hello call))
       [EvExists "docs/sample.pdf"; EvIsFile "docs/sample.pdf"; EvOpen "docs/sample.pdf";
        EvSeek 0; EvRead;
        EvRequest default_client
          (mkCall "POST" "atom/pdf?ocr" [("Content-Type", "application/pdf")] []
                  (RawContent sample_bytes));
        EvClose])
  /\ fst (request default_client flaky_then_hello
            (mkCall "POST" "atom/pdf?ocr" [("Content-Type", "application/pdf")] []
                    (RawContent sample_bytes)))
     = let sent := mkRequest "POST" "http://test-api.com/atom/pdf?ocr"
                             [("Content-Type", "application/pdf")] []
                             (RawContent sample_bytes) in
       [sent; sent].
Proof.
  split; reflexivity.
Qed.

(** C2.  When the transport answers the first invocation with a response
    whose status is not 2xx, [request] makes exactly that one invocation
    and raises the translation of the response by the error taxonomy; when
    the response carries an Error Record, the exception is the class the
    table gives for its code and the message is its description,
    unchanged. *)
Theorem request_error_response_not_retried :
  forall (c : BaseClient) (transport : Transport) (call : ClientCall)
         (r : HttpResponse),
    (0 <= retries c)%Z ->
    transport (build_request c call) 0 = Responded r ->
    is_success (status_code r) = false ->
    request c transport call = ([build_request c call], Raise (_handle_response r))
    /\ forall rec : ApiErrorResponseModel,
        resp_error r = Some rec ->
        snd (request c transport call)
        = Raise (mkExc (get_exception_for_error_code (error rec)) (description rec)).
Proof.
  intros c transport call r Hr Hresp Hstatus.
  assert (Hrun : request c transport call
                 = ([build_request c call], Raise (_handle_response r))).
  { unfold request.
    destruct (Z.to_nat (retries c + 1)) as [|n] eqn:En; [lia|].
    cbn [attempt]. now rewrite Hresp, Hstatus. }
  split; [exact Hrun|].
  intros rec Hrec. rewrite Hrun. cbn [snd]. unfold _handle_response. now rewrite Hrec.
Qed.

Lemma request_error_response_not_retried_witness :
  (0 <= retries default_client)%Z
  /\ always_conflict (build_request default_client get_test) 0 = Responded conflict_response
  /\ is_success (status_code conflict_response) = false
  /\ length (fst (request default_client always_conflict get_test)) = 1
  /\ snd (request default_client always_conflict get_test)
     = Raise (mkExc ConflictError
                "Operation failed as it would create a conflict with an existing resource.").
Proof.
  assert (Hr : (0 <= retries default_client)%Z) by (cbn; lia).
  destruct (request_error_response_not_retried default_client always_conflict get_test
              conflict_response Hr eq_refl eq_refl) as [Hrun Hrec].
  split; [exact Hr|]. split; [reflexivity|]. split; [reflexivity|].
  split; [now rewrite Hrun | exact (Hrec _ eq_refl)].
Defined.

(** ** The URL that [extract_atoms] builds *)

(** C3.  For a supported format and a file input that normalizes,
    [extract_atoms] sends exactly one request.  Its URL is [atom/<fmt>]
    when [ocr] is omitted or false, [atom/<fmt>?ocr] when [ocr] is true and
    the format is pdf, powerpoint or rtf, and [atom/<fmt>] when [ocr] is
    true and the format is any other supported one. *)
Theorem extract_atoms_url_shape :
  forall (T : Type) (cls : Cls T) (w w' : World) (c : BaseClient)
         (file_input : FileInput) (fmt : string) (ocr : option bool)
         (filename : option string) (f : FileObj) (name : string),
    RESOURCE_NAME cls = "atom" ->
    _client w = Some c ->
    In fmt SUPPORTED_FORMATS ->
    _prepare_file_input file_input filename w = (Return (f, name), w') ->
    exists call : ClientCall,
      requests (events (snd (Mixins.extract_atoms cls file_input fmt ocr filename w)))
      = (requests (events w) ++ [call])%list
      /\ call_params call = []
      /\ ((ocr = None \/ ocr = Some false) -> call_url call = "atom/" ++ fmt)
      /\ (ocr = Some true ->
          fmt = "pdf" \/ fmt = "powerpoint" \/ fmt = "rtf" ->
          call_url call = "atom/" ++ fmt ++ "?ocr")
      /\ (ocr = Some true ->
          ~ (fmt = "pdf" \/ fmt = "powerpoint" \/ fmt = "rtf") ->
          call_url call = "atom/" ++ fmt).
Proof.
  intros T cls w w' c fi fmt ocr fn f name Hname Hc Hin Hprep.
  pose proof (supported_lower_fixed fmt Hin) as Hlow.
  pose proof (prepare_frame _ _ _ _ _ Hprep) as (_ & _ & _ & Hreq).
  rewrite (extract_atoms_run cls w c fi fmt ocr fn Hc) by (rewrite Hlow; exact Hin).
  rewrite Hprep, upload_run, Hlow.
  eexists. split.
  - cbn [snd events]. rewrite requests_app, Hreq. f_equal.
    destruct (is_str fi); reflexivity.
  - cbn [upload_call call_url call_params].
    rewrite (url_of_format cls fmt ocr Hname Hin).
    split; [reflexivity|].
    split; [|split].
    + intros [-> | ->]; cbn [andb]; now rewrite append_empty_r.
    + intros -> [-> | [-> | ->]]; reflexivity.
    + intros -> Hno.
      destruct (Py.mem fmt ["pdf"; "powerpoint"; "rtf"]) eqn:E.
      * apply mem_In in E. cbn in E. exfalso. apply Hno.
        destruct E as [E | [E | [E | []]]]; subst; auto.
      * cbn [andb]. now rewrite append_empty_r.
Qed.

Lemma extract_atoms_url_shape_witness :
  RESOURCE_NAME AtomExtraction.this = "atom"
  /\ _client (configured one_atom_body) = Some (mkBaseClient "http://test-api.com" 10 3)
  /\ In "pdf" SUPPORTED_FORMATS
  /\ _prepare_file_input (PyStr "docs/sample.pdf") None (configured one_atom_body)
     = (Return (mkFile sample_bytes 0 (Some "docs/sample.pdf"), "sample.pdf"),
        mkWorld (Some (mkBaseClient "http://test-api.com" 10 3)) sample_fs
                (fun _ _ => Return one_atom_body)
                [EvExists "docs/sample.pdf"; EvIsFile "docs/sample.pdf";
                 EvOpen "docs/sample.pdf"])
  /\ exists call : ClientCall,
      requests (events (snd (Mixins.extract_atoms AtomExtraction.this
                               (PyStr "docs/sample.pdf") "pdf" (Some true) None
                               (configured one_atom_body))))
      = (requests (events (configured one_atom_body)) ++ [call])%list
      /\ call_params call = []
      /\ ((Some true = None \/ Some true = Some false) -> call_url call = "atom/pdf")
      /\ (Some true = Some true ->
          "pdf" = "pdf" \/ "pdf" = "powerpoint" \/ "pdf" = "rtf" ->
          call_url call = "atom/pdf?ocr")
      /\ (Some true = Some true ->
          ~ ("pdf" = "pdf" \/ "pdf" = "powerpoint" \/ "pdf" = "rtf") ->
          call_url call = "atom/pdf").
Proof.
  assert (Hin : In "pdf" SUPPORTED_FORMATS)
    by (cbn; repeat first [left; reflexivity | right]).
  split; [reflexivity|]. split; [reflexivity|]. split; [exact Hin|].
  split; [reflexivity|].
  exact (extract_atoms_url_shape _ AtomExtraction.this (configured one_atom_body) _ _
           (PyStr "docs/sample.pdf") "pdf" (Some true) None _ _
           eq_refl eq_refl Hin eq_refl).
Defined.

(** ** Format validation *)

(** C4.  The supported set has thirteen members.  With a configured
    client, a [format_type] whose lower-cased form is outside the set makes
    [extract_atoms] raise the Validation error that lists the set, with the
    state untouched: no file was probed or opened and nothing was sent.  A
    [format_type] whose lower-cased form is in the set passes the check,
    whatever its case, and any exception the call raises afterwards comes
    from file normalization or from the request. *)
Theorem extract_atoms_format_check :
  length SUPPORTED_FORMATS = 13
  /\ forall (T : Type) (cls : Cls T) (w : World) (c : BaseClient)
            (file_input : FileInput) (format_type : string) (ocr : option bool)
            (filename : option string),
      _client w = Some c ->
      (~ In (Py.lower format_type) SUPPORTED_FORMATS ->
       Mixins.extract_atoms cls file_input format_type ocr filename w =
       (Raise (mkExc ValidationError
                 ("Unsupported format: " ++ Py.lower format_type
                  ++ ". Supported formats: csv, excel, html, json, markdown, ocr, "
                  ++ "pdf, png, powerpoint, rtf, text, word, xml")),
        w))
      /\ (In (Py.lower format_type) SUPPORTED_FORMATS ->
          validate_format format_type = Return (Py.lower format_type)
          /\ forall (e : Exc) (w' : World),
              Mixins.extract_atoms cls file_input format_type ocr filename w = (Raise e, w') ->
              (exists w1, _prepare_file_input file_input filename w = (Raise e, w1))
              \/ (exists call, network w c call = Raise e)).
Proof.
  split; [reflexivity|].
  intros T cls w c fi fmt ocr fn Hc. split.
  - intros Hout. apply mem_not_In in Hout.
    unfold Mixins.extract_atoms, get_client, validate_format, bind, lift.
    rewrite Hc, Hout. reflexivity.
  - intros Hin. split.
    + unfold validate_format. apply mem_In in Hin. now rewrite Hin.
    + intros e w'. rewrite (extract_atoms_run cls w c fi fmt ocr fn Hc Hin).
      destruct (_prepare_file_input fi fn w) as [[[f name]|e0] w1] eqn:Hprep.
      * rewrite upload_run. intros H. apply (f_equal fst) in H. cbn [fst] in H.
        destruct (prepare_frame _ _ _ _ _ Hprep) as (_ & _ & Hn & _).
        right. rewrite <- Hn. eexists. exact H.
      * intros H. inversion H; subst. left. now exists w'.
Qed.

Lemma extract_atoms_format_check_witness :
  _client (configured one_atom_body) = Some (mkBaseClient "http://test-api.com" 10 3)
  /\ ~ In (Py.lower "Unsupported-Format") SUPPORTED_FORMATS
  /\ Mixins.extract_atoms AtomExtraction.this (PyStr "docs/sample.pdf")
       "Unsupported-Format" None None (configured one_atom_body) =
     (Raise (mkExc ValidationError
               ("Unsupported format: unsupported-format"
                ++ ". Supported formats: csv, excel, html, json, markdown, ocr, "
                ++ "pdf, png, powerpoint, rtf, text, word, xml")),
      configured one_atom_body)
  /\ In (Py.lower "PDF") SUPPORTED_FORMATS
  /\ validate_format "PDF" = Return "pdf"
  /\ In (Py.lower markdown_with_kelvin_sign) SUPPORTED_FORMATS
  /\ validate_format markdown_with_kelvin_sign = Return "markdown".
Proof.
  assert (Hout : ~ In (Py.lower "Unsupported-Format") SUPPORTED_FORMATS)
    by (apply mem_not_In; reflexivity).
  assert (Hin : In (Py.lower "PDF") SUPPORTED_FORMATS)
    by (apply mem_In; reflexivity).
  assert (Hk : In (Py.lower markdown_with_kelvin_sign) SUPPORTED_FORMATS)
    by (apply mem_In; reflexivity).
  destruct extract_atoms_format_check as [_ H].
  destruct (H _ AtomExtraction.this (configured one_atom_body) _
              (PyStr "docs/sample.pdf") "Unsupported-Format" None None eq_refl)
    as [Hbad _].
  destruct (H _ AtomExtraction.this (configured one_atom_body) _
              (PyStr "docs/sample.pdf") "PDF" None None eq_refl)
    as [_ Hgood].
  destruct (H _ AtomExtraction.this (configured one_atom_body) _
              (PyStr "docs/sample.pdf") markdown_with_kelvin_sign None None eq_refl)
    as [_ Hkelvin].
  split; [reflexivity|]. split; [exact Hout|]. split; [exact (Hbad Hout)|].
  split; [exact Hin|]. split; [exact (proj1 (Hgood Hin))|].
  split; [exact Hk | exact (proj1 (Hkelvin Hk))].
Defined.

(** ** File-input normalization *)


(** The remaining cases of the path and bytes variants succeed: a regular
    file is opened and named by the last component of its path, and bytes
    with a non-empty filename are wrapped in a fresh buffer. *)
Lemma normalization_succeeds (w : World) (filename : option string) :
  (forall (path : string) (data : list Byte.byte),
      fs w path = Some (RegularFile data) ->
      _prepare_file_input (PyStr path) filename w
      = (Return (mkFile data 0 (Some path), Pathlib.name path),
         log_event (EvOpen path)
           (log_event (EvIsFile path) (log_event (EvExists path) w))))
  /\ (forall (data : list Byte.byte) (name : string),
      filename = Some name ->
      name <> "" ->
      _prepare_file_input (PyBytes data) filename w
      = (Return (mkFile data 0 None, name), w)).
Proof.
  split.
  - intros path data E. unfold _prepare_file_input. run_m.
    rewrite E. cbn. rewrite E. cbn. rewrite E. reflexivity.
  - intros data name -> Hne. unfold _prepare_file_input.
    destruct name as [|a name]; [contradiction|]. reflexivity.
Qed.


(** ** Stream inputs *)

Lemma prepare_stream_accepted k f fn w :
  isinstance_BytesIO_BinaryIO k = true ->
  Py.truthy fn = true \/ (exists n, file_name f = Some n /\ n <> "file") ->
  exists name, _prepare_file_input (PyStream k f) fn w = (Return (f, name), w).
Proof.
  intros Hk Hname. unfold _prepare_file_input. rewrite Hk.
  destruct (Py.truthy fn) eqn:Ht; cbn [negb].
  - eexists; reflexivity.
  - destruct Hname as [Hbad | [n [Hn Hne]]]; [discriminate|].
    rewrite Hn. cbn zeta. apply String.eqb_neq in Hne. rewrite Hne.
    eexists; reflexivity.
Qed.

(** C6.  What the code does with a stream that carries a usable name (a
    non-empty [filename], or a [name] attribute other than ["file"]).  An
    [io.BytesIO] buffer, or an object of a class deriving from
    [typing.BinaryIO], is accepted: it is rewound to offset 0 and its full
    content is the payload of the single request.  A stream of any other
    class, such as the [io.BufferedReader] that [open(path, "rb")] returns,
    is refused with a Validation error naming its type, and nothing is
    sent. *)
Theorem stream_input_acceptance :
  forall (T : Type) (cls : Cls T) (w : World) (c : BaseClient)
         (k : StreamClass) (f : FileObj) (filename : option string)
         (fmt : string) (ocr : option bool),
    _client w = Some c ->
    In (Py.lower fmt) SUPPORTED_FORMATS ->
    Py.truthy filename = true
    \/ (exists n, file_name f = Some n /\ n <> "file") ->
    (isinstance_BytesIO_BinaryIO k = true ->
     exists url content_type : string,
       let call := mkCall "POST" url [("Content-Type", content_type)] []
                          (RawContent (file_data f)) in
       Mixins.extract_atoms cls (PyStream k f) fmt ocr filename w
       = (network w c call,
          mkWorld (_client w) (fs w) (network w)
                  (events w ++ [EvSeek 0; EvRead; EvRequest c call])))
    /\ (isinstance_BytesIO_BinaryIO k = false ->
        Mixins.extract_atoms cls (PyStream k f) fmt ocr filename w
        = (Raise (mkExc ValidationError
                    ("file_input must be str (file path), bytes, or file-like object, got "
                     ++ type_repr k)),
           w)).
Proof.
  intros T cls w c k f fn fmt ocr Hc Hin Hname.
  rewrite (extract_atoms_run cls w c _ fmt ocr fn Hc Hin).
  split; intros Hk.
  - destruct (prepare_stream_accepted k f fn w Hk Hname) as [name Hret].
    rewrite Hret, upload_run.
    do 2 eexists. cbn zeta. unfold upload_call. cbn [is_str].
    rewrite app_nil_r. reflexivity.
  - unfold _prepare_file_input. rewrite Hk. reflexivity.
Qed.

Lemma stream_input_acceptance_witness :
  _client (configured one_atom_body) = Some (mkBaseClient "http://test-api.com" 10 3)
  /\ In (Py.lower "pdf") SUPPORTED_FORMATS
  /\ (exists n, file_name (mkFile sample_bytes 0 (Some "docs/sample.pdf")) = Some n
                /\ n <> "file")
  /\ isinstance_BytesIO_BinaryIO io_BufferedReader = false
  /\ Mixins.extract_atoms AtomExtraction.this
       (PyStream io_BufferedReader (mkFile sample_bytes 0 (Some "docs/sample.pdf")))
       "pdf" (Some true) None (configured one_atom_body)
     = (Raise (mkExc ValidationError
                 ("file_input must be str (file path), bytes, or file-like object, got "
                  ++ "<class '_io.BufferedReader'>")),
        configured one_atom_body).
Proof.
  assert (Hin : In (Py.lower "pdf") SUPPORTED_FORMATS) by (apply mem_In; reflexivity).
  assert (Hname : exists n, file_name (mkFile sample_bytes 0 (Some "docs/sample.pdf")) = Some n
                            /\ n <> "file").
  { exists "docs/sample.pdf". split; [reflexivity | discriminate]. }
  split; [reflexivity|]. split; [exact Hin|]. split; [exact Hname|].
  split; [reflexivity|].
  exact (proj2 (stream_input_acceptance _ AtomExtraction.this (configured one_atom_body) _
                  io_BufferedReader (mkFile sample_bytes 0 (Some "docs/sample.pdf"))
                  None "pdf" (Some true) eq_refl Hin (or_intror Hname))
               eq_refl).
Defined.

(** ** Content-type inference *)

Lemma dict_get_absent {V} (k : string) (d : list (string * V)) :
  (forall v, ~ In (k, v) d) -> Py.dict_get k d = None.
Proof.
  induction d as [|[k' v'] d IH]; cbn; intros H; [reflexivity|].
  destruct (String.eqb_spec k k') as [->|Hne].
  - exfalso. apply (H v'). now left.
  - apply IH. intros v Hin. apply (H v). now right.
Qed.

Lemma dict_get_In {V} (k : string) (v : V) (d : list (string * V)) :
  Py.dict_get k d = Some v -> In (k, v) d.
Proof.
  induction d as [|[k' v'] d IH]; cbn; [discriminate|].
  destruct (String.eqb_spec k k') as [->|_]; intros H.
  - left. now inversion H.
  - right. now apply IH.
Qed.

Lemma rfind_cons_none c a s :
  Py.rfind c (String a s) = None -> Py.rfind c s = None /\ Ascii.eqb a c = false.
Proof.
  cbn. destruct (Py.rfind c s); [discriminate|].
  destruct (Ascii.eqb a c); [discriminate | auto].
Qed.

Lemma rfind_app_none c s1 s2 :
  Py.rfind c s1 = None -> Py.rfind c s2 = None -> Py.rfind c (s1 ++ s2) = None.
Proof.
  induction s1 as [|a s1 IH]; cbn [append]; intros H1 H2; [exact H2|].
  apply rfind_cons_none in H1. destruct H1 as [H1 Ha].
  cbn. now rewrite (IH H1 H2), Ha.
Qed.

Lemma rfind_app_at c s1 s2 :
  Py.rfind c s2 = None ->
  Py.rfind c (s1 ++ String c s2) = Some (String.length s1).
Proof.
  intros H2. induction s1 as [|a s1 IH]; cbn [append String.length].
  - cbn. now rewrite H2, Ascii.eqb_refl.
  - cbn. cbn in IH. now rewrite IH.
Qed.

Lemma split_nonempty c s : Py.split c s <> [].
Proof.
  destruct s as [|a s]; cbn; [discriminate|].
  destruct (Ascii.eqb a c); [discriminate|].
  destruct (Py.split c s); discriminate.
Qed.

Lemma split_without c s : Py.rfind c s = None -> Py.split c s = [s].
Proof.
  induction s as [|a s IH]; intros H; [reflexivity|].
  apply rfind_cons_none in H. destruct H as [H Ha].
  cbn. now rewrite Ha, (IH H).
Qed.

Lemma split_app c s1 s2 :
  Py.split c (s1 ++ String c s2) = (Py.split c s1 ++ Py.split c s2)%list.
Proof.
  induction s1 as [|a s1 IH]; cbn [append].
  - cbn. now rewrite Ascii.eqb_refl.
  - cbn. destruct (Ascii.eqb a c); [now rewrite IH|].
    rewrite IH. pose proof (split_nonempty c s1) as Hne.
    destruct (Py.split c s1) as [|h t]; [contradiction | reflexivity].
Qed.

Lemma length_append s1 s2 :
  String.length (s1 ++ s2) = String.length s1 + String.length s2.
Proof.
  induction s1 as [|a s1 IH]; cbn; [reflexivity | now rewrite IH].
Qed.

Lemma substring_all s : String.substring 0 (String.length s) s = s.
Proof.
  induction s as [|a s IH]; cbn; [reflexivity | now rewrite IH].
Qed.

Lemma substring_after s1 s2 :
  String.substring (String.length s1) (String.length s2) (s1 ++ s2) = s2.
Proof.
  induction s1 as [|a s1 IH]; cbn; [apply substring_all | exact IH].
Qed.

(** The last component of [dir/base] is [base]. *)
Lemma name_of_base (base : string) :
  Py.rfind "/" base = None -> base <> "" -> base <> "." ->
  Pathlib.name base = base
  /\ forall dir, Pathlib.name (dir ++ "/" ++ base) = base.
Proof.
  intros Hs He Hd.
  assert (Hkeep : (negb (base =? "") && negb (base =? "."))%bool = true).
  { apply String.eqb_neq in He, Hd. now rewrite He, Hd. }
  split.
  - unfold Pathlib.name, Pathlib.parts. rewrite (split_without _ _ Hs). cbn.
    now rewrite Hkeep.
  - intros dir. unfold Pathlib.name, Pathlib.parts.
    change (dir ++ "/" ++ base) with (dir ++ String "/" base).
    rewrite split_app, (split_without _ _ Hs), filter_app. cbn [filter].
    rewrite Hkeep. apply last_last.
Qed.

Lemma suffix_of_name (p stem ext : string) :
  Pathlib.name p = stem ++ "." ++ ext ->
  stem <> "" -> ext <> "" -> Py.rfind "." ext = None ->
  Pathlib.suffix p = "." ++ ext.
Proof.
  intros Hn Hs He Hd. unfold Pathlib.suffix. rewrite Hn.
  change (stem ++ "." ++ ext) with (stem ++ String "." ext).
  rewrite (rfind_app_at "." stem ext Hd).
  rewrite length_append. cbn [String.length].
  assert (H1 : (0 <? String.length stem)%nat = true).
  { destruct stem; [contradiction|]. reflexivity. }
  assert (H2 : (String.length stem <? String.length stem + S (String.length ext) - 1)%nat
               = true).
  { apply Nat.ltb_lt. destruct ext; [contradiction|]. cbn. lia. }
  rewrite H1, H2. cbn [andb].
  replace (String.length stem + S (String.length ext) - String.length stem)
    with (String.length (String "." ext)) by (cbn; lia).
  apply substring_after.
Qed.

Section LoweringAscii.

Import Unicode.
Local Open Scope N_scope.

Lemma lower_one_ascii (b : ascii) before_rev after :
  is_ascii b = true ->
  lower_one before_rev after (String b EmptyString)
  = [String (ascii_lower_char b) EmptyString].
Proof.
  destruct b as [b0 b1 b2 b3 b4 b5 b6 b7].
  destruct b7; [destruct b0, b1, b2, b3, b4, b5, b6; discriminate|].
  intros _. destruct b0, b1, b2, b3, b4, b5, b6; vm_compute; reflexivity.
Qed.

Lemma decode_ascii (b : ascii) :
  is_ascii b = true -> decode (String b EmptyString) = N_of_ascii b.
Proof. unfold is_ascii, decode. now intros ->. Qed.

Lemma chunks_ascii (s : string) :
  all_ascii s = true ->
  chunks s = map (fun b => String b EmptyString) (list_ascii_of_string s).
Proof.
  induction s as [|b s IH]; [reflexivity|].
  cbn [all_ascii]. intros H. apply andb_prop in H. destruct H as [_ Hs].
  cbn [chunks list_ascii_of_string map]. rewrite (IH Hs).
  destruct s as [|b' s]; [reflexivity|].
  cbn [all_ascii] in Hs. apply andb_prop in Hs. destruct Hs as [Hb' _].
  cbn [list_ascii_of_string map starts_with_continuation].
  unfold is_ascii in Hb'. apply N.ltb_lt in Hb'.
  unfold is_continuation. replace (128 <=? N_of_ascii b') with false; [reflexivity|].
  symmetry. apply N.leb_gt. exact Hb'.
Qed.

Lemma lower_chunks_ascii (l : list ascii) :
  forallb is_ascii l = true ->
  forall before_rev,
    join (lower_chunks before_rev (map (fun b => String b EmptyString) l))
    = ascii_lower (string_of_list_ascii l).
Proof.
  induction l as [|b l IH]; intros H before_rev; [reflexivity|].
  cbn [forallb] in H. apply andb_prop in H. destruct H as [Hb Hl].
  cbn [map lower_chunks string_of_list_ascii ascii_lower].
  rewrite (lower_one_ascii b _ _ Hb). cbn [app join fold_right].
  change (fold_right append EmptyString ?x) with (join x).
  now rewrite (IH Hl).
Qed.

Lemma all_ascii_forallb (s : string) :
  all_ascii s = forallb is_ascii (list_ascii_of_string s).
Proof. induction s as [|b s IH]; cbn; [reflexivity | now rewrite IH]. Qed.

(** On ASCII text [str.lower()] is the byte-wise shortcut. *)
Lemma lower_ascii (s : string) :
  all_ascii s = true -> Py.lower s = ascii_lower s.
Proof.
  intros H. unfold Py.lower, lower. rewrite (chunks_ascii s H).
  rewrite all_ascii_forallb in H.
  rewrite (lower_chunks_ascii _ H []). now rewrite string_of_list_ascii_of_string.
Qed.

Lemma ascii_lower_rfind_none (c : ascii) (s : string) :
  ascii_lower_char c = c ->
  Py.rfind c (ascii_lower s) = None -> Py.rfind c s = None.
Proof.
  intros Hc. induction s as [|a s IH]; [reflexivity|].
  cbn [ascii_lower]. intros H. apply rfind_cons_none in H. destruct H as [Hs Ha].
  cbn [Py.rfind]. rewrite (IH Hs).
  destruct (Ascii.eqb_spec a c) as [->|_]; [|reflexivity].
  rewrite Hc, Ascii.eqb_refl in Ha. discriminate.
Qed.

End LoweringAscii.

Lemma same_letter_lower (r c : ascii) :
  same_letter r c = true ->
  Unicode.is_ascii r = true -> Unicode.ascii_lower_char r = r ->
  Unicode.is_ascii c = true /\ Unicode.ascii_lower_char c = r.
Proof.
  unfold same_letter. intros H Hr Hlow. apply orb_prop in H.
  destruct H as [H|H].
  - apply Ascii.eqb_eq in H. subst c. now split.
  - apply andb_prop in H. destruct H as [H H3]. apply andb_prop in H.
    destruct H as [H1 H2].
    apply N.leb_le in H1, H2. apply N.eqb_eq in H3.
    unfold Unicode.is_ascii, Unicode.ascii_lower_char. split.
    + apply N.ltb_lt. lia.
    + replace (65 <=? N_of_ascii c)%N with true by (symmetry; apply N.leb_le; lia).
      replace (N_of_ascii c <=? 90)%N with true by (symmetry; apply N.leb_le; lia).
      cbn [andb]. rewrite H3. apply ascii_N_embedding.
Qed.

Lemma spelled_lower (row : string) :
  Unicode.all_ascii row = true -> Unicode.ascii_lower row = row ->
  forall s, spelled row s = true ->
            Unicode.all_ascii s = true /\ Unicode.ascii_lower s = row.
Proof.
  induction row as [|r row IH]; intros Ha Hl [|c s] H; try discriminate H.
  - now split.
  - cbn [Unicode.all_ascii] in Ha. apply andb_prop in Ha. destruct Ha as [Hr Ha].
    cbn [Unicode.ascii_lower] in Hl. inversion Hl as [[Hlr Hlrow]].
    cbn [spelled] in H. apply andb_prop in H. destruct H as [Hc Hs].
    destruct (same_letter_lower r c Hc Hr Hlr) as [Hc1 Hc2].
    destruct (IH Ha Hlrow s Hs) as [Hs1 Hs2].
    cbn [Unicode.all_ascii Unicode.ascii_lower]. now rewrite Hc1, Hs1, Hc2, Hs2.
Qed.

(** The suffix of [stem.ext], alone or behind a directory prefix. *)
Lemma suffix_of_stem_ext (stem ext : string) :
  stem <> "" -> Py.rfind "/" stem = None ->
  ext <> "" -> Py.rfind "." ext = None -> Py.rfind "/" ext = None ->
  Pathlib.suffix (stem ++ "." ++ ext) = "." ++ ext
  /\ forall dir, Pathlib.suffix (dir ++ "/" ++ stem ++ "." ++ ext) = "." ++ ext.
Proof.
  intros Hs Hss He Hed Hes.
  assert (Hbase : Py.rfind "/" (stem ++ "." ++ ext) = None).
  { apply rfind_app_none; [exact Hss|]. cbn. now rewrite Hes. }
  assert (Hne : stem ++ "." ++ ext <> "") by (destruct stem; [contradiction | discriminate]).
  assert (Hnd : stem ++ "." ++ ext <> ".").
  { destruct stem as [|a stem]; [contradiction|]. cbn.
    destruct stem; cbn; intros H; inversion H. }
  destruct (name_of_base _ Hbase Hne Hnd) as [Hn1 Hn2].
  split.
  - exact (suffix_of_name _ stem ext Hn1 Hs He Hed).
  - intros dir. exact (suffix_of_name _ stem ext (Hn2 dir) Hs He Hed).
Qed.

(** A name with no dot, a hidden name and a name ending in a dot have no
    suffix. *)
Lemma suffix_of_bare_name (p name : string) :
  Pathlib.name p = name ->
  Py.rfind "." name = None
  \/ (exists rest, name = "." ++ rest /\ Py.rfind "." rest = None)
  \/ (exists stem, name = stem ++ ".") ->
  Pathlib.suffix p = "".
Proof.
  intros Hn Hcases. unfold Pathlib.suffix. rewrite Hn.
  destruct Hcases as [Hnone | [[rest [-> Hrest]] | [stem ->]]].
  - now rewrite Hnone.
  - cbn. now rewrite Hrest.
  - change (stem ++ ".") with (stem ++ String "." "").
    rewrite (rfind_app_at "." stem "" eq_refl), length_append. cbn [String.length].
    replace (String.length stem + 1 - 1) with (String.length stem) by lia.
    rewrite Nat.ltb_irrefl. now rewrite andb_false_r.
Qed.

(** The content type of [stem.ext] when [.ext] spells a row of the table. *)
Lemma content_type_of_row (row x mime stem ext : string) :
  row = "." ++ x -> x <> "" -> Py.rfind "." x = None -> Py.rfind "/" x = None ->
  Unicode.all_ascii row = true -> Unicode.ascii_lower row = row ->
  Py.dict_get row mime_map = Some mime ->
  spelled row ("." ++ ext) = true ->
  stem <> "" -> Py.rfind "/" stem = None ->
  infer_content_type (stem ++ "." ++ ext) = mime
  /\ forall dir, infer_content_type (dir ++ "/" ++ stem ++ "." ++ ext) = mime.
Proof.
  intros -> Hx Hxd Hxs Ha Hl Hget Hsp Hs Hss.
  destruct (spelled_lower _ Ha Hl _ Hsp) as [Hasc Hlow].
  assert (Hext : Unicode.ascii_lower ext = x) by (now inversion Hlow).
  assert (He : ext <> "") by (intros ->; now apply Hx).
  assert (Hed : Py.rfind "." ext = None)
    by (apply ascii_lower_rfind_none; [reflexivity | now rewrite Hext]).
  assert (Hes : Py.rfind "/" ext = None)
    by (apply ascii_lower_rfind_none; [reflexivity | now rewrite Hext]).
  destruct (suffix_of_stem_ext stem ext Hs Hss He Hed Hes) as [H1 H2].
  unfold infer_content_type. split; [|intros dir]; rewrite ?H1, ?H2;
    now rewrite (lower_ascii _ Hasc), Hlow, Hget.
Qed.

(** C7.  Content-type inference is a function of the file name alone.  For
    a name [stem.ext], alone or behind any directory prefix, whose
    extension spells a row of the table in any letter case, the content
    type is the MIME type of that row; an extension whose lower-cased form
    is in no row gives [application/octet-stream], and so does a name with
    no extension (no dot, a hidden name such as [.pdf], a trailing dot).
    Every name gets a value: the default or the MIME type of some row.  A
    call of [detect_type] whose resolved file name is [report.docx] sends
    one request, whose only header is the word-processing content type. *)
Theorem content_type_inference :
  let table :=
    [ (".pdf", "application/pdf");
      (".png", "image/png");
      (".jpg", "image/jpeg");
      (".jpeg", "image/jpeg");
      (".docx", "application/vnd.openxmlformats-officedocument.wordprocessingml.document");
      (".doc", "application/msword");
      (".xlsx", "application/vnd.openxmlformats-officedocument.spreadsheetml.sheet");
      (".xls", "application/vnd.ms-excel");
      (".pptx", "application/vnd.openxmlformats-officedocument.presentationml.presentation");
      (".ppt", "application/vnd.ms-powerpoint");
      (".txt", "text/plain");
      (".html", "text/html");
      (".htm", "text/html");
      (".csv", "text/csv");
      (".json", "application/json");
      (".xml", "application/xml");
      (".md", "text/markdown");
      (".rtf", "application/rtf") ] in
  (forall (row mime stem ext : string),
      In (row, mime) table ->
      spelled row ("." ++ ext) = true ->
      stem <> "" -> Py.rfind "/" stem = None ->
      infer_content_type (stem ++ "." ++ ext) = mime
      /\ forall dir, infer_content_type (dir ++ "/" ++ stem ++ "." ++ ext) = mime)
  /\ (forall (stem ext : string),
      stem <> "" -> Py.rfind "/" stem = None ->
      ext <> "" -> Py.rfind "." ext = None -> Py.rfind "/" ext = None ->
      (forall mime, ~ In ("." ++ Py.lower ext, mime) table) ->
      infer_content_type (stem ++ "." ++ ext) = "application/octet-stream"
      /\ forall dir,
          infer_content_type (dir ++ "/" ++ stem ++ "." ++ ext)
          = "application/octet-stream")
  /\ (forall name : string,
      Py.rfind "/" name = None ->
      Py.rfind "." name = None
      \/ (exists rest, name = "." ++ rest /\ Py.rfind "." rest = None)
      \/ (exists stem, name = stem ++ ".") ->
      infer_content_type name = "application/octet-stream"
      /\ (name <> "" -> name <> "." ->
          forall dir,
            infer_content_type (dir ++ "/" ++ name) = "application/octet-stream"))
  /\ (forall file_name : string,
      infer_content_type file_name = "application/octet-stream"
      \/ exists row, In (row, infer_content_type file_name) table)
  /\ (forall (T : Type) (cls : Cls T) (w w' : World) (c : BaseClient)
             (file_input : FileInput) (filename : option string) (f : FileObj),
      _client w = Some c ->
      _prepare_file_input file_input filename w = (Return (f, "report.docx"), w') ->
      exists call : ClientCall,
        requests (events (snd (Mixins.detect_type cls file_input filename w)))
        = (requests (events w) ++ [call])%list
        /\ call_headers call =
           [("Content-Type",
             "application/vnd.openxmlformats-officedocument.wordprocessingml.document")]).
Proof.
  cbv zeta. split; [|split; [|split; [|split]]].
  - intros row mime stem ext Hin Hsp Hs Hss. cbn [In] in Hin.
    repeat (destruct Hin as [Hin | Hin];
            [inversion Hin; subst;
             match type of Hsp with
             | spelled ?r _ = true => eapply (content_type_of_row r _ _ stem ext)
             end;
             solve [reflexivity | discriminate | eassumption] |]).
    contradiction.
  - intros stem ext Hs Hss He Hed Hes Hnone.
    destruct (suffix_of_stem_ext stem ext Hs Hss He Hed Hes) as [H1 H2].
    assert (Hget : Py.dict_get ("." ++ Py.lower ext) mime_map = None)
      by exact (dict_get_absent _ mime_map Hnone).
    unfold infer_content_type. split; [|intros dir]; rewrite ?H1, ?H2;
      now rewrite lower_dot, Hget.
  - intros name Hsl Hcases.
    assert (Hname : Pathlib.name name = name \/ Pathlib.name name = "").
    { destruct (String.eqb_spec name "") as [->|He]; [now right|].
      destruct (String.eqb_spec name ".") as [->|Hd]; [now right|].
      left. exact (proj1 (name_of_base name Hsl He Hd)). }
    split.
    + unfold infer_content_type.
      destruct Hname as [Hn | Hn].
      * now rewrite (suffix_of_bare_name name name Hn Hcases).
      * now rewrite (suffix_of_bare_name name "" Hn (or_introl eq_refl)).
    + intros He Hd dir. unfold infer_content_type.
      now rewrite (suffix_of_bare_name _ name
                     (proj2 (name_of_base name Hsl He Hd) dir) Hcases).
  - intros file_name. unfold infer_content_type.
    destruct (Py.dict_get (Py.lower (Pathlib.suffix file_name)) mime_map) as [m|] eqn:E;
      [right | now left].
    eexists. exact (dict_get_In _ _ _ E).
  - intros T cls w w' c fi fn f Hc Hprep.
    destruct (prepare_frame _ _ _ _ _ Hprep) as (_ & _ & _ & Hreq).
    unfold Mixins.detect_type, get_client, bind. rewrite Hc, Hprep, upload_run.
    eexists. split.
    + cbn [snd events]. rewrite requests_app, Hreq. f_equal.
      destruct (is_str fi); reflexivity.
    + reflexivity.
Qed.

Lemma content_type_inference_witness :
  spelled ".docx" ("." ++ "DocX") = true
  /\ "backup.2024.REPORT" <> "" /\ Py.rfind "/" "backup.2024.REPORT" = None
  /\ infer_content_type ("Quarterly/Q3" ++ "/" ++ "backup.2024.REPORT" ++ "." ++ "DocX")
     = "application/vnd.openxmlformats-officedocument.wordprocessingml.document"
  /\ Py.rfind "/" ".pdf" = None
  /\ (exists rest, ".pdf" = "." ++ rest /\ Py.rfind "." rest = None)
  /\ infer_content_type ("docs" ++ "/" ++ ".pdf") = "application/octet-stream"
  /\ exists call : ClientCall,
      requests (events (snd (Mixins.detect_type (TypeDetection.this (fun _ => @None unit))
                               (PyBytes sample_bytes) (Some "report.docx")
                               (configured one_atom_body))))
      = (requests (events (configured one_atom_body)) ++ [call])%list
      /\ call_headers call =
         [("Content-Type",
           "application/vnd.openxmlformats-officedocument.wordprocessingml.document")].
Proof.
  destruct content_type_inference as (Hrow & _ & Hbare & _ & Hsend).
  assert (Hs : "backup.2024.REPORT" <> "") by discriminate.
  assert (Hh : exists rest, ".pdf" = "." ++ rest /\ Py.rfind "." rest = None)
    by (exists "pdf"; split; reflexivity).
  assert (Hne : ".pdf" <> "") by discriminate.
  assert (Hnd : ".pdf" <> ".") by discriminate.
  split; [reflexivity|]. split; [exact Hs|]. split; [reflexivity|].
  split.
  { refine (proj2 (Hrow ".docx" _ "backup.2024.REPORT" "DocX" _ eq_refl Hs eq_refl)
                  "Quarterly/Q3").
    do 4 right. left. reflexivity. }
  split; [reflexivity|]. split; [exact Hh|].
  split.
  { exact (proj2 (Hbare ".pdf" eq_refl (or_intror (or_introl Hh))) Hne Hnd "docs"). }
  exact (Hsend _ (TypeDetection.this (fun _ => @None unit)) (configured one_atom_body) _ _
           (PyBytes sample_bytes) (Some "report.docx") _ eq_refl eq_refl).
Defined.

(** ** Calls before [configure] *)

(** C8.  Before [configure] has been called, every public operation -
    the connectivity check, type detection, atom extraction and each of its
    thirteen per-format methods - raises the built-in [ValueError] with the
    message ["SDK is not configured. Call 'configure' first."], and leaves
    the state as it was: no file is probed or opened and nothing is
    sent. *)
Theorem operations_require_configuration :
  forall (T1 T2 : Type) (td : Cls T1) (ae : Cls T2) (w : World),
    _client w = None ->
    Connectivity.validate_connectivity w = (Raise not_configured, w)
    /\ (forall fi fn, TypeDetection.detect_type td fi fn w = (Raise not_configured, w))
    /\ (forall fi fmt ocr fn,
          AtomExtraction.extract_atoms ae fi fmt ocr fn w = (Raise not_configured, w))
    /\ (forall fi fn, AtomExtraction.extract_atoms_csv ae fi fn w = (Raise not_configured, w))
    /\ (forall fi fn, AtomExtraction.extract_atoms_excel ae fi fn w = (Raise not_configured, w))
    /\ (forall fi fn, AtomExtraction.extract_atoms_html ae fi fn w = (Raise not_configured, w))
    /\ (forall fi fn, AtomExtraction.extract_atoms_json ae fi fn w = (Raise not_configured, w))
    /\ (forall fi fn, AtomExtraction.extract_atoms_markdown ae fi fn w = (Raise not_configured, w))
    /\ (forall fi fn, AtomExtraction.extract_atoms_ocr ae fi fn w = (Raise not_configured, w))
    /\ (forall fi ocr fn,
          AtomExtraction.extract_atoms_pdf ae fi ocr fn w = (Raise not_configured, w))
    /\ (forall fi fn, AtomExtraction.extract_atoms_png ae fi fn w = (Raise not_configured, w))
    /\ (forall fi ocr fn,
          AtomExtraction.extract_atoms_powerpoint ae fi ocr fn w = (Raise not_configured, w))
    /\ (forall fi ocr fn,
          AtomExtraction.extract_atoms_rtf ae fi ocr fn w = (Raise not_configured, w))
    /\ (forall fi fn, AtomExtraction.extract_atoms_text ae fi fn w = (Raise not_configured, w))
    /\ (forall fi fn, AtomExtraction.extract_atoms_word ae fi fn w = (Raise not_configured, w))
    /\ (forall fi fn, AtomExtraction.extract_atoms_xml ae fi fn w = (Raise not_configured, w)).
Proof.
  intros T1 T2 td ae w Hc.
  assert (Hbase : forall fi fmt ocr fn,
             AtomExtraction.extract_atoms ae fi fmt ocr fn w = (Raise not_configured, w)).
  { intros. unfold AtomExtraction.extract_atoms, Mixins.extract_atoms, get_client, bind.
    now rewrite Hc. }
  repeat match goal with |- _ /\ _ => split end; intros;
    try exact (Hbase _ _ _ _);
    try (unfold AtomExtraction.extract_atoms_csv, AtomExtraction.extract_atoms_excel,
           AtomExtraction.extract_atoms_html, AtomExtraction.extract_atoms_json,
           AtomExtraction.extract_atoms_markdown, AtomExtraction.extract_atoms_ocr,
           AtomExtraction.extract_atoms_pdf, AtomExtraction.extract_atoms_png,
           AtomExtraction.extract_atoms_powerpoint, AtomExtraction.extract_atoms_rtf,
           AtomExtraction.extract_atoms_text, AtomExtraction.extract_atoms_word,
           AtomExtraction.extract_atoms_xml,
           Mixins.extract_atoms_csv, Mixins.extract_atoms_excel,
           Mixins.extract_atoms_html, Mixins.extract_atoms_json,
           Mixins.extract_atoms_markdown, Mixins.extract_atoms_ocr,
           Mixins.extract_atoms_pdf, Mixins.extract_atoms_png,
           Mixins.extract_atoms_powerpoint, Mixins.extract_atoms_rtf,
           Mixins.extract_atoms_text, Mixins.extract_atoms_word,
           Mixins.extract_atoms_xml;
         unfold bind at 1; now rewrite Hbase).
  - unfold Connectivity.validate_connectivity, Mixins.validate_connectivity,
      get_client, bind. now rewrite Hc.
  - unfold TypeDetection.detect_type, Mixins.detect_type, get_client, bind.
    now rewrite Hc.
Qed.

Lemma operations_require_configuration_witness :
  _client (fresh_process one_atom_body) = None
  /\ AtomExtraction.extract_atoms_pdf AtomExtraction.this (PyStr "docs/sample.pdf")
       (Some true) None (fresh_process one_atom_body)
     = (Raise (mkExc ValueError "SDK is not configured. Call 'configure' first."),
        fresh_process one_atom_body).
Proof.
  split; [reflexivity|].
  destruct (operations_require_configuration _ _
              (TypeDetection.this (fun _ => @None unit)) AtomExtraction.this
              (fresh_process one_atom_body) eq_refl)
    as (_ & _ & _ & _ & _ & _ & _ & _ & _ & Hpdf & _).
  exact (Hpdf (PyStr "docs/sample.pdf") (Some true) None).
Defined.

(** C8, as stated, fails: the exception raised before configuration is
    not an [SdkException]. *)
Lemma not_configured_is_not_SdkException :
  exists e : Exc,
    fst (AtomExtraction.extract_atoms AtomExtraction.this (PyStr "docs/sample.pdf")
           "pdf" None None (fresh_process one_atom_body)) = Raise e
    /\ exc_msg e = "SDK is not configured. Call 'configure' first."
    /\ exc_class e = ValueError
    /\ is_SdkException (exc_class e) = false.
Proof.
  eexists. repeat split; reflexivity.
Qed.

(** ** [configure] *)



(** ** The extraction result model *)

(** C10.  When the decoded body of a successful extraction is an object
    with neither the key ["Atoms"] nor the key ["atoms"], and whose
    metadata and file type, if present, validate, [AtomExtraction.extract_atoms]
    returns a result whose atom list is empty. *)
Theorem extract_atoms_missing_atoms_defaults :
  forall (w w' : World) (file_input : FileInput) (format_type : string)
         (ocr : option bool) (filename : option string)
         (body : list (string * Json.t))
         (md : option (list (string * Json.t))) (ft : option string),
    Mixins.extract_atoms AtomExtraction.this file_input format_type ocr filename w
    = (Return (Json.JObj body), w') ->
    Py.dict_get "Atoms" body = None ->
    Py.dict_get "atoms" body = None ->
    Models.optional_dict "AtomExtractionResultModel"
      (Models.field "Metadata" "metadata" body) = Return md ->
    Models.optional_str "AtomExtractionResultModel"
      (Models.field "FileType" "file_type" body) = Return ft ->
    AtomExtraction.extract_atoms AtomExtraction.this file_input format_type ocr filename w
    = (Return (Instance (Models.AtomExtractionResultModel.mk [] md ft)), w').
Proof.
  intros w w' fi fmt ocr fn body md ft Hrun HA Ha Hmd Hft.
  unfold AtomExtraction.extract_atoms, bind. rewrite Hrun.
  unfold lift, apply_model. cbn [MODEL AtomExtraction.this].
  unfold Models.AtomExtractionResultModel.model_validate.
  unfold Models.field at 1. rewrite HA, Ha. cbn [Models.AtomExtractionResultModel.validate_atoms and_then].
  rewrite Hmd. cbn [and_then]. rewrite Hft. reflexivity.
Qed.

Lemma extract_atoms_missing_atoms_defaults_witness :
  Mixins.extract_atoms AtomExtraction.this (PyBytes sample_bytes) "text" None
    (Some "notes.txt") (configured empty_object_body)
  = (Return (Json.JObj []),
     log_event (EvRequest default_client
                  (upload_call "atom/text" "text/plain" (mkFile sample_bytes 0 None)))
       (log_event EvRead (log_event (EvSeek 0) (configured empty_object_body))))
  /\ AtomExtraction.extract_atoms AtomExtraction.this (PyBytes sample_bytes) "text" None
       (Some "notes.txt") (configured empty_object_body)
     = (Return (Instance (Models.AtomExtractionResultModel.mk [] None None)),
        log_event (EvRequest default_client
                     (upload_call "atom/text" "text/plain" (mkFile sample_bytes 0 None)))
          (log_event EvRead (log_event (EvSeek 0) (configured empty_object_body)))).
Proof.
  split; [reflexivity|].
  exact (extract_atoms_missing_atoms_defaults (configured empty_object_body) _
           (PyBytes sample_bytes) "text" None (Some "notes.txt") [] None None
           eq_refl eq_refl eq_refl eq_refl eq_refl).
Defined.

(** C10, as stated, fails: a body without the key ["Atoms"] can still
    populate the atom list through the attribute name ["atoms"]. *)
Lemma lowercase_atoms_key_populates :
  Json.has_key "Atoms" lowercase_atoms_body = false
  /\ fst (AtomExtraction.extract_atoms AtomExtraction.this (PyBytes sample_bytes) "text"
            None (Some "notes.txt") (configured lowercase_atoms_body))
     = Return (Instance (Models.AtomExtractionResultModel.mk
                           [Models.AtomModel.mk "x" None None None] None None))
  /\ Models.AtomExtractionResultModel.atoms
       (Models.AtomExtractionResultModel.mk
          [Models.AtomModel.mk "x" None None None] None None) <> [].
Proof.
  split; [reflexivity|]. split; [reflexivity|]. discriminate.
Qed.

(* ===================================================================== *)
(** * Further properties of the resources *)
(* ===================================================================== *)

Import Traces.

(** ** Traces of the two upload operations *)

Lemma opens_app (l1 l2 : list Event) : opens (l1 ++ l2) = opens l1 + opens l2.
Proof.
  induction l1 as [|e l1 IH]; cbn; [reflexivity|].
  destruct e; cbn; rewrite ?IH; reflexivity.
Qed.

Lemma closes_app (l1 l2 : list Event) : closes (l1 ++ l2) = closes l1 + closes l2.
Proof.
  induction l1 as [|e l1 IH]; cbn; [reflexivity|].
  destruct e; cbn; rewrite ?IH; reflexivity.
Qed.

Lemma extended_nil (w : World) : extended w [] = w.
Proof.
  destruct w. unfold extended. cbn. now rewrite app_nil_r.
Qed.

Lemma extended_extended (w : World) (s1 s2 : list Event) :
  extended (extended w s1) s2 = extended w (s1 ++ s2).
Proof.
  unfold extended. cbn. now rewrite app_assoc.
Qed.

(** Normalization extends the trace by probes and at most one open: it
    sends nothing, closes nothing, and has opened a file exactly when it
    returns for a path. *)
Lemma prepare_trace fi fn w r w' :
  _prepare_file_input fi fn w = (r, w') ->
  exists suffix,
    w' = extended w suffix
    /\ requests suffix = []
    /\ closes suffix = 0
    /\ opens suffix =
       match r with
       | Return _ => if is_str fi then 1 else 0
       | Raise _ => 0
       end.
Proof.
  destruct fi as [path|data|k f|ty]; unfold _prepare_file_input; run_m.
  - destruct (fs w path) as [[d| |]|] eqn:E; cbn; rewrite ?E; cbn; rewrite ?E; cbn;
      intros H; inversion H; subst; clear H.
    + exists [EvExists path; EvIsFile path; EvOpen path].
      unfold extended, log_event. cbn. rewrite <- !app_assoc. auto.
    + exists [EvExists path; EvIsFile path].
      unfold extended, log_event. cbn. rewrite <- !app_assoc. auto.
    + exists [EvExists path; EvIsFile path].
      unfold extended, log_event. cbn. rewrite <- !app_assoc. auto.
    + exists [EvExists path]. unfold extended, log_event. cbn. auto.
  - destruct (Py.truthy fn); cbn; intros H; inversion H; subst;
      exists []; rewrite extended_nil; auto.
  - destruct (isinstance_BytesIO_BinaryIO k); cbn.
    + destruct (Py.truthy fn); cbn.
      * intros H; inversion H; subst. exists []; rewrite extended_nil; auto.
      * destruct (_ =? "file"); cbn; intros H; inversion H; subst;
          exists []; rewrite extended_nil; auto.
    + intros H; inversion H; subst. exists []; rewrite extended_nil; auto.
  - intros H; inversion H; subst. exists []; rewrite extended_nil; auto.
Qed.

Lemma upload_extended c fi f url ct w :
  upload c fi f url ct w =
  (network w c (upload_call url ct f),
   extended w ([EvSeek 0; EvRead; EvRequest c (upload_call url ct f)]
               ++ (if is_str fi then [EvClose] else []))).
Proof.
  rewrite upload_run. reflexivity.
Qed.

(** [detect_type], unfolded along its three stages. *)
Lemma detect_type_run {T} (cls : Cls T) w c fi fn :
  _client w = Some c ->
  Mixins.detect_type cls fi fn w =
  match _prepare_file_input fi fn w with
  | (Return (f, name), w') =>
      upload c fi f (_get_url_base cls [] []) (infer_content_type name) w'
  | (Raise e, w') => (Raise e, w')
  end.
Proof.
  intros Hc. unfold Mixins.detect_type, get_client, bind. rewrite Hc.
  destruct (_prepare_file_input fi fn w) as [[[f name]|e] w']; reflexivity.
Qed.

(** The shape of the trace an upload operation leaves, given the
    operation's unfolding into normalization followed by [upload]. *)
Lemma staged_trace c fi fn w (url ct : string -> string) :
  exists suffix,
    snd (match _prepare_file_input fi fn w with
         | (Return (f, name), w') => upload c fi f (url name) (ct name) w'
         | (Raise e, w') => (@Raise Json.t e, w')
         end) = extended w suffix
    /\ length (requests suffix) <= 1
    /\ opens suffix = closes suffix
    /\ (is_str fi = false -> closes suffix = 0).
Proof.
  destruct (_prepare_file_input fi fn w) as [[[f name]|e] w'] eqn:Hprep;
    destruct (prepare_trace _ _ _ _ _ Hprep) as (suf & -> & Hreq & Hcl & Hop).
  - rewrite upload_extended. cbn [snd]. rewrite extended_extended.
    eexists. split; [reflexivity|].
    rewrite requests_app, opens_app, closes_app, Hreq, Hcl, Hop.
    destruct (is_str fi); cbn; repeat split; auto; discriminate.
  - cbn [snd]. exists suf. rewrite Hreq, Hcl, Hop. cbn. auto.
Qed.

Lemma mixin_extract_trace {T} (cls : Cls T) w fi fmt ocr fn :
  exists suffix,
    snd (Mixins.extract_atoms cls fi fmt ocr fn w) = extended w suffix
    /\ length (requests suffix) <= 1
    /\ opens suffix = closes suffix
    /\ (is_str fi = false -> closes suffix = 0).
Proof.
  destruct (_client w) as [c|] eqn:Hc.
  - destruct (Py.mem (Py.lower fmt) SUPPORTED_FORMATS) eqn:Hm.
    + apply mem_In in Hm. rewrite (extract_atoms_run cls w c fi fmt ocr fn Hc Hm).
      exact (staged_trace c fi fn w
               (fun _ => _get_url_base cls [Some (Py.lower fmt)]
                           (ocr_params (Py.lower fmt) ocr))
               (fun _ => match Py.dict_get (Py.lower fmt) MIME_TYPES with
                         | Some m => m
                         | None => "application/octet-stream"
                         end)).
    + unfold Mixins.extract_atoms, get_client, validate_format, bind, lift.
      rewrite Hc, Hm. cbn [negb snd]. exists []. rewrite extended_nil. cbn. auto.
  - unfold Mixins.extract_atoms, get_client, bind. rewrite Hc. cbn [snd].
    exists []. rewrite extended_nil. cbn. auto.
Qed.

Lemma mixin_detect_trace {T} (cls : Cls T) w fi fn :
  exists suffix,
    snd (Mixins.detect_type cls fi fn w) = extended w suffix
    /\ length (requests suffix) <= 1
    /\ opens suffix = closes suffix
    /\ (is_str fi = false -> closes suffix = 0).
Proof.
  destruct (_client w) as [c|] eqn:Hc.
  - rewrite (detect_type_run cls w c fi fn Hc).
    exact (staged_trace c fi fn w (fun _ => _get_url_base cls [] []) infer_content_type).
  - unfold Mixins.detect_type, get_client, bind. rewrite Hc. cbn [snd].
    exists []. rewrite extended_nil. cbn. auto.
Qed.

(** Validation by the model happens after the exchange and leaves the
    state alone. *)
Lemma resource_extract_state {T} (cls : Cls T) w fi fmt ocr fn :
  snd (AtomExtraction.extract_atoms cls fi fmt ocr fn w)
  = snd (Mixins.extract_atoms cls fi fmt ocr fn w).
Proof.
  unfold AtomExtraction.extract_atoms, bind, lift.
  destruct (Mixins.extract_atoms cls fi fmt ocr fn w) as [[j|e] w']; reflexivity.
Qed.

Lemma resource_detect_state {T} (cls : Cls T) w fi fn :
  snd (TypeDetection.detect_type cls fi fn w)
  = snd (Mixins.detect_type cls fi fn w).
Proof.
  unfold TypeDetection.detect_type, bind, lift.
  destruct (Mixins.detect_type cls fi fn w) as [[j|e] w']; reflexivity.
Qed.

Lemma connectivity_trace w :
  exists suffix,
    snd (Mixins.validate_connectivity w) = extended w suffix
    /\ length (requests suffix) <= 1
    /\ opens suffix = 0 /\ closes suffix = 0.
Proof.
  unfold Mixins.validate_connectivity, get_client, bind, try_except, client_request,
    log_error, emit, raise, ret.
  destruct (_client w) as [c|].
  - destruct (network w c (mkCall "HEAD" "" [] [] NoBody)) as [j|e]; cbn [snd].
    + exists [EvRequest c (mkCall "HEAD" "" [] [] NoBody)]. cbn. auto.
    + exists [EvRequest c (mkCall "HEAD" "" [] [] NoBody);
              EvLogError ("Failed to validate connectivity: " ++ exc_msg e)].
      unfold extended, log_event. cbn. rewrite <- app_assoc. cbn. auto.
  - cbn [snd]. exists []. rewrite extended_nil. cbn. auto.
Qed.

(** ** What no operation does *)

(** X1.  Whatever its arguments and whatever the state, a public
    operation leaves the configured client, the file system and the service
    as they were, only appends to the trace, and calls [client.request] at
    most once. *)
Theorem operations_send_at_most_once :
  forall (T1 T2 : Type) (td : Cls T1) (ae : Cls T2) (w : World),
    (exists suffix,
        snd (Connectivity.validate_connectivity w) = extended w suffix
        /\ length (requests suffix) <= 1)
    /\ (forall fi fn,
        exists suffix,
          snd (TypeDetection.detect_type td fi fn w) = extended w suffix
          /\ length (requests suffix) <= 1)
    /\ (forall fi fmt ocr fn,
        exists suffix,
          snd (AtomExtraction.extract_atoms ae fi fmt ocr fn w) = extended w suffix
          /\ length (requests suffix) <= 1).
Proof.
  intros T1 T2 td ae w. split; [|split].
  - destruct (connectivity_trace w) as (suf & H & Hr & _). now exists suf.
  - intros fi fn. rewrite resource_detect_state.
    destruct (mixin_detect_trace td w fi fn) as (suf & H & Hr & _). now exists suf.
  - intros fi fmt ocr fn. rewrite resource_extract_state.
    destruct (mixin_extract_trace ae w fi fmt ocr fn) as (suf & H & Hr & _). now exists suf.
Qed.

(** X2.  File handles are balanced on every exit path: in the trace a call
    of [detect_type] or [extract_atoms] appends, as many files are closed
    as were opened, whether the call returns or raises; and when the input
    is not a path, nothing is closed - a stream handed in by the caller
    stays open. *)
Theorem file_handles_balanced :
  forall (T1 T2 : Type) (td : Cls T1) (ae : Cls T2) (w : World)
         (file_input : FileInput) (filename : option string),
    (exists suffix,
        snd (TypeDetection.detect_type td file_input filename w) = extended w suffix
        /\ opens suffix = closes suffix
        /\ (is_str file_input = false -> closes suffix = 0))
    /\ (forall fmt ocr,
        exists suffix,
          snd (AtomExtraction.extract_atoms ae file_input fmt ocr filename w)
          = extended w suffix
          /\ opens suffix = closes suffix
          /\ (is_str file_input = false -> closes suffix = 0)).
Proof.
  intros T1 T2 td ae w fi fn. split.
  - rewrite resource_detect_state.
    destruct (mixin_detect_trace td w fi fn) as (suf & H & _ & Hb & Hs). now exists suf.
  - intros fmt ocr. rewrite resource_extract_state.
    destruct (mixin_extract_trace ae w fi fmt ocr fn) as (suf & H & _ & Hb & Hs).
    now exists suf.
Qed.

Lemma file_handles_balanced_witness :
  is_str (PyStream io_BytesIO (mkFile sample_bytes 2 (Some "notes.txt"))) = false
  /\ exists suffix,
      snd (AtomExtraction.extract_atoms AtomExtraction.this
             (PyStream io_BytesIO (mkFile sample_bytes 2 (Some "notes.txt")))
             "text" None None (configured one_atom_body))
      = extended (configured one_atom_body) suffix
      /\ opens suffix = closes suffix
      /\ (is_str (PyStream io_BytesIO (mkFile sample_bytes 2 (Some "notes.txt"))) = false ->
          closes suffix = 0).
Proof.
  split; [reflexivity|].
  exact (proj2 (file_handles_balanced _ _ (TypeDetection.this (fun _ => @None unit))
                  AtomExtraction.this (configured one_atom_body)
                  (PyStream io_BytesIO (mkFile sample_bytes 2 (Some "notes.txt"))) None)
               "text" None).
Defined.

(** ** The connectivity check *)

(** X3.  With a configured client, [validate_connectivity] sends one
    body-less [HEAD] request for the empty path.  If the request returns,
    the result is [True].  If it raises, whatever the class of the
    exception, the failure is logged and a generic [SdkException] is raised
    whose message is ["Failed to validate connectivity: "] followed by the
    original message. *)
Theorem validate_connectivity_outcomes :
  forall (w : World) (c : BaseClient),
    _client w = Some c ->
    let call := mkCall "HEAD" "" [] [] NoBody in
    (forall j, network w c call = Return j ->
               Connectivity.validate_connectivity w
               = (Return true, extended w [EvRequest c call]))
    /\ (forall e, network w c call = Raise e ->
                  let msg := "Failed to validate connectivity: " ++ exc_msg e in
                  Connectivity.validate_connectivity w
                  = (Raise (mkExc SdkException msg),
                     extended w [EvRequest c call; EvLogError msg])).
Proof.
  intros w c Hc call. split.
  - intros j Hj.
    unfold Connectivity.validate_connectivity, Mixins.validate_connectivity, get_client,
      bind, try_except, client_request, ret.
    rewrite Hc. fold call. rewrite Hj. reflexivity.
  - intros e He msg.
    unfold Connectivity.validate_connectivity, Mixins.validate_connectivity, get_client,
      bind, try_except, client_request, log_error, emit, raise.
    rewrite Hc. fold call. rewrite He. unfold extended, log_event. cbn.
    rewrite <- app_assoc. reflexivity.
Qed.

Lemma validate_connectivity_outcomes_witness :
  _client (failing_service (mkExc ServerError "Internal server error occurred"))
  = Some default_client
  /\ Connectivity.validate_connectivity
       (failing_service (mkExc ServerError "Internal server error occurred"))
     = (Raise (mkExc SdkException
                 "Failed to validate connectivity: Internal server error occurred"),
        extended (failing_service (mkExc ServerError "Internal server error occurred"))
          [EvRequest default_client (mkCall "HEAD" "" [] [] NoBody);
           EvLogError "Failed to validate connectivity: Internal server error occurred"]).
Proof.
  split; [reflexivity|].
  exact (proj2 (validate_connectivity_outcomes
                  (failing_service (mkExc ServerError "Internal server error occurred"))
                  default_client eq_refl)
               (mkExc ServerError "Internal server error occurred") eq_refl).
Defined.

(** ** The requests of the two upload operations *)

(** X4.  When the input normalizes, [detect_type] of the type-detection
    resource sends one [POST] to [typedetect], without a query string,
    whose body is the whole content of the file object and whose only
    header is the content type inferred from the resolved name; the outcome
    of the request, returned or raised, is the outcome of the call, and a
    file opened from a path is closed in both cases. *)
Theorem detect_type_request :
  forall (T : Type) (cls : Cls T) (w w' : World) (c : BaseClient)
         (file_input : FileInput) (filename : option string)
         (f : FileObj) (name : string),
    RESOURCE_NAME cls = "typedetect" ->
    _client w = Some c ->
    _prepare_file_input file_input filename w = (Return (f, name), w') ->
    let call := mkCall "POST" "typedetect"
                       [("Content-Type", infer_content_type name)] []
                       (RawContent (file_data f)) in
    Mixins.detect_type cls file_input filename w
    = (network w c call,
       extended w' ([EvSeek 0; EvRead; EvRequest c call]
                    ++ (if is_str file_input then [EvClose] else []))).
Proof.
  intros T cls w w' c fi fn f name Hn Hc Hprep call.
  destruct (prepare_frame _ _ _ _ _ Hprep) as (_ & _ & Hnet & _).
  rewrite (detect_type_run cls w c fi fn Hc), Hprep, upload_extended.
  unfold _get_url_base. rewrite Hn, Hnet. reflexivity.
Qed.

Lemma detect_type_request_witness :
  RESOURCE_NAME (TypeDetection.this (fun _ => @None unit)) = "typedetect"
  /\ _client (failing_service (mkExc TimeoutError "timed out")) = Some default_client
  /\ Mixins.detect_type (TypeDetection.this (fun _ => @None unit))
       (PyStr "docs/sample.pdf") None (failing_service (mkExc TimeoutError "timed out"))
     = (Raise (mkExc TimeoutError "timed out"),
        extended (failing_service (mkExc TimeoutError "timed out"))
          [EvExists "docs/sample.pdf"; EvIsFile "docs/sample.pdf"; EvOpen "docs/sample.pdf";
           EvSeek 0; EvRead;
           EvRequest default_client
             (mkCall "POST" "typedetect" [("Content-Type", "application/pdf")] []
                     (RawContent sample_bytes));
           EvClose]).
Proof.
  split; [reflexivity|]. split; [reflexivity|].
  exact (detect_type_request _ (TypeDetection.this (fun _ => @None unit))
           (failing_service (mkExc TimeoutError "timed out")) _ default_client
           (PyStr "docs/sample.pdf") None _ _ eq_refl eq_refl eq_refl).
Defined.

(** X5.  When the format is supported and the input normalizes,
    [extract_atoms] sends one [POST] whose body is the whole content of the
    file object and whose only header is the content type the table
    [MIME_TYPES] gives for the lower-cased format - every supported format
    has an entry, and the file name plays no part; the outcome of the
    request is the outcome of the call, and a file opened from a path is
    closed whether the request returns or raises. *)
Theorem extract_atoms_request :
  forall (T : Type) (cls : Cls T) (w w' : World) (c : BaseClient)
         (file_input : FileInput) (fmt : string) (ocr : option bool)
         (filename : option string) (f : FileObj) (name : string),
    _client w = Some c ->
    In (Py.lower fmt) SUPPORTED_FORMATS ->
    _prepare_file_input file_input filename w = (Return (f, name), w') ->
    exists mime : string,
      Py.dict_get (Py.lower fmt) MIME_TYPES = Some mime
      /\ let call :=
           mkCall "POST"
                  (_get_url_base cls [Some (Py.lower fmt)] (ocr_params (Py.lower fmt) ocr))
                  [("Content-Type", mime)] [] (RawContent (file_data f)) in
         Mixins.extract_atoms cls file_input fmt ocr filename w
         = (network w c call,
            extended w' ([EvSeek 0; EvRead; EvRequest c call]
                         ++ (if is_str file_input then [EvClose] else []))).
Proof.
  intros T cls w w' c fi fmt ocr fn f name Hc Hin Hprep.
  destruct (prepare_frame _ _ _ _ _ Hprep) as (_ & _ & Hnet & _).
  rewrite (extract_atoms_run cls w c fi fmt ocr fn Hc Hin), Hprep, upload_extended, Hnet.
  assert (Hm : exists mime, Py.dict_get (Py.lower fmt) MIME_TYPES = Some mime).
  { revert Hin. generalize (Py.lower fmt) as x. intros x Hin. cbn in Hin.
    repeat (destruct Hin as [<- | Hin]; [eexists; reflexivity|]). contradiction. }
  destruct Hm as [mime Hm]. exists mime. split; [exact Hm|].
  rewrite Hm. reflexivity.
Qed.

Lemma extract_atoms_request_witness :
  _client (failing_service (mkExc ServerError "boom")) = Some default_client
  /\ In (Py.lower "Word") SUPPORTED_FORMATS
  /\ exists mime : string,
      Py.dict_get (Py.lower "Word") MIME_TYPES = Some mime
      /\ let call :=
           mkCall "POST"
                  (_get_url_base AtomExtraction.this [Some (Py.lower "Word")]
                     (ocr_params (Py.lower "Word") (Some true)))
                  [("Content-Type", mime)] []
                  (RawContent (file_data (mkFile sample_bytes 0 (Some "docs/sample.pdf")))) in
         Mixins.extract_atoms AtomExtraction.this (PyStr "docs/sample.pdf") "Word"
           (Some true) None (failing_service (mkExc ServerError "boom"))
         = (network (failing_service (mkExc ServerError "boom")) default_client call,
            extended
              (extended (failing_service (mkExc ServerError "boom"))
                 [EvExists "docs/sample.pdf"; EvIsFile "docs/sample.pdf";
                  EvOpen "docs/sample.pdf"])
              ([EvSeek 0; EvRead; EvRequest default_client call]
               ++ (if is_str (PyStr "docs/sample.pdf") then [EvClose] else []))).
Proof.
  assert (Hin : In (Py.lower "Word") SUPPORTED_FORMATS) by (apply mem_In; reflexivity).
  split; [reflexivity|]. split; [exact Hin|].
  exact (extract_atoms_request _ AtomExtraction.this
           (failing_service (mkExc ServerError "boom")) _ default_client
           (PyStr "docs/sample.pdf") "Word" (Some true) None _ _
           eq_refl Hin eq_refl).
Defined.

(** ** How the arguments of [extract_atoms] matter *)

(** X6.  The format is read case-insensitively throughout: a call with
    [format_type] and the same call with its lower-cased form have the same
    outcome and leave the same state, whether the format is supported or
    not. *)
Theorem extract_atoms_case_insensitive :
  forall (T : Type) (cls : Cls T) (w : World) (file_input : FileInput)
         (format_type : string) (ocr : option bool) (filename : option string),
    AtomExtraction.extract_atoms cls file_input format_type ocr filename w
    = AtomExtraction.extract_atoms cls file_input (Py.lower format_type) ocr filename w.
Proof.
  intros T cls w fi fmt ocr fn.
  unfold AtomExtraction.extract_atoms, Mixins.extract_atoms, validate_format.
  now rewrite lower_idempotent.
Qed.

Lemma ocr_params_false (format_type : string) :
  ocr_params format_type (Some false) = ocr_params format_type None.
Proof.
  unfold ocr_params. now destruct (Py.mem format_type FORMATS_WITH_OCR).
Qed.

Lemma ocr_params_unsupported (format_type : string) (ocr : option bool) :
  Py.mem format_type FORMATS_WITH_OCR = false ->
  ocr_params format_type ocr = [].
Proof.
  unfold ocr_params. now intros ->.
Qed.

(** X7.  The [ocr] argument reaches the service only as an opt-in: a call
    with [ocr=False] is the same call as one without [ocr], and for a
    format outside pdf, powerpoint and rtf every value of [ocr] gives the
    call without [ocr] - same outcome, same requests, same state. *)
Theorem ocr_is_opt_in :
  forall (T : Type) (cls : Cls T) (w : World) (file_input : FileInput)
         (format_type : string) (filename : option string),
    AtomExtraction.extract_atoms cls file_input format_type (Some false) filename w
    = AtomExtraction.extract_atoms cls file_input format_type None filename w
    /\ (~ In (Py.lower format_type) FORMATS_WITH_OCR ->
        forall ocr : option bool,
          AtomExtraction.extract_atoms cls file_input format_type ocr filename w
          = AtomExtraction.extract_atoms cls file_input format_type None filename w).
Proof.
  intros T cls w fi fmt fn.
  assert (Hgen : forall ocr,
             ocr_params (Py.lower fmt) ocr = ocr_params (Py.lower fmt) None ->
             AtomExtraction.extract_atoms cls fi fmt ocr fn w
             = AtomExtraction.extract_atoms cls fi fmt None fn w).
  { intros ocr Hp.
    unfold AtomExtraction.extract_atoms, Mixins.extract_atoms, validate_format,
      get_client, bind, lift.
    destruct (_client w) as [c|]; [|reflexivity].
    destruct (negb (Py.mem (Py.lower fmt) SUPPORTED_FORMATS)); [reflexivity|].
    now rewrite Hp. }
  split.
  - apply Hgen, ocr_params_false.
  - intros Hno ocr. apply Hgen. apply mem_not_In in Hno.
    now rewrite !(ocr_params_unsupported _ _ Hno).
Qed.

Lemma ocr_is_opt_in_witness :
  ~ In (Py.lower "CSV") FORMATS_WITH_OCR
  /\ AtomExtraction.extract_atoms AtomExtraction.this (PyStr "docs/sample.pdf") "CSV"
       (Some true) None (configured one_atom_body)
     = AtomExtraction.extract_atoms AtomExtraction.this (PyStr "docs/sample.pdf") "CSV"
         None None (configured one_atom_body).
Proof.
  assert (Hno : ~ In (Py.lower "CSV") FORMATS_WITH_OCR) by (apply mem_not_In; reflexivity).
  split; [exact Hno|].
  exact (proj2 (ocr_is_opt_in _ AtomExtraction.this (configured one_atom_body)
                  (PyStr "docs/sample.pdf") "CSV" None) Hno (Some true)).
Defined.

(** ** The per-format methods and the model *)

Lemma apply_model_twice {T} (cls : Cls T) (result : PyVal T) :
  and_then (apply_model cls result) (apply_model cls) = apply_model cls result.
Proof.
  unfold apply_model. destruct (MODEL cls) as [validate|].
  - destruct result as [j|m]; cbn; [|reflexivity].
    destruct (validate j); reflexivity.
  - reflexivity.
Qed.

Lemma validated_again {T} (cls : Cls T) w fi fmt ocr fn :
  bind (AtomExtraction.extract_atoms cls fi fmt ocr fn)
       (fun result => lift (apply_model cls result)) w
  = AtomExtraction.extract_atoms cls fi fmt ocr fn w.
Proof.
  unfold AtomExtraction.extract_atoms, bind, lift.
  destruct (Mixins.extract_atoms cls fi fmt ocr fn w) as [[j|e] w']; [|reflexivity].
  pose proof (apply_model_twice cls (Raw j)) as H.
  destruct (apply_model cls (Raw j)) as [v|e]; cbn in H |- *; [now rewrite H | reflexivity].
Qed.

(** X8.  Each per-format method of [AtomExtraction] is [extract_atoms] at
    its format: same outcome and same state, for every class object (with
    or without a [MODEL]).  The second validation the override performs on
    the already validated result changes nothing. *)
Theorem per_format_methods_specialize :
  forall (T : Type) (cls : Cls T) (w : World) (file_input : FileInput)
         (ocr : option bool) (filename : option string),
    let generic fmt o := AtomExtraction.extract_atoms cls file_input fmt o filename w in
    AtomExtraction.extract_atoms_csv cls file_input filename w = generic "csv" None
    /\ AtomExtraction.extract_atoms_excel cls file_input filename w = generic "excel" None
    /\ AtomExtraction.extract_atoms_html cls file_input filename w = generic "html" None
    /\ AtomExtraction.extract_atoms_json cls file_input filename w = generic "json" None
    /\ AtomExtraction.extract_atoms_markdown cls file_input filename w
       = generic "markdown" None
    /\ AtomExtraction.extract_atoms_ocr cls file_input filename w = generic "ocr" None
    /\ AtomExtraction.extract_atoms_pdf cls file_input ocr filename w = generic "pdf" ocr
    /\ AtomExtraction.extract_atoms_png cls file_input filename w = generic "png" None
    /\ AtomExtraction.extract_atoms_powerpoint cls file_input ocr filename w
       = generic "powerpoint" ocr
    /\ AtomExtraction.extract_atoms_rtf cls file_input ocr filename w = generic "rtf" ocr
    /\ AtomExtraction.extract_atoms_text cls file_input filename w = generic "text" None
    /\ AtomExtraction.extract_atoms_word cls file_input filename w = generic "word" None
    /\ AtomExtraction.extract_atoms_xml cls file_input filename w = generic "xml" None.
Proof.
  intros T cls w fi ocr fn generic. unfold generic.
  repeat match goal with |- _ /\ _ => split end; apply validated_again.
Qed.

(** Without a [MODEL] on the class, [AtomExtraction.extract_atoms]
    and [TypeDetection.detect_type] hand back the decoded body as it came,
    for every body, and raise exactly what the inherited method raises. *)
Theorem no_model_returns_raw_body :
  forall (T : Type) (cls : Cls T) (w : World) (file_input : FileInput)
         (format_type : string) (ocr : option bool) (filename : option string),
    MODEL cls = None ->
    AtomExtraction.extract_atoms cls file_input format_type ocr filename w
    = (match fst (Mixins.extract_atoms cls file_input format_type ocr filename w) with
       | Return j => Return (Raw j)
       | Raise e => Raise e
       end,
       snd (Mixins.extract_atoms cls file_input format_type ocr filename w))
    /\ TypeDetection.detect_type cls file_input filename w
       = (match fst (Mixins.detect_type cls file_input filename w) with
          | Return j => Return (Raw j)
          | Raise e => Raise e
          end,
          snd (Mixins.detect_type cls file_input filename w)).
Proof.
  intros T cls w fi fmt ocr fn Hm. split.
  - unfold AtomExtraction.extract_atoms, bind, lift, apply_model. rewrite Hm.
    destruct (Mixins.extract_atoms cls fi fmt ocr fn w) as [[j|e] w']; reflexivity.
  - unfold TypeDetection.detect_type, bind, lift, apply_model. rewrite Hm.
    destruct (Mixins.detect_type cls fi fn w) as [[j|e] w']; reflexivity.
Qed.

Lemma no_model_returns_raw_body_witness :
  MODEL (mkCls (T := Models.AtomExtractionResultModel.t) "atom" None) = None
  /\ AtomExtraction.extract_atoms (mkCls (T := Models.AtomExtractionResultModel.t) "atom" None)
       (PyStr "docs/sample.pdf") "csv" None None (configured one_atom_body)
     = (Return (Raw one_atom_body),
        extended (configured one_atom_body)
          [EvExists "docs/sample.pdf"; EvIsFile "docs/sample.pdf"; EvOpen "docs/sample.pdf";
           EvSeek 0; EvRead;
           EvRequest default_client
             (mkCall "POST" "atom/csv" [("Content-Type", "text/csv")] []
                     (RawContent sample_bytes));
           EvClose]).
Proof.
  split; [reflexivity|].
  exact (proj1 (no_model_returns_raw_body _
                  (mkCls (T := Models.AtomExtractionResultModel.t) "atom" None)
                  (configured one_atom_body) (PyStr "docs/sample.pdf") "csv" None None
                  eq_refl)).
Defined.

(** X9.  A successful exchange whose decoded body is not a JSON object -
    the absent result of an empty body, a list, a string, a number - makes
    [AtomExtraction.extract_atoms] raise an exception of pydantic's
    validation error class; the request has been sent by then and the
    state is the one the exchange left. *)
Theorem non_object_body_fails_validation :
  forall (w w' : World) (file_input : FileInput) (format_type : string)
         (ocr : option bool) (filename : option string) (body : Json.t),
    Mixins.extract_atoms AtomExtraction.this file_input format_type ocr filename w
    = (Return body, w') ->
    (forall fields, body <> Json.JObj fields) ->
    exists e : Exc,
      AtomExtraction.extract_atoms AtomExtraction.this file_input format_type ocr filename w
      = (Raise e, w')
      /\ exc_class e = PydanticValidationError.
Proof.
  intros w w' fi fmt ocr fn body Hrun Hno.
  unfold AtomExtraction.extract_atoms, bind. rewrite Hrun.
  unfold lift, apply_model. cbn [MODEL AtomExtraction.this].
  destruct body as [| b | n | s | items | fields];
    try (eexists; split; reflexivity).
  now destruct (Hno fields).
Qed.

Lemma non_object_body_fails_validation_witness :
  Mixins.extract_atoms AtomExtraction.this (PyBytes sample_bytes) "text" None
    (Some "notes.txt") (configured Json.JNull)
  = (Return Json.JNull,
     extended (configured Json.JNull)
       [EvSeek 0; EvRead;
        EvRequest default_client
          (mkCall "POST" "atom/text" [("Content-Type", "text/plain")] []
                  (RawContent sample_bytes))])
  /\ (forall fields, Json.JNull <> Json.JObj fields)
  /\ exists e : Exc,
       AtomExtraction.extract_atoms AtomExtraction.this (PyBytes sample_bytes) "text" None
         (Some "notes.txt") (configured Json.JNull)
       = (Raise e,
          extended (configured Json.JNull)
            [EvSeek 0; EvRead;
             EvRequest default_client
               (mkCall "POST" "atom/text" [("Content-Type", "text/plain")] []
                       (RawContent sample_bytes))])
       /\ exc_class e = PydanticValidationError.
Proof.
  assert (Hno : forall fields, Json.JNull <> Json.JObj fields)
    by (intros fields H; discriminate H).
  split; [reflexivity|]. split; [exact Hno|].
  exact (non_object_body_fails_validation (configured Json.JNull) _
           (PyBytes sample_bytes) "text" None (Some "notes.txt") Json.JNull eq_refl Hno).
Defined.

(** ** Naming the payload *)

(** For a path, the [filename] argument is ignored: the resolved
    name is the last component of the path, so [detect_type] and
    [extract_atoms] behave the same whatever [filename] is passed. *)
Theorem filename_ignored_for_paths :
  forall (T : Type) (cls : Cls T) (w : World) (path : string)
         (filename : option string),
    _prepare_file_input (PyStr path) filename w = _prepare_file_input (PyStr path) None w
    /\ Mixins.detect_type cls (PyStr path) filename w
       = Mixins.detect_type cls (PyStr path) None w
    /\ forall fmt ocr,
        Mixins.extract_atoms cls (PyStr path) fmt ocr filename w
        = Mixins.extract_atoms cls (PyStr path) fmt ocr None w.
Proof.
  intros. repeat split.
Qed.

(** X10.  For raw bytes and for an accepted stream, a non-empty
    [filename] is the resolved name whatever the stream's own [name]
    attribute is - even the sentinel ["file"], and even when [filename] is
    itself ["file"] - and the stream object is passed on as it is, with no
    event recorded. *)
Theorem explicit_filename_wins :
  forall (w : World) (name : string),
    name <> "" ->
    (forall data : list Byte.byte,
        _prepare_file_input (PyBytes data) (Some name) w
        = (Return (mkFile data 0 None, name), w))
    /\ (forall (k : StreamClass) (f : FileObj),
        isinstance_BytesIO_BinaryIO k = true ->
        _prepare_file_input (PyStream k f) (Some name) w = (Return (f, name), w)).
Proof.
  intros w name Hne.
  assert (Ht : Py.truthy (Some name) = true)
    by (destruct name; [contradiction | reflexivity]).
  split.
  - intros data. unfold _prepare_file_input. now rewrite Ht.
  - intros k f Hk. unfold _prepare_file_input. now rewrite Hk, Ht.
Qed.

Lemma explicit_filename_wins_witness :
  "file" <> ""
  /\ isinstance_BytesIO_BinaryIO io_BytesIO = true
  /\ _prepare_file_input (PyStream io_BytesIO (mkFile sample_bytes 1 (Some "file")))
       (Some "file") (configured one_atom_body)
     = (Return (mkFile sample_bytes 1 (Some "file"), "file"), configured one_atom_body).
Proof.
  assert (Hne : "file" <> "") by discriminate.
  split; [exact Hne|]. split; [reflexivity|].
  exact (proj2 (explicit_filename_wins (configured one_atom_body) "file" Hne)
               io_BytesIO (mkFile sample_bytes 1 (Some "file")) eq_refl).
Defined.

(** ** The extraction result model *)

Lemma validate_each_Forall2 {A} (validate : Json.t -> Result A) items out :
  Models.validate_each validate items = Return out ->
  Forall2 (fun j a => validate j = Return a) items out.
Proof.
  revert out. induction items as [|j items IH]; cbn; intros out H.
  - inversion H. constructor.
  - destruct (validate j) as [a|e] eqn:Ej; cbn in H; [|discriminate].
    destruct (Models.validate_each validate items) as [rest|e] eqn:Er; cbn in H;
      [|discriminate].
    inversion H; subst. constructor; [exact Ej | now apply IH].
Qed.

Lemma validate_each_failure {A} (validate : Json.t -> Result A) items j e :
  In j items ->
  validate j = Raise e ->
  exists e', Models.validate_each validate items = Raise e'
             /\ exists j', In j' items /\ validate j' = Raise e'.
Proof.
  induction items as [|j0 items IH]; cbn; intros Hin Hj; [contradiction|].
  destruct (validate j0) as [a|e0] eqn:E0; cbn.
  - destruct Hin as [-> | Hin]; [congruence|].
    destruct (IH Hin Hj) as (e' & He' & j' & Hj' & Hv). rewrite He'. cbn.
    exists e'. split; [reflexivity|]. exists j'. auto.
  - exists e0. split; [reflexivity|]. exists j0. auto.
Qed.

(** X11.  When a body validates, the atoms of the result are the items of
    its atom list, one for one and in order: the result has as many atoms
    as the body has items, and the atom at each position is the validated
    item at that position. *)
Theorem atoms_follow_the_body :
  forall (body : list (string * Json.t)) (items : list Json.t)
         (m : Models.AtomExtractionResultModel.t),
    Models.field "Atoms" "atoms" body = Some (Json.JArr items) ->
    Models.AtomExtractionResultModel.model_validate (Json.JObj body) = Return m ->
    length (Models.AtomExtractionResultModel.atoms m) = length items
    /\ Forall2 (fun j a => Models.AtomModel.model_validate j = Return a)
               items (Models.AtomExtractionResultModel.atoms m).
Proof.
  intros body items m Hf Hv.
  unfold Models.AtomExtractionResultModel.model_validate in Hv. rewrite Hf in Hv.
  cbn [Models.AtomExtractionResultModel.validate_atoms] in Hv.
  destruct (Models.validate_each Models.AtomModel.model_validate items) as [ats|e] eqn:Ea;
    cbn [and_then] in Hv; [|discriminate].
  destruct (Models.optional_dict _ _) as [md|e]; cbn [and_then] in Hv; [|discriminate].
  destruct (Models.optional_str _ _) as [ft|e]; cbn [and_then] in Hv; [|discriminate].
  inversion Hv; subst. cbn.
  pose proof (validate_each_Forall2 _ _ _ Ea) as HF.
  split; [symmetry; exact (Forall2_length HF) | exact HF].
Qed.

Lemma atoms_follow_the_body_witness :
  Models.field "Atoms" "atoms" [("Atoms", Json.JArr [Json.JObj [("Content", Json.JStr "hello")]])]
  = Some (Json.JArr [Json.JObj [("Content", Json.JStr "hello")]])
  /\ Models.AtomExtractionResultModel.model_validate one_atom_body
     = Return (Models.AtomExtractionResultModel.mk
                 [Models.AtomModel.mk "hello" None None None] None None)
  /\ length (Models.AtomExtractionResultModel.atoms
               (Models.AtomExtractionResultModel.mk
                  [Models.AtomModel.mk "hello" None None None] None None))
     = length [Json.JObj [("Content", Json.JStr "hello")]].
Proof.
  split; [reflexivity|]. split; [reflexivity|].
  exact (proj1 (atoms_follow_the_body
                  [("Atoms", Json.JArr [Json.JObj [("Content", Json.JStr "hello")]])]
                  [Json.JObj [("Content", Json.JStr "hello")]]
                  (Models.AtomExtractionResultModel.mk
                     [Models.AtomModel.mk "hello" None None None] None None)
                  eq_refl eq_refl)).
Defined.

(** X12.  Validation of the atom list is all or nothing: if any item of
    the list is not a valid atom (for instance an object without
    [Content]), no result is built and pydantic's validation error is
    raised, however many valid atoms surround it. *)
Theorem one_invalid_atom_fails_the_result :
  forall (body : list (string * Json.t)) (items : list Json.t) (j : Json.t) (e : Exc),
    Models.field "Atoms" "atoms" body = Some (Json.JArr items) ->
    In j items ->
    Models.AtomModel.model_validate j = Raise e ->
    exists e' : Exc,
      Models.AtomExtractionResultModel.model_validate (Json.JObj body) = Raise e'
      /\ exc_class e' = PydanticValidationError.
Proof.
  intros body items j e Hf Hin Hj.
  destruct (validate_each_failure _ items j e Hin Hj) as (e' & He' & _).
  eexists. split.
  - unfold Models.AtomExtractionResultModel.model_validate. rewrite Hf.
    cbn [Models.AtomExtractionResultModel.validate_atoms]. rewrite He'. reflexivity.
  - reflexivity.
Qed.

Lemma one_invalid_atom_fails_the_result_witness :
  In (Json.JObj [("AtomType", Json.JStr "Text")])
     [Json.JObj [("Content", Json.JStr "a")];
      Json.JObj [("AtomType", Json.JStr "Text")];
      Json.JObj [("Content", Json.JStr "c")]]
  /\ Models.AtomModel.model_validate (Json.JObj [("AtomType", Json.JStr "Text")])
     = Raise (mkExc PydanticValidationError "AtomModel")
  /\ exists e' : Exc,
      Models.AtomExtractionResultModel.model_validate
        (Json.JObj [("Atoms",
                     Json.JArr [Json.JObj [("Content", Json.JStr "a")];
                                Json.JObj [("AtomType", Json.JStr "Text")];
                                Json.JObj [("Content", Json.JStr "c")]])])
      = Raise e'
      /\ exc_class e' = PydanticValidationError.
Proof.
  assert (Hin : In (Json.JObj [("AtomType", Json.JStr "Text")])
                   [Json.JObj [("Content", Json.JStr "a")];
                    Json.JObj [("AtomType", Json.JStr "Text")];
                    Json.JObj [("Content", Json.JStr "c")]])
    by (right; left; reflexivity).
  split; [exact Hin|]. split; [reflexivity|].
  exact (one_invalid_atom_fails_the_result
           [("Atoms",
             Json.JArr [Json.JObj [("Content", Json.JStr "a")];
                        Json.JObj [("AtomType", Json.JStr "Text")];
                        Json.JObj [("Content", Json.JStr "c")]])]
           [Json.JObj [("Content", Json.JStr "a")];
            Json.JObj [("AtomType", Json.JStr "Text")];
            Json.JObj [("Content", Json.JStr "c")]]
           (Json.JObj [("AtomType", Json.JStr "Text")])
           (mkExc PydanticValidationError "AtomModel")
           eq_refl Hin eq_refl).
Defined.

Lemma dict_get_skip {V} (key k : string) (v : V) (d1 d2 : list (string * V)) :
  key <> k ->
  Py.dict_get key (d1 ++ (k, v) :: d2) = Py.dict_get key (d1 ++ d2).
Proof.
  intros Hne. induction d1 as [|[k1 v1] d1 IH]; cbn.
  - apply String.eqb_neq in Hne. now rewrite Hne.
  - now rewrite IH.
Qed.

(** X13.  Keys the model does not know are ignored wherever they stand in
    the body: adding an entry whose key is none of [Atoms], [Metadata],
    [FileType] and the attribute names [atoms], [metadata], [file_type]
    does not change what validation gives. *)
Theorem unknown_keys_are_ignored :
  forall (before after : list (string * Json.t)) (k : string) (v : Json.t),
    ~ In k ["Atoms"; "atoms"; "Metadata"; "metadata"; "FileType"; "file_type"] ->
    Models.AtomExtractionResultModel.model_validate (Json.JObj (before ++ (k, v) :: after))
    = Models.AtomExtractionResultModel.model_validate (Json.JObj (before ++ after)).
Proof.
  intros d1 d2 k v Hk.
  assert (Hf : forall alias name,
             In alias ["Atoms"; "atoms"; "Metadata"; "metadata"; "FileType"; "file_type"] ->
             In name ["Atoms"; "atoms"; "Metadata"; "metadata"; "FileType"; "file_type"] ->
             Models.field alias name (d1 ++ (k, v) :: d2)
             = Models.field alias name (d1 ++ d2)).
  { intros alias name Ha Hn. unfold Models.field.
    rewrite !dict_get_skip; [reflexivity | |]; intros ->; contradiction. }
  unfold Models.AtomExtractionResultModel.model_validate.
  rewrite !Hf; [reflexivity | ..]; cbn; auto 10.
Qed.

Lemma unknown_keys_are_ignored_witness :
  ~ In "Confidence" ["Atoms"; "atoms"; "Metadata"; "metadata"; "FileType"; "file_type"]
  /\ Models.AtomExtractionResultModel.model_validate
       (Json.JObj ([("FileType", Json.JStr "pdf")] ++ ("Confidence", Json.JNum 1) :: []))
     = Models.AtomExtractionResultModel.model_validate
         (Json.JObj ([("FileType", Json.JStr "pdf")] ++ [])).
Proof.
  assert (Hk : ~ In "Confidence"
                  ["Atoms"; "atoms"; "Metadata"; "metadata"; "FileType"; "file_type"]).
  { cbn. intros H. repeat (destruct H as [H | H]; [discriminate H|]). exact H. }
  split; [exact Hk|].
  exact (unknown_keys_are_ignored [("FileType", Json.JStr "pdf")] [] "Confidence"
           (Json.JNum 1) Hk).
Defined.

(** ** The URL helper *)

Lemma flat_map_filter_keep {A B} (f : A -> list B) (p : A -> bool) (l : list A) :
  (forall a, p a = false -> f a = []) ->
  flat_map f (filter p l) = flat_map f l.
Proof.
  intros H. induction l as [|a l IH]; cbn; [reflexivity|].
  destruct (p a) eqn:E; cbn; rewrite IH; [reflexivity | now rewrite (H a E)].
Qed.

Lemma flat_map_filter_drop {A B} (f : A -> list B) (p : A -> bool) (l : list A) :
  (forall a, p a = true -> f a = []) ->
  flat_map f (filter p l) = [].
Proof.
  intros H. induction l as [|a l IH]; cbn; [reflexivity|].
  destruct (p a) eqn:E; cbn; [now rewrite (H a E), IH | exact IH].
Qed.

(** X14.  The query string does not depend on how valued parameters and
    flags are interleaved: the valued parameters come first, in their own
    order, and the flags follow, in theirs. *)
Theorem query_lists_values_then_flags :
  forall (T : Type) (cls : Cls T) (args : list (option string))
         (query_params : list (string * option string)),
    _get_url_base cls args query_params
    = _get_url_base cls args (valued query_params ++ flags query_params).
Proof.
  intros T cls args params.
  set (values := fun kv : string * option string =>
                   match snd kv with Some v => [(fst kv, v)] | None => [] end).
  set (names := fun kv : string * option string =>
                  match snd kv with Some _ => [] | None => [fst kv] end).
  assert (Hv : flat_map values (valued params ++ flags params) = flat_map values params).
  { unfold valued, flags. rewrite flat_map_app.
    rewrite flat_map_filter_keep by (intros [k [v|]]; cbn; congruence).
    rewrite flat_map_filter_drop by (intros [k [v|]]; cbn; congruence).
    apply app_nil_r. }
  assert (Hn : flat_map names (valued params ++ flags params) = flat_map names params).
  { unfold valued, flags. rewrite flat_map_app.
    rewrite flat_map_filter_drop by (intros [k [v|]]; cbn; congruence).
    rewrite flat_map_filter_keep by (intros [k [v|]]; cbn; congruence).
    reflexivity. }
  unfold _get_url_base. fold values names. now rewrite Hv, Hn.
Qed.

(** X15.  Path segments that are [None] or empty leave no mark: inserting
    one anywhere among the arguments gives the same URL, so the path never
    gains an empty segment from its arguments. *)
Theorem empty_segments_are_dropped :
  forall (T : Type) (cls : Cls T) (before after : list (option string))
         (query_params : list (string * option string)),
    _get_url_base cls (before ++ None :: after) query_params
    = _get_url_base cls (before ++ after) query_params
    /\ _get_url_base cls (before ++ Some "" :: after) query_params
       = _get_url_base cls (before ++ after) query_params.
Proof.
  intros T cls a1 a2 params. unfold _get_url_base.
  rewrite !flat_map_app. cbn [flat_map app].
  split; [reflexivity|].
  assert (H : forall l1 l2 : list string,
             filter (fun p => negb (p =? "")) (l1 ++ "" :: l2)
             = filter (fun p => negb (p =? "")) (l1 ++ l2)).
  { intros l1 l2. now rewrite !filter_app. }
  change (RESOURCE_NAME cls
            :: (flat_map (fun a => match a with Some x => [x] | None => [] end) a1
                ++ "" :: flat_map (fun a => match a with Some x => [x] | None => [] end) a2)%list)
    with ((RESOURCE_NAME cls
            :: flat_map (fun a => match a with Some x => [x] | None => [] end) a1)
          ++ "" :: flat_map (fun a => match a with Some x => [x] | None => [] end) a2)%list.
  rewrite H. reflexivity.
Qed.

(** ** Content type by file name *)

(** X16.  For a file name [stem.ext], alone or behind any directory
    prefix, the content type [detect_type] infers is the table's entry for
    [.ext] lower-cased, and the default when there is none; the directory
    and the stem (dots included) play no part.  Here [stem] is non-empty
    without a slash and [ext] is non-empty without a dot or a slash. *)
Theorem content_type_of_extension :
  forall (stem ext : string),
    stem <> "" -> Py.rfind "/" stem = None ->
    ext <> "" -> Py.rfind "." ext = None -> Py.rfind "/" ext = None ->
    let expected :=
      match Py.dict_get ("." ++ Py.lower ext) mime_map with
      | Some m => m
      | None => "application/octet-stream"
      end in
    infer_content_type (stem ++ "." ++ ext) = expected
    /\ forall dir, infer_content_type (dir ++ "/" ++ stem ++ "." ++ ext) = expected.
Proof.
  intros stem ext Hs Hss He Hed Hes expected.
  assert (Hbase : Py.rfind "/" (stem ++ "." ++ ext) = None).
  { apply rfind_app_none; [exact Hss|]. cbn. now rewrite Hes. }
  assert (Hne : stem ++ "." ++ ext <> "") by (destruct stem; [contradiction | discriminate]).
  assert (Hnd : stem ++ "." ++ ext <> ".").
  { destruct stem as [|a stem]; [contradiction|]. cbn.
    destruct stem; cbn; intros H; inversion H. }
  destruct (name_of_base _ Hbase Hne Hnd) as [Hn1 Hn2].
  unfold infer_content_type. split.
  - now rewrite (suffix_of_name _ stem ext Hn1 Hs He Hed), lower_dot.
  - intros dir.
    now rewrite (suffix_of_name _ stem ext (Hn2 dir) Hs He Hed), lower_dot.
Qed.

Lemma content_type_of_extension_witness :
  "backup.2024.report" <> "" /\ Py.rfind "/" "backup.2024.report" = None
  /\ "DOCX" <> "" /\ Py.rfind "." "DOCX" = None /\ Py.rfind "/" "DOCX" = None
  /\ infer_content_type ("/srv/in.box" ++ "/" ++ "backup.2024.report" ++ "." ++ "DOCX")
     = "application/vnd.openxmlformats-officedocument.wordprocessingml.document".
Proof.
  assert (Hs : "backup.2024.report" <> "") by discriminate.
  assert (He : "DOCX" <> "") by discriminate.
  repeat (split; [first [exact Hs | exact He | reflexivity]|]).
  exact (proj2 (content_type_of_extension "backup.2024.report" "DOCX"
                  Hs eq_refl He eq_refl eq_refl) "/srv/in.box").
Defined.

(** X17.  A name without a usable extension is sent as
    [application/octet-stream]: a name with no dot, a hidden file whose
    only dot is the first character (such as [.pdf]), and a name that ends
    in a dot. *)
Theorem no_extension_means_octet_stream :
  forall name : string,
    Py.rfind "/" name = None ->
    Py.rfind "." name = None
    \/ (exists rest, name = "." ++ rest /\ Py.rfind "." rest = None)
    \/ (exists stem, name = stem ++ ".") ->
    infer_content_type name = "application/octet-stream".
Proof.
  intros name Hs Hcases.
  assert (Hname : Pathlib.name name = name \/ Pathlib.name name = "").
  { destruct (String.eqb_spec name "") as [->|He]; [now right|].
    destruct (String.eqb_spec name ".") as [->|Hd]; [now right|].
    left. exact (proj1 (name_of_base name Hs He Hd)). }
  assert (Hsuf : Pathlib.suffix name = "").
  { unfold Pathlib.suffix. destruct Hname as [-> | ->]; [|reflexivity].
    destruct Hcases as [Hnone | [[rest [-> Hrest]] | [stem ->]]].
    - now rewrite Hnone.
    - cbn. now rewrite Hrest.
    - change (stem ++ ".") with (stem ++ String "." "").
      rewrite (rfind_app_at "." stem "" eq_refl), length_append. cbn [String.length].
      replace (String.length stem + 1 - 1) with (String.length stem) by lia.
      rewrite Nat.ltb_irrefl. now rewrite andb_false_r. }
  unfold infer_content_type. now rewrite Hsuf.
Qed.

Lemma no_extension_means_octet_stream_witness :
  Py.rfind "/" ".pdf" = None
  /\ (exists rest, ".pdf" = "." ++ rest /\ Py.rfind "." rest = None)
  /\ infer_content_type ".pdf" = "application/octet-stream".
Proof.
  assert (Hh : exists rest, ".pdf" = "." ++ rest /\ Py.rfind "." rest = None)
    by (exists "pdf"; split; reflexivity).
  split; [reflexivity|]. split; [exact Hh|].
  exact (no_extension_means_octet_stream ".pdf" eq_refl (or_intror (or_introl Hh))).
Defined.

(** ** The type detection model and the path variant *)

(** X18.  A detection body validates only if it carries a string under
    [FileType] (or, failing that key, under [file_type]), and the result's
    file type is that string; an object without either key is refused with
    an exception of pydantic's validation error class. *)
Theorem detection_result_needs_file_type :
  forall (float : Type) (to_float : Json.t -> option float)
         (body : list (string * Json.t)),
    (forall m,
        Models.TypeDetectionResultModel.model_validate to_float (Json.JObj body) = Return m ->
        Models.field "FileType" "file_type" body
        = Some (Json.JStr (Models.TypeDetectionResultModel.file_type m)))
    /\ (Py.dict_get "FileType" body = None ->
        Py.dict_get "file_type" body = None ->
        exists e : Exc,
          Models.TypeDetectionResultModel.model_validate to_float (Json.JObj body)
          = Raise e
          /\ exc_class e = PydanticValidationError).
Proof.
  intros float to_float body. split.
  - intros m. unfold Models.TypeDetectionResultModel.model_validate.
    destruct (Models.field "FileType" "file_type" body) as [[| | |ft| |]|];
      try discriminate.
    destruct (Models.TypeDetectionResultModel.optional_float float to_float _) as [c|e];
      cbn [and_then]; [|discriminate].
    destruct (Models.optional_dict _ _) as [md|e]; cbn [and_then]; [|discriminate].
    intros H. inversion H. reflexivity.
  - intros H1 H2. unfold Models.TypeDetectionResultModel.model_validate, Models.field.
    rewrite H1, H2. eexists. split; reflexivity.
Qed.

Lemma detection_result_needs_file_type_witness :
  Py.dict_get "FileType" [("Confidence", Json.JNum 1)] = None
  /\ Py.dict_get "file_type" [("Confidence", Json.JNum 1)] = None
  /\ exists e : Exc,
       Models.TypeDetectionResultModel.model_validate (fun _ => @None unit)
         (Json.JObj [("Confidence", Json.JNum 1)])
       = Raise e
       /\ exc_class e = PydanticValidationError.
Proof.
  split; [reflexivity|]. split; [reflexivity|].
  exact (proj2 (detection_result_needs_file_type unit (fun _ => @None unit)
                  [("Confidence", Json.JNum 1)]) eq_refl eq_refl).
Defined.

Lemma normalization_succeeds_witness :
  sample_fs "docs/sample.pdf" = Some (RegularFile sample_bytes)
  /\ _prepare_file_input (PyStr "docs/sample.pdf") (Some "other.txt")
       (configured one_atom_body)
     = (Return (mkFile sample_bytes 0 (Some "docs/sample.pdf"),
                Pathlib.name "docs/sample.pdf"),
        log_event (EvOpen "docs/sample.pdf")
          (log_event (EvIsFile "docs/sample.pdf")
             (log_event (EvExists "docs/sample.pdf") (configured one_atom_body))))
  /\ Pathlib.name "docs/sample.pdf" = "sample.pdf".
Proof.
  split; [reflexivity|]. split; [|reflexivity].
  exact (proj1 (normalization_succeeds (configured one_atom_body) (Some "other.txt"))
               "docs/sample.pdf" sample_bytes eq_refl).
Defined.
